(** * cronet-go build tool ([cmd/build/main.go]): model and verified properties

    The Go program is a one-shot build orchestrator.  Its pure parts (the
    target registry, the selector parser, the GN argument synthesis, the CGO
    descriptor text) are embedded as Rocq functions; its effectful parts
    (file system, external processes, HTTP) run in a small monad that threads
    a file system, collects a trace and stops at [fatal].

    [src/cmd/build/main.go] holds two revisions of the file.  The registry,
    [parseTargets], [cmdPackage], [generateCGOConfigs], [init], [main],
    [cmdSync] and [cmdPublish] are identical in both; revision-specific code
    lives in [Rev1] (the argument list, [downloadFile]), [Rev1Build]
    ([ensureLinuxSysroot], [ensureAndroidNDK], [buildTarget]) and [Rev2]
    ([runGetClang], [hostToCPU], [buildTarget]).  What the tool takes from
    its surroundings is a field of [Env], [Host] or [Library], and what
    [flag.Parse()] makes of the command line is a [Flags]; [process] is
    [init] followed by [main]. *)

From Stdlib Require Import ZArith NArith Ascii String DecimalString Lia.
From stdpp Require Import gmap strings list.

Set Default Proof Using "Type".

(* ===================================================================== *)
(** * Go strings

    A Go [string] is a sequence of bytes; [String.string] over [ascii]
    (8-bit) is the same data.  [==] on strings is [String.eqb]. *)
(* ===================================================================== *)

Definition byte_val (c : ascii) : N := N_of_ascii c.

(** [strings.Split(s, sep)] for a one-byte separator, which is what both call
    sites in [parseTargets] pass (a comma and a slash).  The result is never
    empty: [Split("", ",")] is [[""]]. *)
Fixpoint strings_Split (s : string) (sep : ascii) : list string :=
  match s with
  | EmptyString => [EmptyString]
  | String c rest =>
      if Ascii.eqb c sep then EmptyString :: strings_Split rest sep
      else match strings_Split rest sep with
           | hd :: tl => String c hd :: tl
           | [] => [String c EmptyString]
           end
  end.

(** [strings.Join(elems, sep)]. *)
Fixpoint strings_Join (elems : list string) (sep : string) : string :=
  match elems with
  | [] => ""
  | [e] => e
  | e :: rest => e +:+ sep +:+ strings_Join rest sep
  end.

(** The [asciiSpace] table of package [strings]: tab, LF, VT, FF, CR, space. *)
Definition asciiSpace (c : ascii) : bool :=
  let n := byte_val c in
  ((9 <=? n) && (n <=? 13) || (n =? 32))%N.

(** [unicode.IsSpace] on the code points above U+007F, read off their UTF-8
    encodings: U+0085 and U+00A0 take two bytes; U+1680, U+2000..U+200A,
    U+2028, U+2029, U+202F, U+205F and U+3000 take three. *)
Definition space2 (a b : ascii) : bool :=
  let x := byte_val a in
  let y := byte_val b in
  ((x =? 194) && ((y =? 133) || (y =? 160)))%N.

Definition space3 (a b c : ascii) : bool :=
  let x := byte_val a in
  let y := byte_val b in
  let z := byte_val c in
  ((x =? 225) && (y =? 154) && (z =? 128)
   || (x =? 226) && (y =? 128)
        && ((128 <=? z) && (z <=? 138) || (z =? 168) || (z =? 169) || (z =? 175))
   || (x =? 226) && (y =? 129) && (z =? 159)
   || (x =? 227) && (y =? 128) && (z =? 128))%N.

(** [strings.TrimLeftFunc(s, unicode.IsSpace)]: drop white-space runes from
    the front.  A byte that starts no white-space encoding stops the scan. *)
Fixpoint trimLeftSpace (s : string) : string :=
  match s with
  | EmptyString => EmptyString
  | String a r1 =>
      if asciiSpace a then trimLeftSpace r1
      else match r1 with
           | EmptyString => s
           | String b r2 =>
               if space2 a b then trimLeftSpace r2
               else match r2 with
                    | EmptyString => s
                    | String c r3 => if space3 a b c then trimLeftSpace r3 else s
                    end
           end
  end.

(** The same scan from the end ([strings.TrimRightFunc]), run on the reversed
    string: the last rune's bytes come first, in reverse order. *)
Fixpoint trimLeftSpaceRev (s : string) : string :=
  match s with
  | EmptyString => EmptyString
  | String a r1 =>
      if asciiSpace a then trimLeftSpaceRev r1
      else match r1 with
           | EmptyString => s
           | String b r2 =>
               if space2 b a then trimLeftSpaceRev r2
               else match r2 with
                    | EmptyString => s
                    | String c r3 => if space3 c b a then trimLeftSpaceRev r3 else s
                    end
           end
  end.

Definition trimRightSpace (s : string) : string :=
  String.rev (trimLeftSpaceRev (String.rev s)).

(** [strings.TrimSpace]. *)
Definition strings_TrimSpace (s : string) : string :=
  trimRightSpace (trimLeftSpace s).

(* ===================================================================== *)
(** * The target registry *)
(* ===================================================================== *)

(** [type Target struct]. *)
Record Target := mkTarget {
  OS : string;    (* gn target_os: linux, mac, win, android, ios *)
  CPU : string;   (* gn target_cpu: x64, arm64, x86, arm *)
  GOOS : string;  (* Go GOOS *)
  ARCH : string   (* Go GOARCH *)
}.

Global Instance Target_eq_dec : EqDecision Target.
Proof. solve_decision. Defined.

(** [var allTargets]. *)
Definition allTargets : list Target := [
  mkTarget "linux" "x64" "linux" "amd64";
  mkTarget "linux" "arm64" "linux" "arm64";
  mkTarget "mac" "x64" "darwin" "amd64";
  mkTarget "mac" "arm64" "darwin" "arm64";
  mkTarget "win" "x64" "windows" "amd64";
  mkTarget "win" "arm64" "windows" "arm64";
  mkTarget "ios" "arm64" "ios" "arm64";
  mkTarget "android" "arm64" "android" "arm64";
  mkTarget "android" "x64" "android" "amd64";
  mkTarget "android" "arm" "android" "arm";
  mkTarget "android" "x86" "android" "386"
].

(* ===================================================================== *)
(** * Fatal errors

    [fatal(format, args...)] prints ["[build] ERROR: " + message] to standard
    error and calls [os.Exit(1)]: nothing after it runs.  A computation that
    can reach [fatal] returns a [result]; [Fatal] carries the formatted
    message. *)
(* ===================================================================== *)

Inductive result (A : Type) : Type :=
  | Ok (a : A)
  | Fatal (msg : string).
Arguments Ok {A} a.
Arguments Fatal {A} msg.

Global Instance result_eq_dec {A : Type} `{EqDecision A} : EqDecision (result A).
Proof. solve_decision. Defined.

Definition is_Ok {A} (r : result A) : bool :=
  match r with Ok _ => true | Fatal _ => false end.

(* ===================================================================== *)
(** * The target resolver: [parseTargets] *)
(* ===================================================================== *)

(** The inner loop of [parseTargets]: the first registry entry whose
    [(GOOS, ARCH)] equals the pair, in registry order. *)
Definition matchesTarget (goos goarch : string) (t : Target) : bool :=
  String.eqb (GOOS t) goos && String.eqb (ARCH t) goarch.

Definition findTarget (goos goarch : string) : option Target :=
  List.find (matchesTarget goos goarch) allTargets.

(** One iteration of the loop over [strings.Split(s, ",")]. *)
Definition parsePart (part : string) : result Target :=
  let part := strings_TrimSpace part in
  match strings_Split part "/" with
  | [goos; goarch] =>
      match findTarget goos goarch with
      | Some t => Ok t
      | None => Fatal ("unsupported target: " +:+ goos +:+ "/" +:+ goarch)
      end
  | _ => Fatal ("invalid target format: " +:+ part +:+ " (expected os/arch)")
  end.

(** The loop itself; [targets] is the slice built so far. *)
Fixpoint parseParts (parts : list string) (targets : list Target)
  : result (list Target) :=
  match parts with
  | [] => Ok targets
  | part :: rest =>
      match parsePart part with
      | Ok t => parseParts rest (targets ++ [t])
      | Fatal msg => Fatal msg
      end
  end.

Section Resolver.
(** [runtime.GOOS] and [runtime.GOARCH] of the running process. *)
Variables runtime_GOOS runtime_GOARCH : string.

Definition parseTargets (s : string) : result (list Target) :=
  if String.eqb s "" then
    match findTarget runtime_GOOS runtime_GOARCH with
    | Some t => Ok [t]
    | None =>
        Fatal ("unsupported host platform: "
               +:+ runtime_GOOS +:+ "/" +:+ runtime_GOARCH)
    end
  else if String.eqb s "all" then Ok allTargets
  else parseParts (strings_Split s ",") [].

End Resolver.


(* ===================================================================== *)
(** * Formatting helpers *)
(* ===================================================================== *)

(** The double-quote and newline bytes, for the formatted strings that hold
    them. *)
Definition dquote : string := String "034"%char EmptyString.
Definition newline : string := String "010"%char EmptyString.

(** [fmt.Sprintf("key=\"%s\"", v)]. *)
Definition quoted (key v : string) : string :=
  key +:+ "=" +:+ dquote +:+ v +:+ dquote.

(** Indexing a Go [map[string]string] literal: a missing key reads as the
    empty string. *)
Definition map_index (m : gmap string string) (k : string) : string :=
  default "" (m !! k).

(* ===================================================================== *)
(** * The configuration synthesizer (the argument list of [buildTarget]) *)
(* ===================================================================== *)

(** The directives both revisions list first, in this order. *)
Definition commonArgs : list string := [
  "is_official_build=true";
  "is_debug=false";
  "is_clang=true";
  "fatal_linker_warnings=false";
  "treat_warnings_as_errors=false";
  "is_cronet_build=true";
  "use_udev=false";
  "use_aura=false";
  "use_ozone=false";
  "use_gio=false";
  "use_platform_icu_alternatives=true";
  "use_glib=false";
  "disable_file_support=true";
  "enable_websockets=false";
  "use_kerberos=false";
  "disable_zstd_filter=false";
  "enable_mdns=false";
  "enable_reporting=false";
  "include_transport_security_state_preload_list=false";
  "enable_device_bound_sessions=false";
  "enable_bracketed_proxy_uris=true";
  "enable_quic_proxy_support=true";
  "enable_disk_cache_sql_backend=false";
  "use_nss_certs=false";
  "enable_backup_ref_ptr_support=false";
  "enable_dangling_raw_ptr_checks=false";
  "exclude_unwind_tables=true";
  "enable_resource_allowlist_generation=false";
  "symbol_level=0"
].

(** The overlays that are the same in both revisions. *)
Definition androidArgs : list string := [
  "use_sysroot=false";
  "default_min_sdk_version=24";
  "is_high_end_android=true";
  "android_ndk_major_version=28"
].

Definition iosArgs : list string := [
  "use_sysroot=false";
  "ios_enable_code_signing=false";
  "enable_ios_bitcode=false";
  quoted "target_environment" "device"
].

(** [outDir] of [buildTarget]. *)
Definition outDir (t : Target) : string :=
  "out/cronet-" +:+ OS t +:+ "-" +:+ CPU t.

(* ===================================================================== *)
(** * Packaging names and the CGO descriptor text *)
(* ===================================================================== *)

(** [fmt.Sprintf("%s_%s", t.GOOS, t.ARCH)]: the directory of a target under
    [lib/]. *)
Definition libDirName (t : Target) : string := GOOS t +:+ "_" +:+ ARCH t.

(** The built library of a target, relative to [srcRoot]. *)
Definition builtLibrary (t : Target) : string :=
  "out/cronet-" +:+ OS t +:+ "-" +:+ CPU t
  +:+ "/obj/components/cronet/libcronet_static.a".

(** [filename] of [generateCGOConfigs]. *)
Definition cgoFilename (t : Target) : string :=
  "cgo_" +:+ GOOS t +:+ "_" +:+ ARCH t +:+ ".go".

(** [ldflags] of [generateCGOConfigs]. *)
Definition ldflags (t : Target) : list string :=
  let flags := ["-L${SRCDIR}/lib/" +:+ GOOS t +:+ "_" +:+ ARCH t] in
  let flags := flags ++ ["-lcronet"] in
  let flags := flags ++ ["-lc++"] in
  if String.eqb (GOOS t) "linux" then
    flags ++ ["-ldl"; "-lpthread"; "-lm"; "-lresolv"]
  else if String.eqb (GOOS t) "darwin" then
    flags ++ ["-framework Security"; "-framework CoreFoundation";
              "-framework SystemConfiguration"; "-framework Network";
              "-framework AppKit"; "-framework CFNetwork";
              "-framework UniformTypeIdentifiers"]
  else if String.eqb (GOOS t) "windows" then
    flags ++ ["-lws2_32"; "-lcrypt32"; "-lsecur32"; "-ladvapi32"; "-lwinhttp"]
  else if String.eqb (GOOS t) "android" then
    flags ++ ["-ldl"; "-llog"; "-landroid"]
  else if String.eqb (GOOS t) "ios" then
    flags ++ ["-framework Security"; "-framework CoreFoundation";
              "-framework SystemConfiguration"; "-framework Network";
              "-framework UIKit"]
  else flags.

(** [content] of [generateCGOConfigs]. *)
Definition cgoContent (t : Target) : string :=
  "//go:build " +:+ GOOS t +:+ " && " +:+ ARCH t +:+ newline
  +:+ newline
  +:+ "package cronet" +:+ newline
  +:+ newline
  +:+ "// #cgo CFLAGS: -I${SRCDIR}/include" +:+ newline
  +:+ "// #cgo LDFLAGS: " +:+ strings_Join (ldflags t) " " +:+ newline
  +:+ "import " +:+ dquote +:+ "C" +:+ dquote +:+ newline.

(* ===================================================================== *)
(** * Paths: [path/filepath] on a host whose separator is the slash *)
(* ===================================================================== *)

(** The element stack of [filepath.Clean]: empty and [.] elements are
    dropped; [..] removes the element before it, is kept at the front of a
    relative path, and is dropped at the root.  [acc] is in reverse order. *)
Fixpoint cleanElems (rooted : bool) (elems acc : list string) : list string :=
  match elems with
  | [] => rev acc
  | e :: rest =>
      if String.eqb e "" || String.eqb e "." then cleanElems rooted rest acc
      else if String.eqb e ".." then
        match acc with
        | top :: acc' =>
            if String.eqb top ".." then cleanElems rooted rest (e :: acc)
            else cleanElems rooted rest acc'
        | [] => if rooted then cleanElems rooted rest []
                else cleanElems rooted rest [e]
        end
      else cleanElems rooted rest (e :: acc)
  end.

Definition filepath_Clean (path : string) : string :=
  match path with
  | EmptyString => "."
  | String c _ =>
      let rooted := Ascii.eqb c "/" in
      let body := strings_Join (cleanElems rooted (strings_Split path "/") []) "/" in
      if rooted then "/" +:+ body
      else if String.eqb body "" then "." else body
  end.

(** [filepath.Join]: the elements from the first non-empty one on, joined by
    slashes and cleaned; the empty string when every element is empty. *)
Fixpoint filepath_Join (elem : list string) : string :=
  match elem with
  | [] => ""
  | e :: rest =>
      if String.eqb e "" then filepath_Join rest
      else filepath_Clean (strings_Join elem "/")
  end.

(** The part of a reversed path from its first slash on. *)
Fixpoint fromSlash (s : string) : string :=
  match s with
  | EmptyString => EmptyString
  | String c rest => if Ascii.eqb c "/" then s else fromSlash rest
  end.

(** [filepath.Dir]: everything up to the last slash, cleaned. *)
Definition filepath_Dir (path : string) : string :=
  filepath_Clean (String.rev (fromSlash (String.rev path))).

(* ===================================================================== *)
(** * The world the tool acts on

    A flat file system (whole paths to nodes); a run also leaves the trace of
    what it did, each call with its outcome.  Parent directories are not
    tracked: a node can be created at any path. *)
(* ===================================================================== *)

Inductive Node :=
  | File (content : string)
  | Dir
  | Symlink (target : string).

Abbreviation FileSys := (gmap string Node).

(** Go's [error]: [None] is [nil]; otherwise the text [%v] prints. *)
Abbreviation error := (option string).

(** The system call errors the model can raise, with the text Go prints for
    each. *)
Inductive Errno := ENOENT | EEXIST | EISDIR | ENOTDIR | ELOOP.

Definition Errno_Error (e : Errno) : string :=
  match e with
  | ENOENT => "no such file or directory"
  | EEXIST => "file exists"
  | EISDIR => "is a directory"
  | ENOTDIR => "not a directory"
  | ELOOP => "too many levels of symbolic links"
  end.

(** The [Error] methods of [fs.PathError] and [os.LinkError]. *)
Definition PathError (op path : string) (e : Errno) : string :=
  op +:+ " " +:+ path +:+ ": " +:+ Errno_Error e.

Definition LinkError (op oldname newname : string) (e : Errno) : string :=
  op +:+ " " +:+ oldname +:+ " " +:+ newname +:+ ": " +:+ Errno_Error e.

(** What [os.Stat] answers, as the callers test it: no error, an error that
    [os.IsNotExist] accepts, another error. *)
Inductive StatResult := StatOk | StatNotExist | StatError.

Definition os_IsNotExist (r : StatResult) : bool :=
  match r with StatNotExist => true | _ => false end.

(** [exec.Cmd] as the tool fills it: directory, program, arguments and the
    environment in full (where the tool leaves [Env] unset the program gets
    the environment of the tool, [os.Environ()]). *)
Record Cmd := mkCmd {
  cmd_Dir : string;
  cmd_Path : string;
  cmd_Args : list string;
  cmd_Env : list string
}.

(** The answer to [http.Get]: a transport error, or a response with its status
    code and body.  [body_error] is the error a read of the body ends in after
    [resp_body] has been delivered, if any. *)
Inductive HttpResult :=
  | HttpError (msg : string)
  | HttpResponse (status : Z) (resp_body : string) (body_error : error).

(** What a run leaves behind, in order.  [EvLog] and [EvFatal] carry the
    formatted message; the tool prints it after ["[build] "] and
    ["[build] ERROR: "]. *)
Inductive Event :=
  | EvLog (line : string)                        (* log(): standard output *)
  | EvFatal (line : string)                      (* fatal(): standard error, exit 1 *)
  | EvRun (c : Cmd) (err : error)                (* cmd.Run() *)
  | EvHttpGet (url : string)
  | EvStat (path : string) (r : StatResult)
  | EvRemoveAll (path : string)
  | EvRemove (path : string) (err : error)
  | EvMkdirAll (path : string) (err : error)
  | EvSymlink (oldname newname : string) (err : error)
  | EvOpen (path : string) (err : error)
  | EvCreate (path : string) (err : error)
  | EvCopy (dst : string) (data : string) (err : error)   (* io.Copy into a file *)
  | EvWriteFile (path : string) (data : string) (err : error).

(** What the tool does not decide: the platform it runs on, where it was
    started, its environment, the network, and what the programs it starts do
    to the file system and whether they end in an error. *)
Record Env := mkEnv {
  runtime_GOOS : string;
  runtime_GOARCH : string;
  projectRoot : string;
  os_Environ : list string;
  http_Get : string -> HttpResult;
  exec_Run : Cmd -> FileSys -> error * FileSys
}.

(** ** File-system primitives *)

Inductive sysres (A : Type) : Type :=
  | Done (a : A)
  | Failed (e : Errno).
Arguments Done {A} a.
Arguments Failed {A} e.

(** Following symbolic links from a path, at most [fuel] of them: the path
    reached and the node there, or nothing when the links do not end. *)
Fixpoint fs_follow (fuel : nat) (fs : FileSys) (path : string)
  : option (string * option Node) :=
  match fs !! path with
  | Some (Symlink target) =>
      match fuel with
      | O => None
      | S fuel' => fs_follow fuel' fs target
      end
  | o => Some (path, o)
  end.

(** The kernel gives up after 40 links. *)
Definition maxSymlinks : nat := 40.

Definition fs_Stat (fs : FileSys) (path : string) : StatResult :=
  match fs_follow maxSymlinks fs path with
  | None => StatError
  | Some (_, None) => StatNotExist
  | Some (_, Some _) => StatOk
  end.

(** [os.Open]: the node that will be read; opening a directory succeeds. *)
Definition fs_Open (fs : FileSys) (path : string) : sysres Node :=
  match fs_follow maxSymlinks fs path with
  | Some (_, Some n) => Done n
  | Some (_, None) => Failed ENOENT
  | None => Failed ELOOP
  end.

(** [os.Create]: the path of the file now open for writing, emptied or newly
    created; a directory cannot be created over. *)
Definition fs_Create (fs : FileSys) (path : string) : sysres (string * FileSys) :=
  match fs_follow maxSymlinks fs path with
  | Some (p, Some Dir) => Failed EISDIR
  | Some (p, _) => Done (p, <[p := File ""]> fs)
  | None => Failed ELOOP
  end.

(** Writing the bytes of a stream into an open file. *)
Definition fs_Write (fs : FileSys) (handle : string) (data : string) : FileSys :=
  <[handle := File data]> fs.

(** [os.MkdirAll]: nothing to do on a directory, an error on a file and on
    a link that leads nowhere (the directory cannot take the name of the
    link). *)
Definition fs_MkdirAll (fs : FileSys) (path : string) : sysres FileSys :=
  match fs_follow maxSymlinks fs path with
  | Some (_, Some Dir) => Done fs
  | Some (p, None) =>
      if String.eqb p path then Done (<[p := Dir]> fs) else Failed EEXIST
  | Some (_, Some _) => Failed ENOTDIR
  | None => Failed ELOOP
  end.

(** [os.RemoveAll]: the path and everything below it. *)
Definition below (dir path : string) : bool :=
  String.eqb dir path || String.prefix (dir +:+ "/") path.

Definition fs_RemoveAll (fs : FileSys) (path : string) : FileSys :=
  filter (fun kv => below path kv.1 = false) fs.

(** [os.Remove]: one node; an error when there is none. *)
Definition fs_Remove (fs : FileSys) (path : string) : sysres FileSys :=
  match fs !! path with
  | Some _ => Done (delete path fs)
  | None => Failed ENOENT
  end.

(** [os.Symlink]: an error when something is at the new name already. *)
Definition fs_Symlink (fs : FileSys) (oldname newname : string) : sysres FileSys :=
  match fs !! newname with
  | Some _ => Failed EEXIST
  | None => Done (<[newname := Symlink oldname]> fs)
  end.

(** Reading a whole file, through links. *)
Definition fs_ReadFile (fs : FileSys) (path : string) : option string :=
  match fs_Open fs path with
  | Done (File data) => Some data
  | _ => None
  end.

(* ===================================================================== *)
(** * [crypto/sha256] and [encoding/hex]

    SHA-256 as FIPS 180-4 gives it, on 32-bit words held in [N]. *)
(* ===================================================================== *)

Module SHA256.
Local Open Scope N_scope.

Definition w32 (x : N) : N := x mod 2 ^ 32.
Definition add32 (x y : N) : N := w32 (x + y).
Definition rotr (n x : N) : N :=
  N.lor (N.shiftr x n) (w32 (N.shiftl x (32 - n))).
Definition not32 (x : N) : N := N.lxor x (2 ^ 32 - 1).

Definition Ch (x y z : N) : N := N.lxor (N.land x y) (N.land (not32 x) z).
Definition Maj (x y z : N) : N :=
  N.lxor (N.lxor (N.land x y) (N.land x z)) (N.land y z).
Definition Sigma0 (x : N) : N := N.lxor (N.lxor (rotr 2 x) (rotr 13 x)) (rotr 22 x).
Definition Sigma1 (x : N) : N := N.lxor (N.lxor (rotr 6 x) (rotr 11 x)) (rotr 25 x).
Definition sigma0 (x : N) : N := N.lxor (N.lxor (rotr 7 x) (rotr 18 x)) (N.shiftr x 3).
Definition sigma1 (x : N) : N := N.lxor (N.lxor (rotr 17 x) (rotr 19 x)) (N.shiftr x 10).

(** The round constants and the initial hash value are the first 32 bits of
    the fractional parts of the cube roots of the first 64 primes, and of the
    square roots of the first 8. *)
Definition is_prime (n : nat) : bool :=
  forallb (fun d => negb (Nat.eqb (n mod d) 0)) (seq 2 (n - 2)).

Definition primes (count : nat) : list N :=
  map N.of_nat (take count (filter (fun n => is_prime n = true) (seq 2 310))).

(** The integer cube root, one bit at a time from bit [bits - 1] down. *)
Fixpoint cbrt_bits (bits : nat) (x r : N) : N :=
  match bits with
  | O => r
  | S bits' =>
      let r' := r + 2 ^ N.of_nat bits' in
      cbrt_bits bits' x (if r' * r' * r' <=? x then r' else r)
  end.

Definition frac_cbrt32 (p : N) : N := w32 (cbrt_bits 36 (p * 2 ^ 96) 0).
Definition frac_sqrt32 (p : N) : N := w32 (N.sqrt (p * 2 ^ 64)).

Definition K : list N := map frac_cbrt32 (primes 64).
Definition H0 : list N := map frac_sqrt32 (primes 8).

(** Padding: the byte 0x80, zero bytes up to 56 modulo 64, and the length in
    bits as eight big-endian bytes. *)
Definition be_bytes (count : nat) (x : N) : list N :=
  map (fun i => (N.shiftr x (8 * N.of_nat i)) mod 256) (rev (seq 0 count)).

Definition pad (msg : list N) : list N :=
  let len := N.of_nat (length msg) in
  let zeros := N.to_nat ((119 - len mod 64) mod 64) in
  msg ++ [128] ++ repeat 0 zeros ++ be_bytes 8 (8 * len).

Fixpoint be_words (bytes : list N) : list N :=
  match bytes with
  | a :: b :: c :: d :: rest =>
      (N.shiftl a 24 + N.shiftl b 16 + N.shiftl c 8 + d) :: be_words rest
  | _ => []
  end.

(** The message schedule, newest word first: [count] more words after the
    sixteen of the block. *)
Fixpoint schedule (count : nat) (ws : list N) : list N :=
  match count with
  | O => ws
  | S count' =>
      let w := add32 (add32 (sigma1 (nth 1 ws 0)) (nth 6 ws 0))
                     (add32 (sigma0 (nth 14 ws 0)) (nth 15 ws 0)) in
      schedule count' (w :: ws)
  end.

Definition round (st : list N) (kw : N * N) : list N :=
  match st with
  | [a; b; c; d; e; f; g; h] =>
      let t1 := add32 (add32 (add32 h (Sigma1 e)) (add32 (Ch e f g) kw.1)) kw.2 in
      let t2 := add32 (Sigma0 a) (Maj a b c) in
      [add32 t1 t2; a; b; c; add32 d t1; e; f; g]
  | _ => st
  end.

Definition compress (h : list N) (block : list N) : list N :=
  let ws := rev (schedule 48 (rev (be_words block))) in
  let st := fold_left round (combine K ws) h in
  map (fun xy : N * N => add32 xy.1 xy.2) (combine h st).

Fixpoint blocks (count : nat) (bytes : list N) (h : list N) : list N :=
  match count with
  | O => h
  | S count' => blocks count' (drop 64 bytes) (compress h (take 64 bytes))
  end.

Definition digest (msg : list N) : list N :=
  let padded := pad msg in
  let h := blocks (length padded / 64) padded H0 in
  concat (map (be_bytes 4) h).

End SHA256.

Definition bytes_of_string (s : string) : list N :=
  map byte_val (list_ascii_of_string s).

(** [sha256.New()] fed [data], then [Sum(nil)]: the 32 bytes of the digest. *)
Definition sha256_Sum (data : string) : list N :=
  SHA256.digest (bytes_of_string data).

(** [hex.EncodeToString]: two lower-case digits a byte. *)
Definition hexdigit (n : N) : ascii :=
  nth (N.to_nat n) (list_ascii_of_string "0123456789abcdef") "0"%char.

Fixpoint hex_EncodeToString (bytes : list N) : string :=
  match bytes with
  | [] => ""
  | b :: rest =>
      String (hexdigit (b / 16)) (String (hexdigit (b mod 16)) (hex_EncodeToString rest))
  end.

(* ===================================================================== *)
(** * The monad of the tool

    A computation starts from a file system and ends in a result, the file
    system it left and the events it produced, in order.  [fatal] ends the
    run: what would follow does not happen. *)
(* ===================================================================== *)

Record Run (A : Type) : Type := mkRun {
  run_result : result A;
  run_fs : FileSys;
  run_trace : list Event
}.
Arguments mkRun {A} _ _ _.
Arguments run_result {A} _.
Arguments run_fs {A} _.
Arguments run_trace {A} _.

Definition M (A : Type) : Type := FileSys -> Run A.

Global Instance M_ret : MRet M := fun A (a : A) (fs : FileSys) => mkRun (Ok a) fs [].

Global Instance M_bind : MBind M :=
  fun A B (f : A -> M B) (m : M A) (fs : FileSys) =>
    let r := m fs in
    match run_result r with
    | Ok a =>
        let r' := f a (run_fs r) in
        mkRun (run_result r') (run_fs r') (run_trace r ++ run_trace r')
    | Fatal msg => mkRun (Fatal msg) (run_fs r) (run_trace r)
    end.

(** [log]: one line on standard output. *)
Definition log (line : string) : M unit :=
  fun fs => mkRun (Ok tt) fs [EvLog line].

(** [fatal]: one line on standard error, and the run is over. *)
Definition fatal {A : Type} (line : string) : M A :=
  fun fs => mkRun (Fatal line) fs [EvFatal line].

(** [fmt.Sprintf("%d", n)] for a length. *)
Definition itoa (n : nat) : string := NilZero.string_of_uint (Nat.to_uint n).

Definition err_of {A : Type} (op path : string) (r : sysres A) : error :=
  match r with
  | Done _ => None
  | Failed e => Some (PathError op path e)
  end.

(** ** The calls into package [os], each leaving its event *)

Definition os_Stat (path : string) : M StatResult :=
  fun fs =>
    let r := fs_Stat fs path in
    mkRun (Ok r) fs [EvStat path r].

Definition os_RemoveAll (path : string) : M unit :=
  fun fs => mkRun (Ok tt) (fs_RemoveAll fs path) [EvRemoveAll path].

Definition os_Remove (path : string) : M error :=
  fun fs =>
    let r := fs_Remove fs path in
    let err := err_of "remove" path r in
    mkRun (Ok err) (match r with Done fs' => fs' | Failed _ => fs end)
          [EvRemove path err].

Definition os_MkdirAll (path : string) : M error :=
  fun fs =>
    let r := fs_MkdirAll fs path in
    let err := err_of "mkdir" path r in
    mkRun (Ok err) (match r with Done fs' => fs' | Failed _ => fs end)
          [EvMkdirAll path err].

Definition os_Symlink (oldname newname : string) : M error :=
  fun fs =>
    let r := fs_Symlink fs oldname newname in
    let err := match r with
               | Done _ => None
               | Failed e => Some (LinkError "symlink" oldname newname e)
               end in
    mkRun (Ok err) (match r with Done fs' => fs' | Failed _ => fs end)
          [EvSymlink oldname newname err].

(** [os.Open]: the node to read from, or the error. *)
Definition os_Open (path : string) : M (Node + string) :=
  fun fs =>
    let r := fs_Open fs path in
    mkRun (Ok (match r with
               | Done n => inl n
               | Failed e => inr (PathError "open" path e)
               end))
          fs [EvOpen path (err_of "open" path r)].

(** [os.Create]: the path the open file stands for, or the error. *)
Definition os_Create (path : string) : M (string + string) :=
  fun fs =>
    let r := fs_Create fs path in
    mkRun (Ok (match r with
               | Done (p, _) => inl p
               | Failed e => inr (PathError "open" path e)
               end))
          (match r with Done (_, fs') => fs' | Failed _ => fs end)
          [EvCreate path (err_of "open" path r)].

(** [io.Copy(dst, src)] into an open file: the bytes [src] delivers are
    written; the error, if any, is the one the reads ended in. *)
Definition io_Copy (dst : string) (data : string) (src_err : error) : M error :=
  fun fs => mkRun (Ok src_err) (fs_Write fs dst data) [EvCopy dst data src_err].

(** What reading an open node to its end delivers. *)
Definition read_all (path : string) (n : Node) : string * error :=
  match n with
  | File data => (data, None)
  | _ => ("", Some (PathError "read" path EISDIR))
  end.

(** [os.WriteFile]. *)
Definition os_WriteFile (path data : string) : M error :=
  fun fs =>
    let r := fs_Create fs path in
    let err := err_of "open" path r in
    mkRun (Ok err)
          (match r with Done (p, fs') => fs_Write fs' p data | Failed _ => fs end)
          [EvWriteFile path data err].

Section Tool.
Context (env : Env).

(** The globals [init] sets. *)
Definition naiveRoot : string := filepath_Join [projectRoot env; "naiveproxy"].
Definition srcRoot : string := filepath_Join [naiveRoot; "src"].

(** [cmd.Run()]. *)
Definition cmd_Run (c : Cmd) : M error :=
  fun fs =>
    let r := exec_Run env c fs in
    mkRun (Ok r.1) r.2 [EvRun c r.1].

(** [runCmd]. *)
Definition runCmd (dir name : string) (args : list string) : M unit :=
  err ← cmd_Run (mkCmd dir name args (os_Environ env));
  match err with
  | Some e =>
      fatal ("command failed: " +:+ name +:+ " " +:+ strings_Join args " "
             +:+ ": " +:+ e)
  | None => mret tt
  end.

(** [copyFile]. *)
Definition copyFile (src dst : string) : M unit :=
  srcFile ← os_Open src;
  match srcFile with
  | inr e => fatal ("failed to open " +:+ src +:+ ": " +:+ e)
  | inl node =>
      err ← os_MkdirAll (filepath_Dir dst);
      match err with
      | Some e => fatal ("failed to create directory for " +:+ dst +:+ ": " +:+ e)
      | None =>
          dstFile ← os_Create dst;
          match dstFile with
          | inr e => fatal ("failed to create " +:+ dst +:+ ": " +:+ e)
          | inl handle =>
              let '(data, rerr) := read_all src node in
              err ← io_Copy handle data rerr;
              match err with
              | Some e =>
                  fatal ("failed to copy " +:+ src +:+ " to " +:+ dst +:+ ": " +:+ e)
              | None => mret tt
              end
          end
      end
  end.

(** A [for _, x := range xs] loop whose body can end the run. *)
Fixpoint forEach {A : Type} (xs : list A) (body : A -> M unit) : M unit :=
  match xs with
  | [] => mret tt
  | x :: rest => body x;; forEach rest body
  end.

(** One pass of the loop of [generateCGOConfigs]. *)
Definition generateCGOConfig (t : Target) : M unit :=
  let filename := cgoFilename t in
  let filepath := filepath_Join [projectRoot env; filename] in
  err ← os_WriteFile filepath (cgoContent t);
  match err with
  | Some e => fatal ("failed to write " +:+ filename +:+ ": " +:+ e)
  | None => log ("Generated " +:+ filename)
  end.

Definition generateCGOConfigs (targets : list Target) : M unit :=
  forEach targets generateCGOConfig.

(** The headers [cmdPackage] copies: source below [srcRoot], name below
    [include/]. *)
Definition headers : list (string * string) := [
  (filepath_Join [srcRoot; "components/cronet/native/include/cronet_c.h"], "cronet_c.h");
  (filepath_Join [srcRoot; "components/cronet/native/include/cronet_export.h"],
   "cronet_export.h");
  (filepath_Join [srcRoot; "components/cronet/native/generated/cronet.idl_c.h"],
   "cronet.idl_c.h");
  (filepath_Join [srcRoot; "components/grpc_support/include/bidirectional_stream_c.h"],
   "bidirectional_stream_c.h")
].

Definition packagedLibDir (t : Target) : string :=
  filepath_Join [filepath_Join [projectRoot env; "lib"]; libDirName t].

Definition srcLib (t : Target) : string := filepath_Join [srcRoot; builtLibrary t].

Definition dstLib (t : Target) : string :=
  filepath_Join [packagedLibDir t; "libcronet.a"].

(** One pass of the library loop of [cmdPackage]; [continue] is the early
    return. *)
Definition packageLibrary (t : Target) : M unit :=
  let targetDir := packagedLibDir t in
  _ ← os_MkdirAll targetDir;
  st ← os_Stat (srcLib t);
  if os_IsNotExist st then
    log ("Warning: library not found for " +:+ GOOS t +:+ "/" +:+ ARCH t
         +:+ ", skipping")
  else
    (copyFile (srcLib t) (dstLib t);;
     log ("Copied library for " +:+ GOOS t +:+ "/" +:+ ARCH t)).

(** [cmdPackage]. *)
Definition cmdPackage (targets : list Target) : M unit :=
  log ("Packaging libraries for " +:+ itoa (length targets) +:+ " target(s)");;
  let libDir := filepath_Join [projectRoot env; "lib"] in
  let includeDir := filepath_Join [projectRoot env; "include"] in
  os_RemoveAll libDir;;
  os_RemoveAll includeDir;;
  _ ← os_MkdirAll includeDir;
  forEach headers
    (fun h => copyFile h.1 (filepath_Join [includeDir; h.2]));;
  log "Copied headers to include/";;
  forEach targets packageLibrary;;
  generateCGOConfigs targets;;
  log "Package complete!".

End Tool.

(* ===================================================================== *)
(** * The first revision: sysroots fetched by the tool itself *)
(* ===================================================================== *)

Module Rev1.

(** The slice literal [args] of the first revision. *)
Definition baselineArgs (t : Target) : list string :=
  commonArgs ++ [quoted "target_os" (OS t); quoted "target_cpu" (CPU t)].

(** The [switch t.OS] of the first revision, applied to the slice built so
    far.  [relSysroot] is what [filepath.Rel(srcRoot, sysrootDir)] returned
    for the directory [ensureLinuxSysroot] answered; only the linux case reads
    it. *)
Definition platformArgs (relSysroot : string) (t : Target) (args : list string)
  : list string :=
  if String.eqb (OS t) "mac" then args ++ ["use_sysroot=false"]
  else if String.eqb (OS t) "linux" then
    let args := args ++ ["use_sysroot=true"; quoted "target_sysroot" ("//" +:+ relSysroot)] in
    if String.eqb (CPU t) "x64" then args ++ ["use_cfi_icall=false"] else args
  else if String.eqb (OS t) "win" then args ++ ["use_sysroot=false"]
  else if String.eqb (OS t) "android" then args ++ androidArgs
  else if String.eqb (OS t) "ios" then args ++ iosArgs
  else args.

(** [args] as [buildTarget] passes it to [strings.Join]. *)
Definition gnArgs (relSysroot : string) (t : Target) : list string :=
  let args := baselineArgs t in
  let args := args ++ ["enable_dsyms=false"] in
  platformArgs relSysroot t args.

(** [http.Get], with the request in the trace. *)
Definition http_get (env : Env) (url : string) : M HttpResult :=
  fun fs => mkRun (Ok (http_Get env url)) fs [EvHttpGet url].

(** [fmt.Errorf("HTTP %d", resp.StatusCode)]. *)
Definition httpStatusError (status : Z) : string :=
  "HTTP " +:+ NilZero.string_of_int (Z.to_int status).

(** [downloadFile].  The body is streamed to the file and to the hash at
    once, so both see the bytes that arrived; the digest is compared once the
    copy has ended without error. *)
Definition downloadFile (env : Env) (url dest expectedSha256 : string) : M error :=
  resp ← http_get env url;
  match resp with
  | HttpError msg => mret (Some msg)
  | HttpResponse status body body_error =>
      if negb (status =? 200)%Z then mret (Some (httpStatusError status))
      else
        out ← os_Create dest;
        match out with
        | inr e => mret (Some e)
        | inl handle =>
            err ← io_Copy handle body body_error;
            match err with
            | Some e => mret (Some e)
            | None =>
                let actualSha256 := hex_EncodeToString (sha256_Sum body) in
                if negb (String.eqb actualSha256 expectedSha256) then
                  _ ← os_Remove dest;
                  mret (Some ("sha256 mismatch: expected " +:+ expectedSha256
                              +:+ ", got " +:+ actualSha256))
                else mret None
            end
        end
  end.

End Rev1.

(* ===================================================================== *)
(** * The second revision: toolchain and sysroots fetched by [get-clang.sh] *)
(* ===================================================================== *)

Module Rev2.

(** [hostToCPU]: Go GOARCH to GN cpu. *)
Definition hostToCPU (goarch : string) : string :=
  if String.eqb goarch "amd64" then "x64"
  else if String.eqb goarch "arm64" then "arm64"
  else if String.eqb goarch "386" then "x86"
  else if String.eqb goarch "arm" then "arm"
  else goarch.

(** [getExtraFlags]. *)
Definition getExtraFlags (t : Target) : string :=
  let flags := [quoted "target_os" (OS t); quoted "target_cpu" (CPU t)] in
  strings_Join flags " ".

(** The slice literal [args] of the second revision. *)
Definition baselineArgs (t : Target) : list string :=
  commonArgs ++
  ["enable_dsyms=false"; quoted "target_os" (OS t); quoted "target_cpu" (CPU t)].

(** [sysrootDir] of the linux case: the staging directory [get-clang.sh]
    fills for a CPU, relative to [srcRoot]. *)
Definition sysrootDir (cpu : string) : string :=
  let sysrootArch :=
    map_index (<["x64" := "amd64"]> (<["arm64" := "arm64"]> ∅)) cpu in
  "out/sysroot-build/bullseye/bullseye_" +:+ sysrootArch +:+ "_staging".

(** The [switch t.OS] of the second revision. *)
Definition platformArgs (t : Target) (args : list string) : list string :=
  if String.eqb (OS t) "mac" then args ++ ["use_sysroot=false"]
  else if String.eqb (OS t) "linux" then
    let args :=
      args ++ ["use_sysroot=true";
               quoted "target_sysroot" ("//" +:+ sysrootDir (CPU t))] in
    if String.eqb (CPU t) "x64" then args ++ ["use_cfi_icall=false"] else args
  else if String.eqb (OS t) "win" then args ++ ["use_sysroot=false"]
  else if String.eqb (OS t) "android" then args ++ androidArgs
  else if String.eqb (OS t) "ios" then args ++ iosArgs
  else args.

Definition gnArgs (t : Target) : list string :=
  platformArgs t (baselineArgs t).

Section Tool.
Context (env : Env).

(** The two commands [runGetClang] can start. *)
Definition getClang (extraFlags : string) : Cmd :=
  mkCmd (srcRoot env) "bash" ["./get-clang.sh"]
        (os_Environ env ++ ["EXTRA_FLAGS=" +:+ extraFlags]).

Definition hostFlags (hostCPU : string) : string :=
  quoted "target_os" "linux" +:+ " " +:+ quoted "target_cpu" hostCPU.

Definition hostSysrootSrc : string :=
  filepath_Join [srcRoot env; "out/sysroot-build/bullseye/bullseye_amd64_staging"].

Definition hostSysrootDst : string :=
  filepath_Join [srcRoot env; "build/linux/debian_bullseye_amd64-sysroot"].

(** The condition under which the host sysroot is provisioned first. *)
Definition needsHostSysroot (t : Target) : bool :=
  let hostOS := runtime_GOOS env in
  let hostCPU := hostToCPU (runtime_GOARCH env) in
  String.eqb hostOS "linux"
  && (String.eqb (OS t) "linux" || String.eqb (OS t) "android")
  && negb (String.eqb (CPU t) hostCPU).

(** [runGetClang]. *)
Definition runGetClang (t : Target) : M unit :=
  let hostCPU := hostToCPU (runtime_GOARCH env) in
  (if needsHostSysroot t then
     let hostFlags := hostFlags hostCPU in
     log ("Running get-clang.sh for host sysroot with EXTRA_FLAGS=" +:+ hostFlags);;
     err ← cmd_Run env (getClang hostFlags);
     match err with
     | Some e => fatal ("get-clang.sh (host) failed: " +:+ e)
     | None =>
         st ← os_Stat hostSysrootDst;
         if os_IsNotExist st then
           log ("Creating symlink for host sysroot: " +:+ hostSysrootDst
                +:+ " -> " +:+ hostSysrootSrc);;
           err ← os_Symlink hostSysrootSrc hostSysrootDst;
           match err with
           | Some e => fatal ("failed to create host sysroot symlink: " +:+ e)
           | None => mret tt
           end
         else mret tt
     end
   else mret tt);;
  let extraFlags := getExtraFlags t in
  log ("Running get-clang.sh with EXTRA_FLAGS=" +:+ extraFlags);;
  err ← cmd_Run env (getClang extraFlags);
  match err with
  | Some e => fatal ("get-clang.sh failed: " +:+ e)
  | None => mret tt
  end.

(** [buildTarget]. *)
Definition buildTarget (t : Target) : M unit :=
  runGetClang t;;
  let outDir := outDir t in
  let gnArgs := strings_Join (gnArgs t) " " in
  let gnPath := filepath_Join [srcRoot env; "gn"; "out"; "gn"] in
  let gnPath :=
    if String.eqb (runtime_GOOS env) "windows" then gnPath +:+ ".exe" else gnPath in
  log ("Running: gn gen " +:+ outDir);;
  let gnEnv :=
    if String.eqb (runtime_GOOS env) "windows"
    then os_Environ env ++ ["DEPOT_TOOLS_WIN_TOOLCHAIN=0"]
    else os_Environ env in
  err ← cmd_Run env (mkCmd (srcRoot env) gnPath ["gen"; outDir; "--args=" +:+ gnArgs] gnEnv);
  match err with
  | Some e => fatal ("gn gen failed: " +:+ e)
  | None =>
      log ("Running: ninja -C " +:+ outDir +:+ " cronet_static");;
      runCmd env (srcRoot env) "ninja" ["-C"; outDir; "cronet_static"]
  end.

(** [cmdBuild]. *)
Definition cmdBuild (targets : list Target) : M unit :=
  log ("Building cronet_static for " +:+ itoa (length targets) +:+ " target(s)");;
  forEach targets
    (fun t => log ("Building " +:+ GOOS t +:+ "/" +:+ ARCH t +:+ "...");;
              buildTarget t);;
  log "Build complete!".

End Tool.

End Rev2.

(* ===================================================================== *)
(** * The other commands: [init], [main], [cmdSync], [cmdPublish]

    These are the same text in both revisions. *)
(* ===================================================================== *)

(** What these commands ask of their surroundings beyond [Env]: the working
    directory ([os.Getwd], or the text of its error), what a program writes to
    a standard output that the tool captures, what a program does when the tool
    feeds it a stream on standard input (the bytes, and the error the stream
    ends in, if any), and the [Status] text of the response to a URL. *)
Record Host := mkHost {
  os_Getwd : string + string;
  exec_Stdout : Cmd -> FileSys -> string;
  exec_RunStdin : Cmd -> string -> error -> FileSys -> error * FileSys;
  resp_Status : string -> string
}.

(** How the process ends when it is not by [fatal]: [main] returns, the Go
    runtime panics, [main] prints the usage text and exits with status 1, or
    [flag.Parse()] exits, with a status of its own. *)
Inductive Ending :=
  | Returned
  | Panicked (msg : string)
  | UsageExit
  | FlagExited (status : Z).

(** What [flag.Parse()] makes of the command line: it ends the process
    itself (after [-h], or on a flag it cannot parse), or it leaves the value
    of [-targets] and the arguments that follow the flags. *)
Inductive Flags :=
  | FlagExit (status : Z)
  | Parsed (targetStr : string) (args : list string).

(** The loop of [init]: [dir] walks up from the working directory until
    [go.mod] is found or [filepath.Dir] no longer moves.  [fuel] bounds the
    number of passes; [None] is a walk cut short by it. *)
Fixpoint findRoot (fuel : nat) (dir : string) : M (option string) :=
  match fuel with
  | O => mret None
  | S fuel =>
      st ← os_Stat (filepath_Join [dir; "go.mod"]);
      match st with
      | StatOk => mret (Some dir)
      | _ =>
          if String.eqb dir (filepath_Dir dir)
          then fatal "could not find project root (go.mod)"
          else findRoot fuel (filepath_Dir dir)
      end
  end.

(** [init]: the value it gives [projectRoot].  ([naiveRoot] and [srcRoot]
    follow from it as above.)  A walk from a directory of [n] bytes takes at
    most [n + 2] passes. *)
Definition init (host : Host) : M (option string) :=
  match os_Getwd host with
  | inr e => fatal ("failed to get working directory: " +:+ e)
  | inl wd => findRoot (String.length wd + 2) wd
  end.

(** [os.ReadFile]: the bytes of the file, or the text of the error. *)
Definition os_ReadFile (path : string) : M (string + string) :=
  fun fs =>
    let r := fs_Open fs path in
    mkRun (Ok (match r with
               | Done n =>
                   match read_all path n with
                   | (data, None) => inl data
                   | (_, Some e) => inr e
                   end
               | Failed e => inr (PathError "open" path e)
               end))
          fs [EvOpen path (err_of "open" path r)].

Section Commands.
Context (env : Env) (host : Host).

(** [cmd.Run()] with standard output captured in a buffer: the text and the
    error. *)
Definition cmd_Output (c : Cmd) : M (string * error) :=
  fun fs =>
    let r := exec_Run env c fs in
    mkRun (Ok (exec_Stdout host c fs, r.1)) r.2 [EvRun c r.1].

(** [cmd.Run()] with [cmd.Stdin] set to a stream. *)
Definition cmd_RunStdin (c : Cmd) (data : string) (src_err : error) : M error :=
  fun fs =>
    let r := exec_RunStdin host c data src_err fs in
    mkRun (Ok r.1) r.2 [EvRun c r.1].

(** [runCmdOutput]. *)
Definition runCmdOutput (dir name : string) (args : list string) : M string :=
  r ← cmd_Output (mkCmd dir name args (os_Environ env));
  match r.2 with
  | Some e =>
      fatal ("command failed: " +:+ name +:+ " " +:+ strings_Join args " "
             +:+ ": " +:+ e)
  | None => mret r.1
  end.

(** [exec.Command("git", "-C", projectRoot, ...).Run()] with its error
    dropped or tested: no directory set, output discarded. *)
Definition gitC (args : list string) : Cmd :=
  mkCmd "" "git" ("-C" :: projectRoot env :: args) (os_Environ env).

(** [filesToCopy] of [cmdPublish]. *)
Definition filesToCopy : list string :=
  ["*.go"; "go.mod"; "go.sum"; "include/"; "lib/"; "naive/"; "LICENSE"; "README.md"].

(** [cmdPublish].  [mainCommit[:8]] panics when the text is shorter than
    eight bytes. *)
Definition cmdPublish : M Ending :=
  log "Publishing to go branch...";;
  output ← runCmdOutput (projectRoot env) "git" ["status"; "--porcelain"];
  if negb (String.eqb (strings_TrimSpace output) "") then
    fatal "uncommitted changes in working directory"
  else
    out ← runCmdOutput (projectRoot env) "git" ["rev-parse"; "--abbrev-ref"; "HEAD"];
    let currentBranch := strings_TrimSpace out in
    if negb (String.eqb currentBranch "main") then
      fatal ("must be on main branch to publish (current: " +:+ currentBranch +:+ ")")
    else
      out ← runCmdOutput (projectRoot env) "git" ["rev-parse"; "HEAD"];
      let mainCommit := strings_TrimSpace out in
      err ← cmd_Run env (gitC ["rev-parse"; "--verify"; "go"]);
      let goBranchExists := match err with None => true | Some _ => false end in
      (if goBranchExists then
         runCmd env (projectRoot env) "git" ["checkout"; "go"]
       else
         runCmd env (projectRoot env) "git" ["checkout"; "--orphan"; "go"];;
         runCmd env (projectRoot env) "git" ["reset"; "--hard"]);;
      runCmd env (projectRoot env) "git" ["rm"; "-rf"; "--ignore-unmatch"; "."];;
      forEach filesToCopy
        (fun pattern =>
           _ ← cmd_Run env (gitC ["checkout"; mainCommit; "--"; pattern]); mret tt);;
      runCmd env (projectRoot env) "git" ["add"; "-A"];;
      if (String.length mainCommit <? 8)%nat then
        mret (Panicked ("runtime error: slice bounds out of range [:8] with length "
                        +:+ itoa (String.length mainCommit)))
      else
        let commitMsg := "Build from " +:+ String.substring 0 8 mainCommit in
        runCmd env (projectRoot env) "git" ["commit"; "-m"; commitMsg; "--allow-empty"];;
        runCmd env (projectRoot env) "git" ["push"; "-f"; "origin"; "go"];;
        runCmd env (projectRoot env) "git" ["checkout"; "main"];;
        log "Published to go branch!";;
        mret Returned.

(** [fmt.Sprintf("%d", resp.StatusCode)]. *)
Definition status_itoa (status : Z) : string :=
  NilZero.string_of_int (Z.to_int status).

(** [downloadAndExtract]: the body of the response is the standard input of
    [tar]. *)
Definition downloadAndExtract (url destDir : string) : M error :=
  resp ← Rev1.http_get env url;
  match resp with
  | HttpError msg => mret (Some ("HTTP request failed: " +:+ msg))
  | HttpResponse status body body_error =>
      if negb (status =? 200)%Z then
        mret (Some ("HTTP " +:+ status_itoa status +:+ ": " +:+ resp_Status host url))
      else
        err ← cmd_RunStdin (mkCmd "" "tar" ["-xzf"; "-"; "-C"; destDir] (os_Environ env))
                           body body_error;
        match err with
        | Some e => mret (Some ("tar extraction failed: " +:+ e))
        | None => mret None
        end
  end.

(** [components] of [cmdSync], and the archive of one of them. *)
Definition components : list string := ["cronet"; "grpc_support"; "prefs"].

Definition componentURL (version name : string) : string :=
  "https://chromium.googlesource.com/chromium/src/+archive/refs/tags/"
  +:+ version +:+ "/components/" +:+ name +:+ ".tar.gz".

(** One pass of the loop of [cmdSync]. *)
Definition syncComponent (version name : string) : M unit :=
  log ("Downloading " +:+ name +:+ "...");;
  let url := componentURL version name in
  let destDir := filepath_Join [srcRoot env; "components"; name] in
  os_RemoveAll destDir;;
  err ← os_MkdirAll destDir;
  match err with
  | Some e => fatal ("failed to create directory " +:+ destDir +:+ ": " +:+ e)
  | None =>
      err ← downloadAndExtract url destDir;
      match err with
      | Some e => fatal ("failed to download " +:+ name +:+ ": " +:+ e)
      | None => log ("Downloaded " +:+ name)
      end
  end.

(** [commitMsg] of [cmdSync]. *)
Definition syncCommitMsg (version : string) : string :=
  "Add Chromium cronet components (v" +:+ version +:+ ")" +:+ newline
  +:+ newline
  +:+ "Downloaded from Chromium source:" +:+ newline
  +:+ "- components/cronet/" +:+ newline
  +:+ "- components/grpc_support/" +:+ newline
  +:+ "- components/prefs/" +:+ newline
  +:+ newline
  +:+ "Use 'go run ./cmd/build sync' to re-download.".

(** [cmdSync].  [upToDate] is the early [return]. *)
Definition cmdSync : M unit :=
  log "Syncing Chromium cronet components...";;
  let versionFile := filepath_Join [naiveRoot env; "CHROMIUM_VERSION"] in
  versionData ← os_ReadFile versionFile;
  match versionData with
  | inr e => fatal ("failed to read CHROMIUM_VERSION: " +:+ e)
  | inl data =>
      let version := strings_TrimSpace data in
      log ("Chromium version: " +:+ version);;
      let cronetDir := filepath_Join [srcRoot env; "components"; "cronet"] in
      st ← os_Stat cronetDir;
      upToDate ←
        match st with
        | StatOk =>
            status ← runCmdOutput (naiveRoot env) "git"
                       ["status"; "--porcelain"; "src/components/cronet"];
            mret (String.eqb (strings_TrimSpace status) "")
        | _ => mret false
        end;
      if upToDate : bool then log "Components already up to date"
      else
        forEach components (syncComponent version);;
        log "Creating git commit...";;
        runCmd env (naiveRoot env) "git"
          ["add"; "src/components/cronet"; "src/components/grpc_support";
           "src/components/prefs"];;
        runCmd env (naiveRoot env) "git" ["commit"; "-m"; syncCommitMsg version];;
        log "Sync complete!"
  end.

(** [main].  [flags] is what [flag.Parse()] made of the command line and
    [cmdBuild] is the one of the revision. *)
Definition main (cmdBuild : list Target -> M unit) (flags : Flags) : M Ending :=
  match flags with
  | FlagExit status => mret (FlagExited status)
  | Parsed targetStr args =>
      match args with
      | [] => mret UsageExit
      | cmd :: _ =>
          targets ←
            match parseTargets (runtime_GOOS env) (runtime_GOARCH env) targetStr with
            | Ok targets => mret targets
            | Fatal msg => fatal msg
            end;
          if String.eqb cmd "sync" then cmdSync;; mret Returned
          else if String.eqb cmd "build" then cmdBuild targets;; mret Returned
          else if String.eqb cmd "package" then cmdPackage env targets;; mret Returned
          else if String.eqb cmd "publish" then cmdPublish
          else fatal ("unknown command: " +:+ cmd)
      end
  end.

End Commands.

(** The platform, environment and programs of [env] with the project root
    that [init] found. *)
Definition withRoot (env : Env) (root : string) : Env :=
  mkEnv (runtime_GOOS env) (runtime_GOARCH env) root (os_Environ env)
        (http_Get env) (exec_Run env).

(** The process: the Go runtime runs [init] and then [main], which works
    with the [projectRoot] that [init] has set.  A walk of [init] cut short
    by its bound does not occur ([findRoot] never needs more passes than
    [init] allows); it is read as the failure of the walk. *)
Definition process (env : Env) (host : Host) (cmdBuild : Env -> list Target -> M unit)
    (flags : Flags) : M Ending :=
  root ← init host;
  match root with
  | Some root => main (withRoot env root) host (cmdBuild (withRoot env root)) flags
  | None => fatal "could not find project root (go.mod)"
  end.

(* ===================================================================== *)
(** * The build of the first revision: [ensureLinuxSysroot],
      [ensureAndroidNDK], [buildTarget], [cmdBuild] *)
(* ===================================================================== *)

(** [type SysrootInfo struct]. *)
Record SysrootInfo := mkSysrootInfo {
  Sha256Sum : string;
  SysrootDir : string;
  Tarball : string;
  URL : string
}.

(** An entry of a directory listing: [Name()] and [IsDir()]. *)
Record DirEntry := mkDirEntry {
  entry_Name : string;
  entry_IsDir : bool
}.

(** The library calls of the first revision that are taken as given:
    [filepath.Rel] (result and error), [os.UserHomeDir] (result and error),
    [os.ReadDir] (the entries in the order it lists them, or the text of the
    error) and [json.Unmarshal] into a [map[string]SysrootInfo] (the map, or
    the text of the error). *)
Record Library := mkLibrary {
  filepath_Rel : string -> string -> string * error;
  os_UserHomeDir : string * error;
  os_ReadDir : FileSys -> string -> list DirEntry + string;
  json_Unmarshal : string -> gmap string SysrootInfo + string
}.

Module Rev1Build.
Section Tool.
Context (env : Env) (lib : Library).

(** The map literal of [ensureLinuxSysroot], indexed. *)
Definition sysrootArch (arch : string) : string :=
  map_index (<["x64" := "amd64"]> (<["arm64" := "arm64"]>
            (<["x86" := "i386"]> (<["arm" := "armhf"]> ∅)))) arch.

(** [sysrootDir] of [ensureLinuxSysroot] for a sysroot architecture. *)
Definition sysrootPath (sysrootArch : string) : string :=
  filepath_Join [srcRoot env; "build"; "linux";
                 "debian_bullseye_" +:+ sysrootArch +:+ "-sysroot"].

(** [ensureLinuxSysroot]. *)
Definition ensureLinuxSysroot (arch : string) : M string :=
  let sysrootArch := sysrootArch arch in
  if String.eqb sysrootArch "" then
    fatal ("unsupported Linux arch for sysroot: " +:+ arch)
  else
    let sysrootKey := "bullseye_" +:+ sysrootArch in
    let sysrootDir := sysrootPath sysrootArch in
    st ← os_Stat sysrootDir;
    match st with
    | StatOk =>
        log ("Sysroot already exists: " +:+ sysrootDir);;
        mret sysrootDir
    | _ =>
        let sysrootsFile :=
          filepath_Join [srcRoot env; "build"; "linux"; "sysroot_scripts"; "sysroots.json"] in
        data ← os_ReadFile sysrootsFile;
        match data with
        | inr e => fatal ("failed to read sysroots.json: " +:+ e)
        | inl data =>
            match json_Unmarshal lib data with
            | inr e => fatal ("failed to parse sysroots.json: " +:+ e)
            | inl sysroots =>
                match sysroots !! sysrootKey with
                | None => fatal ("sysroot not found in sysroots.json: " +:+ sysrootKey)
                | Some info =>
                    let url := URL info +:+ "/" +:+ Sha256Sum info in
                    log ("Downloading sysroot from " +:+ url +:+ "...");;
                    let tarballPath :=
                      filepath_Join [srcRoot env; "build"; "linux"; Tarball info] in
                    err ← Rev1.downloadFile env url tarballPath (Sha256Sum info);
                    match err with
                    | Some e => fatal ("failed to download sysroot: " +:+ e)
                    | None =>
                        log "Extracting sysroot...";;
                        err ← os_MkdirAll sysrootDir;
                        match err with
                        | Some e => fatal ("failed to create sysroot directory: " +:+ e)
                        | None =>
                            runCmd env (filepath_Join [srcRoot env; "build"; "linux"]) "tar"
                              ["-xf"; Tarball info; "-C"; SysrootDir info];;
                            _ ← os_Remove tarballPath;
                            log ("Sysroot installed: " +:+ sysrootDir);;
                            mret sysrootDir
                        end
                    end
                end
            end
        end
    end.

(** [os.ReadDir], leaving the opening of the directory in the trace. *)
Definition readDir (path : string) : M (list DirEntry + string) :=
  fun fs =>
    let r := os_ReadDir lib fs path in
    mkRun (Ok r) fs
          [EvOpen path (match r with inl _ => None | inr e => Some e end)].

(** The loop over the entries of [localNDKBase]: the first directory whose
    name starts with [28.], joined to the base; the empty string when there
    is none. *)
Definition findNDK (localNDKBase : string) (entries : list DirEntry) : string :=
  match List.find (fun entry => entry_IsDir entry && String.prefix "28." (entry_Name entry))
                  entries with
  | Some entry => filepath_Join [localNDKBase; entry_Name entry]
  | None => ""
  end.

(** A link made unless [os.Stat] finds something at the new name; the error
    of [os.Symlink] is dropped. *)
Definition linkUnlessPresent (src dst : string) : M unit :=
  st ← os_Stat dst;
  if os_IsNotExist st then _ ← os_Symlink src dst; mret tt else mret tt.

(** [ensureAndroidNDK]. *)
Definition ensureAndroidNDK : M string :=
  let ndkDir := filepath_Join [srcRoot env; "third_party"; "android_toolchain"; "ndk"] in
  st ← os_Stat (filepath_Join [ndkDir; "toolchains"]);
  match st with
  | StatOk =>
      log "Android NDK already configured";;
      mret ndkDir
  | _ =>
      let homeDir := (os_UserHomeDir lib).1 in
      let localSDK := filepath_Join [homeDir; "Library"; "Android"; "sdk"] in
      let localNDKBase := filepath_Join [localSDK; "ndk"] in
      entries ← readDir localNDKBase;
      let localNDK :=
        match entries with
        | inl entries => findNDK localNDKBase entries
        | inr _ => ""
        end in
      localNDK ←
        (if String.eqb localNDK "" then
           let sdkManager :=
             filepath_Join [localSDK; "cmdline-tools"; "latest"; "bin"; "sdkmanager"] in
           st ← os_Stat sdkManager;
           match st with
           | StatOk =>
               log "Installing Android NDK r28 via sdkmanager...";;
               runCmd env localSDK sdkManager ["--install"; "ndk;28.0.13004108"];;
               mret (filepath_Join [localNDKBase; "28.0.13004108"])
           | _ =>
               fatal ("Android NDK r28 not found and sdkmanager not available. "
                      +:+ "Please install NDK r28 via Android Studio.")
           end
         else mret localNDK);
      log ("Using Android NDK from: " +:+ localNDK);;
      _ ← os_MkdirAll (filepath_Join [ndkDir; "sources"; "android"]);
      _ ← os_MkdirAll (filepath_Join [ndkDir; "toolchains"; "llvm"]);
      linkUnlessPresent
        (filepath_Join [localNDK; "sources"; "android"; "cpufeatures"])
        (filepath_Join [ndkDir; "sources"; "android"; "cpufeatures"]);;
      linkUnlessPresent
        (filepath_Join [localNDK; "toolchains"; "llvm"; "prebuilt"])
        (filepath_Join [ndkDir; "toolchains"; "llvm"; "prebuilt"]);;
      log ("Android NDK configured at: " +:+ ndkDir);;
      mret ndkDir
  end.

(** The [switch t.OS] of [buildTarget] with what it does on the way. *)
Definition platformSwitch (t : Target) (args : list string) : M (list string) :=
  if String.eqb (OS t) "mac" then mret (args ++ ["use_sysroot=false"])
  else if String.eqb (OS t) "linux" then
    sysrootDir ← ensureLinuxSysroot (CPU t);
    let relSysroot := (filepath_Rel lib (srcRoot env) sysrootDir).1 in
    let args :=
      args ++ ["use_sysroot=true"; quoted "target_sysroot" ("//" +:+ relSysroot)] in
    mret (if String.eqb (CPU t) "x64" then args ++ ["use_cfi_icall=false"] else args)
  else if String.eqb (OS t) "win" then mret (args ++ ["use_sysroot=false"])
  else if String.eqb (OS t) "android" then
    _ ← ensureAndroidNDK;
    mret (args ++ androidArgs)
  else if String.eqb (OS t) "ios" then mret (args ++ iosArgs)
  else mret args.

(** [buildTarget]. *)
Definition buildTarget (t : Target) : M unit :=
  let outDir := outDir t in
  let args := Rev1.baselineArgs t in
  let args := args ++ ["enable_dsyms=false"] in
  args ← platformSwitch t args;
  let gnArgs := strings_Join args " " in
  let gnPath := filepath_Join [srcRoot env; "gn"; "out"; "gn"] in
  runCmd env (srcRoot env) gnPath ["gen"; outDir; "--args=" +:+ gnArgs];;
  runCmd env (srcRoot env) "ninja" ["-C"; outDir; "cronet_static"].

(** [cmdBuild]. *)
Definition cmdBuild (targets : list Target) : M unit :=
  log ("Building cronet_static for " +:+ itoa (length targets) +:+ " target(s)");;
  forEach targets
    (fun t => log ("Building " +:+ GOOS t +:+ "/" +:+ ARCH t +:+ "...");;
              buildTarget t);;
  log "Build complete!".

End Tool.
End Rev1Build.

(* ===================================================================== *)
(** * Vocabulary of the statements *)
(* ===================================================================== *)

(** A pair [(goos, goarch)] is registered. *)
Definition registered (goos goarch : string) : Prop :=
  exists t, t ∈ allTargets /\ GOOS t = goos /\ ARCH t = goarch.

(** The two linux entries of the registry. *)
Definition linux_x64 : Target := mkTarget "linux" "x64" "linux" "amd64".
Definition linux_arm64 : Target := mkTarget "linux" "arm64" "linux" "arm64".

(** The directive the linux case adds for x64 only. *)
Definition cfi_icall_off : string := "use_cfi_icall=false".

(** The selector token of a target, and the selector that lists targets. *)
Definition token (t : Target) : string := GOOS t +:+ "/" +:+ ARCH t.

Definition selectorOf (ts : list Target) : string :=
  strings_Join (map token ts) ",".

(** The pieces of a selector as the loop of [parseTargets] sees them. *)
Definition pieces (s : string) : list string :=
  map strings_TrimSpace (strings_Split s ",").

(** A byte occurs in a string. *)
Fixpoint has_byte (c : ascii) (s : string) : bool :=
  match s with
  | EmptyString => false
  | String a rest => Ascii.eqb a c || has_byte c rest
  end.

(** A path element that [filepath.Clean] keeps as it is: no slash in it,
    and neither empty nor a dot nor two dots. *)
Definition plain (n : string) : bool :=
  negb (has_byte "/" n)
  && negb (String.eqb n "") && negb (String.eqb n ".") && negb (String.eqb n "..").

(** A path starts with a slash. *)
Definition rooted (path : string) : bool :=
  match path with
  | String c _ => Ascii.eqb c "/"
  | EmptyString => false
  end.

(** A message names a token: the token is a substring of it. *)
Definition names (msg tok : string) : Prop :=
  exists pre post, msg = pre +:+ tok +:+ post.

Fixpoint contains (s sub : string) : bool :=
  String.prefix sub s
  || match s with
     | EmptyString => false
     | String _ rest => contains rest sub
     end.

(** The events that start a program or create a link. *)
Definition is_action (e : Event) : bool :=
  match e with
  | EvRun _ _ | EvSymlink _ _ _ => true
  | _ => false
  end.

Definition actions (tr : list Event) : list Event := List.filter is_action tr.

(** A linux/amd64 host with the tool checked out in [/work/cronet-go], no
    network, and programs that exit with status 0 and touch nothing. *)
Definition quietEnv : Env :=
  mkEnv "linux" "amd64" "/work/cronet-go" ["PATH=/usr/bin"]
        (fun _ => HttpError "no network")
        (fun _ fs => (None, fs)).

(** A host that is served the seven bytes [sysroot] at one URL and nothing
    at any other. *)
Definition mirrorEnv : Env :=
  mkEnv "linux" "amd64" "/work/cronet-go" ["PATH=/usr/bin"]
        (fun url => if String.eqb url "https://mirror.example/sysroot"
                    then HttpResponse 200 "sysroot" None
                    else HttpResponse 404 "" None)
        (fun _ fs => (None, fs)).

(** The calls whose failure the packager treats as fatal. *)
Definition io_failure (e : Event) : bool :=
  match e with
  | EvOpen _ (Some _) | EvMkdirAll _ (Some _) | EvCreate _ (Some _)
  | EvCopy _ _ (Some _) | EvWriteFile _ _ (Some _) => true
  | _ => false
  end.

Definition is_write (e : Event) : bool :=
  match e with EvWriteFile _ _ _ => true | _ => false end.

Definition writes (tr : list Event) : list Event := List.filter is_write tr.

Definition descriptor (env : Env) (t : Target) : Event :=
  EvWriteFile (filepath_Join [projectRoot env; cgoFilename t]) (cgoContent t) None.

Definition libraryWarning (t : Target) : Event :=
  EvLog ("Warning: library not found for " +:+ GOOS t +:+ "/" +:+ ARCH t
         +:+ ", skipping").

(** A computation that ends in [fatal] only after a failed call. *)
Definition fails_on_io {A : Type} (m : M A) : Prop :=
  forall fs, (exists a, run_result (m fs) = Ok a)
             \/ existsb io_failure (run_trace (m fs)) = true.

(** A computation that writes no file with [os.WriteFile]. *)
Definition writes_nothing {A : Type} (m : M A) : Prop :=
  forall fs, writes (run_trace (m fs)) = [].

(** A checkout in which the four headers and the linux/x64 library have been
    built, the linux/arm64 library has not, and an earlier packaging left a
    linux/arm64 library behind. *)
Definition builtFiles : FileSys :=
  list_to_map [
    ("/work/cronet-go/naiveproxy/src/components/cronet/native/include/cronet_c.h",
     File "c");
    ("/work/cronet-go/naiveproxy/src/components/cronet/native/include/cronet_export.h",
     File "export");
    ("/work/cronet-go/naiveproxy/src/components/cronet/native/generated/cronet.idl_c.h",
     File "idl");
    ("/work/cronet-go/naiveproxy/src/components/grpc_support/include/bidirectional_stream_c.h",
     File "bidi");
    ("/work/cronet-go/naiveproxy/src/out/cronet-linux-x64/obj/components/cronet/libcronet_static.a",
     File "archive");
    ("/work/cronet-go/lib/linux_arm64/libcronet.a", File "stale")
  ].

(** A linux/arm64 host, otherwise like [quietEnv]. *)
Definition armHost : Env :=
  mkEnv "linux" "arm64" "/work/cronet-go" ["PATH=/usr/bin"]
        (fun _ => HttpError "no network")
        (fun _ fs => (None, fs)).

(** A host on which every body read breaks off after four bytes and every
    program exits with status 1. *)
Definition flakyEnv : Env :=
  mkEnv "linux" "amd64" "/work/cronet-go" ["PATH=/usr/bin"]
        (fun _ => HttpResponse 200 "sysr" (Some "unexpected EOF"))
        (fun _ fs => (Some "exit status 1", fs)).

Definition mac_arm64 : Target := mkTarget "mac" "arm64" "darwin" "arm64".

(** The body of the loop of [cmdBuild]. *)
Definition buildStep (env : Env) (t : Target) : M unit :=
  log ("Building " +:+ GOOS t +:+ "/" +:+ ARCH t +:+ "...");;
  Rev2.buildTarget env t.

(** A string of white-space bytes of the ASCII range. *)
Definition blank (s : string) : Prop :=
  Forall (fun c => asciiSpace c = true) (list_ascii_of_string s).

(** A token with white space around it, and the selector that lists such
    tokens. *)
Definition padded (item : string * Target * string) : string :=
  item.1.1 +:+ token item.1.2 +:+ item.2.

Definition paddedSelector (items : list (string * Target * string)) : string :=
  strings_Join (map padded items) ",".

(** A byte of the ASCII range that is not white space stops both scans. *)
Definition solid (c : ascii) : bool := negb (asciiSpace c) && (byte_val c <? 128)%N.

(** First and last byte of a string. *)
Definition firstByte (s : string) : option ascii :=
  match s with String c _ => Some c | EmptyString => None end.

Definition lastByte (s : string) : option ascii := firstByte (String.rev s).

Definition tab : string := String "009"%char "".

(** The two programs [buildTarget] starts after the toolchain is there. *)
Definition gnCommand (env : Env) (t : Target) : Cmd :=
  let gnPath := filepath_Join [srcRoot env; "gn"; "out"; "gn"] in
  if String.eqb (runtime_GOOS env) "windows"
  then mkCmd (srcRoot env) (gnPath +:+ ".exe")
             ["gen"; outDir t; "--args=" +:+ strings_Join (Rev2.gnArgs t) " "]
             (os_Environ env ++ ["DEPOT_TOOLS_WIN_TOOLCHAIN=0"])
  else mkCmd (srcRoot env) gnPath
             ["gen"; outDir t; "--args=" +:+ strings_Join (Rev2.gnArgs t) " "]
             (os_Environ env).

Definition ninjaCommand (env : Env) (t : Target) : Cmd :=
  mkCmd (srcRoot env) "ninja" ["-C"; outDir t; "cronet_static"] (os_Environ env).

(** The name a directive assigns to: the text before its first [=]. *)
Definition directiveKey (d : string) : string :=
  hd "" (strings_Split d "=").

(** The bytes of a list of path elements, one more for each element. *)
Definition weight (l : list string) : nat :=
  list_sum (map (fun e => S (String.length e)) l).

(** The number of empty elements. *)
Definition empties (l : list string) : nat :=
  List.length (List.filter (fun e => String.eqb e "") l).

(** The directory [n] levels above [dir], by [filepath.Dir]. *)
Fixpoint ancestor (n : nat) (dir : string) : string :=
  match n with
  | O => dir
  | S n => ancestor n (filepath_Dir dir)
  end.

(** A number of passes that the walk of [init] from [dir] does not exceed. *)
Definition passes (dir : string) : nat :=
  if has_byte "/" dir then String.length dir + 2
  else if String.eqb dir "." then 1 else 2.

(** What the walk of [init] from [wd] may end in: the nearest directory,
    going up from [wd], that has a [go.mod]; or [fatal], when no directory on
    the way up has one.  It is never cut short. *)
Definition nearestRoot (fs : FileSys) (wd : string) (r : result (option string)) : Prop :=
  match r with
  | Ok (Some root) =>
      exists n, root = ancestor n wd
                /\ fs_Stat fs (filepath_Join [root; "go.mod"]) = StatOk
                /\ forall m, m < n ->
                     fs_Stat fs (filepath_Join [ancestor m wd; "go.mod"]) <> StatOk
  | Ok None => False
  | Fatal msg =>
      msg = "could not find project root (go.mod)"
      /\ forall n, fs_Stat fs (filepath_Join [ancestor n wd; "go.mod"]) <> StatOk
  end.

(** The programs a run started, in order. *)
Fixpoint programs (tr : list Event) : list Cmd :=
  match tr with
  | [] => []
  | EvRun c _ :: rest => c :: programs rest
  | _ :: rest => programs rest
  end.

(** [git] started in the project root with the environment of the tool, as
    [runCmd] and [runCmdOutput] start it. *)
Definition git (env : Env) (args : list string) : Cmd :=
  mkCmd (projectRoot env) "git" args (os_Environ env).

(** The two questions [cmdPublish] asks first. *)
Definition gitStatus (env : Env) : Cmd := git env ["status"; "--porcelain"].

Definition gitBranch (env : Env) : Cmd := git env ["rev-parse"; "--abbrev-ref"; "HEAD"].

Definition gitHead (env : Env) : Cmd := git env ["rev-parse"; "HEAD"].

(** The programs of [cmdPublish] from the switch to the [go] branch up to
    staging, for a commit [mainCommit]; [goBranchExists] says whether
    [git rev-parse --verify go] ended without error. *)
Definition publishStaging (env : Env) (goBranchExists : bool) (mainCommit : string)
  : list Cmd :=
  (if goBranchExists then [git env ["checkout"; "go"]]
   else [git env ["checkout"; "--orphan"; "go"]; git env ["reset"; "--hard"]])
  ++ [git env ["rm"; "-rf"; "--ignore-unmatch"; "."]]
  ++ map (fun pattern => gitC env ["checkout"; mainCommit; "--"; pattern]) filesToCopy
  ++ [git env ["add"; "-A"]].

(** The programs that follow: commit, forced push, and the way back. *)
Definition publishPush (env : Env) (mainCommit : string) : list Cmd :=
  [git env ["commit"; "-m"; "Build from " +:+ String.substring 0 8 mainCommit;
            "--allow-empty"];
   git env ["push"; "-f"; "origin"; "go"];
   git env ["checkout"; "main"]].

(** What [git] prints on a clean tree on [main] at a commit: the answers to
    the three questions of [cmdPublish], each ending in a line break. *)
Definition gitAnswers (commit : string) (c : Cmd) (fs : FileSys) : string :=
  if bool_decide (cmd_Args c = ["status"; "--porcelain"]) then ""
  else if bool_decide (cmd_Args c = ["rev-parse"; "--abbrev-ref"; "HEAD"])
       then "main" +:+ newline
  else if bool_decide (cmd_Args c = ["rev-parse"; "HEAD"]) then commit +:+ newline
  else "".

(** A checkout at a commit with a full name, and one whose name [git] prints
    abbreviated. *)
Definition cleanHost : Host :=
  mkHost (inl "/work/cronet-go/cmd/build")
         (gitAnswers "9fceb02d0ae598e95dc970b74767f19372d61af8")
         (fun _ _ _ fs => (None, fs))
         (fun _ => "404 Not Found").

Definition shortHost : Host :=
  mkHost (inl "/work/cronet-go/cmd/build")
         (gitAnswers "9fceb02")
         (fun _ _ _ fs => (None, fs))
         (fun _ => "404 Not Found").

(** The paths and programs of [cmdSync]. *)
Definition versionFile (env : Env) : string :=
  filepath_Join [naiveRoot env; "CHROMIUM_VERSION"].

Definition componentDir (env : Env) (name : string) : string :=
  filepath_Join [srcRoot env; "components"; name].

Definition syncStatus (env : Env) : Cmd :=
  mkCmd (naiveRoot env) "git" ["status"; "--porcelain"; "src/components/cronet"]
        (os_Environ env).

Definition syncAdd (env : Env) : Cmd :=
  mkCmd (naiveRoot env) "git"
        ["add"; "src/components/cronet"; "src/components/grpc_support";
         "src/components/prefs"]
        (os_Environ env).

Definition tarInto (env : Env) (destDir : string) : Cmd :=
  mkCmd "" "tar" ["-xzf"; "-"; "-C"; destDir] (os_Environ env).

(** The error [downloadAndExtract] returns for an answer that is not a
    response with status 200. *)
Definition refusal (host : Host) (url : string) (answer : HttpResult) : option string :=
  match answer with
  | HttpError msg => Some ("HTTP request failed: " +:+ msg)
  | HttpResponse status _ _ =>
      if (status =? 200)%Z then None
      else Some ("HTTP " +:+ status_itoa status +:+ ": " +:+ resp_Status host url)
  end.

(** A host that is served an archive at every URL. *)
Definition archiveEnv : Env :=
  mkEnv "linux" "amd64" "/work/cronet-go" ["PATH=/usr/bin"]
        (fun _ => HttpResponse 200 "archive" None)
        (fun _ fs => (None, fs)).

(** A checkout with the version file, with and without the cronet
    components of an earlier sync. *)
Definition versionOnly : FileSys :=
  list_to_map [("/work/cronet-go/naiveproxy/CHROMIUM_VERSION", File ("120.0.6099.43" +:+ newline))].

Definition syncedFiles : FileSys :=
  list_to_map [
    ("/work/cronet-go/naiveproxy/CHROMIUM_VERSION", File ("120.0.6099.43" +:+ newline));
    ("/work/cronet-go/naiveproxy/src/components/cronet", Dir);
    ("/work/cronet-go/naiveproxy/src/components/cronet/BUILD.gn", File "gn")
  ].

(** The program that unpacks a sysroot. *)
Definition tarSysroot (env : Env) (info : SysrootInfo) : Cmd :=
  mkCmd (filepath_Join [srcRoot env; "build"; "linux"]) "tar"
        ["-xf"; Tarball info; "-C"; SysrootDir info] (os_Environ env).

Definition sysrootsFile (env : Env) : string :=
  filepath_Join [srcRoot env; "build"; "linux"; "sysroot_scripts"; "sysroots.json"].

(** The programs a run started, each with the error it ended in. *)
Fixpoint started (tr : list Event) : list (Cmd * error) :=
  match tr with
  | [] => []
  | EvRun c e :: rest => (c, e) :: started rest
  | _ :: rest => started rest
  end.

(** A computation that returns a value with a property and starts no
    program, whatever the file system holds. *)
Definition returns {A : Type} (m : M A) (P : A -> Prop) : Prop :=
  forall fs, exists a, run_result (m fs) = Ok a /\ P a
                       /\ started (run_trace (m fs)) = [].

Definition ndkDir (env : Env) : string :=
  filepath_Join [srcRoot env; "third_party"; "android_toolchain"; "ndk"].

Definition localSDK (lib : Library) : string :=
  filepath_Join [(os_UserHomeDir lib).1; "Library"; "Android"; "sdk"].

Definition localNDKBase (lib : Library) : string :=
  filepath_Join [localSDK lib; "ndk"].

Definition sdkManager (env : Env) (lib : Library) : Cmd :=
  mkCmd (localSDK lib)
        (filepath_Join [localSDK lib; "cmdline-tools"; "latest"; "bin"; "sdkmanager"])
        ["--install"; "ndk;28.0.13004108"] (os_Environ env).

(** What [ensureAndroidNDK] does once it knows the NDK to use. *)
Definition configureNDK (env : Env) (localNDK : string) : M string :=
  log ("Using Android NDK from: " +:+ localNDK);;
  _ ← os_MkdirAll (filepath_Join [ndkDir env; "sources"; "android"]);
  _ ← os_MkdirAll (filepath_Join [ndkDir env; "toolchains"; "llvm"]);
  Rev1Build.linkUnlessPresent
    (filepath_Join [localNDK; "sources"; "android"; "cpufeatures"])
    (filepath_Join [ndkDir env; "sources"; "android"; "cpufeatures"]);;
  Rev1Build.linkUnlessPresent
    (filepath_Join [localNDK; "toolchains"; "llvm"; "prebuilt"])
    (filepath_Join [ndkDir env; "toolchains"; "llvm"; "prebuilt"]);;
  log ("Android NDK configured at: " +:+ ndkDir env);;
  mret (ndkDir env).

(** [gn gen] as the first revision starts it, for a list of directives. *)
Definition gnGen (env : Env) (t : Target) (args : list string) : Cmd :=
  mkCmd (srcRoot env) (filepath_Join [srcRoot env; "gn"; "out"; "gn"])
        ["gen"; outDir t; "--args=" +:+ strings_Join args " "] (os_Environ env).

(** A checkout whose root has a [go.mod]. *)
Definition goModFiles : FileSys :=
  list_to_map [("/work/cronet-go/go.mod", File "module example");
               ("/work/cronet-go/cmd", Dir); ("/work/cronet-go/cmd/build", Dir)].

(** A host the registry does not list. *)
Definition bsdEnv : Env :=
  mkEnv "freebsd" "amd64" "/work/cronet-go" ["PATH=/usr/bin"]
        (fun _ => HttpError "no network")
        (fun _ fs => (None, fs)).

(** The entry of a sysroot whose tarball is the seven bytes [sysroot]. *)
Definition sysrootEntry : SysrootInfo :=
  mkSysrootInfo "7537056ccf75356c61a67695a59cd540e63c8f9f28941a21e96517f5690caec8"
                "debian_bullseye_amd64-sysroot"
                "debian_bullseye_amd64_sysroot.tar.xz"
                "https://mirror.example/toolchain".

(** A host that is served that tarball and on which [tar] fails. *)
Definition tarFailsEnv : Env :=
  mkEnv "linux" "amd64" "/work/cronet-go" ["PATH=/usr/bin"]
        (fun url =>
           if String.eqb url (URL sysrootEntry +:+ "/" +:+ Sha256Sum sysrootEntry)
           then HttpResponse 200 "sysroot" None
           else HttpResponse 404 "" None)
        (fun c fs => if String.eqb (cmd_Path c) "tar"
                     then (Some "exit status 2", fs) else (None, fs)).

(** Library answers: [filepath.Rel] for a path below the base path, a home
    directory, a listing with three NDKs, and a [sysroots.json] with the one
    entry. *)
Definition sdkLibrary : Library :=
  mkLibrary (fun basepath targpath =>
               if String.prefix (basepath +:+ "/") targpath
               then (String.substring (String.length basepath + 1)
                                      (String.length targpath) targpath, None)
               else (targpath, Some "Rel: can't make path relative"))
            ("/home/dev", None)
            (fun _ _ => inl [mkDirEntry "27.1.12297006" true;
                             mkDirEntry "28.0.13004108" true;
                             mkDirEntry "28.2.13676358" true])
            (fun _ => inl {[ "bullseye_amd64" := sysrootEntry ]}).

(** A checkout in which the amd64 sysroot is in place. *)
Definition sysrootCached : FileSys :=
  list_to_map
    [("/work/cronet-go/naiveproxy/src/build/linux/debian_bullseye_amd64-sysroot", Dir)].

Definition sysrootsOnly : FileSys :=
  list_to_map
    [("/work/cronet-go/naiveproxy/src/build/linux/sysroot_scripts/sysroots.json", File "{}")].

(** What [os.MkdirAll] leaves, whether or not it ends in an error. *)
Definition made (fs : FileSys) (dir : string) : FileSys :=
  match fs_MkdirAll fs dir with Done fs' => fs' | Failed _ => fs end.

(** A link made where [os.Stat] reports that nothing is: the event it leaves,
    if it is tried at all, and the file system after it. *)
Definition linkAttempt (fs : FileSys) (src dst : string) : list Event * FileSys :=
  if os_IsNotExist (fs_Stat fs dst) then
    match fs_Symlink fs src dst with
    | Done fs' => ([EvSymlink src dst None], fs')
    | Failed en => ([EvSymlink src dst (Some (LinkError "symlink" src dst en))], fs)
    end
  else ([], fs).

(** A computation that, on a file system, returns, leaves another file
    system, and has started the programs and made the links listed. *)
Definition leaves {A : Type} (m : M A) (fs fs' : FileSys) (acts : list Event) : Prop :=
  exists a, m fs = mkRun (Ok a) fs' (run_trace (m fs)) /\ actions (run_trace (m fs)) = acts.

(* ===================================================================== *)
(** * Evaluating a run step by step *)
(* ===================================================================== *)

Global Arguments fs_follow : simpl never.
Global Arguments fs_Create : simpl never.
Global Arguments fs_Stat : simpl never.
Global Arguments fs_Open : simpl never.
Global Arguments fs_Remove : simpl never.
Global Arguments fs_ReadFile : simpl never.
Global Arguments sha256_Sum : simpl never.

(** Unfolds the monad and the calls, and nothing below them: the file-system
    primitives and the hash stay folded. *)
Ltac run_step :=
  cbv beta iota zeta
      delta [mbind M_bind mret M_ret log fatal
             Rev1.http_get cmd_Run os_Create os_Stat os_Symlink os_Remove
             os_RemoveAll os_MkdirAll os_Open os_WriteFile io_Copy os_IsNotExist
             run_result run_fs run_trace err_of negb fst snd
             actions is_action List.filter app].

(** The same, and the projections of a trace as well. *)
Ltac trace_step :=
  cbv beta iota zeta
      delta [mbind M_bind mret M_ret log fatal
             Rev1.http_get cmd_Run os_Create os_Stat os_Symlink os_Remove
             os_RemoveAll os_MkdirAll os_Open os_WriteFile io_Copy os_IsNotExist
             run_result run_fs run_trace err_of negb
             writes is_write io_failure existsb List.filter app orb].

(** Unfolds the monad and the calls and leaves the projections of the trace
    alone. *)
Ltac exec_step :=
  cbv beta iota zeta
      delta [mbind M_bind mret M_ret log fatal
             Rev1.http_get cmd_Run os_Create os_Stat os_Symlink os_Remove
             os_RemoveAll os_MkdirAll os_Open os_WriteFile io_Copy os_IsNotExist
             run_result run_fs run_trace err_of negb fst snd].

(* ===================================================================== *)
(** * SHA-256 on known inputs *)
(* ===================================================================== *)

Example sha256_empty :
  hex_EncodeToString (sha256_Sum "") =
  "e3b0c44298fc1c149afbf4c8996fb92427ae41e4649b934ca495991b7852b855".
Proof. vm_compute. reflexivity. Qed.

Example sha256_constants :
  take 2 SHA256.K = [1116352408; 1899447441]%N /\ last SHA256.K = Some 3329325298%N
  /\ take 2 SHA256.H0 = [1779033703; 3144134277]%N /\ length SHA256.K = 64.
Proof. vm_compute. repeat split. Qed.

Example sha256_abc :
  hex_EncodeToString (sha256_Sum "abc") =
  "ba7816bf8f01cfea414140de5dae2223b00361a396177a9cb410ff61f20015ad".
Proof. vm_compute. reflexivity. Qed.

Example sha256_two_blocks :
  hex_EncodeToString
    (sha256_Sum "The quick brown fox jumps over the lazy dog, and then it jumps over the lazy dog once more.") =
  "2bfe32fcfff7bc00d254d8eb6c765c28abfdd441e02d5504e3e2cfb1ba791bc4".
Proof. vm_compute. reflexivity. Qed.

(* ===================================================================== *)
(** * Properties of the registry and of the resolver *)
(* ===================================================================== *)

(** A decidable property of every registry entry is settled by running it
    over the eleven entries. *)
Lemma registry_forall (P : Target -> Prop) `{!forall t, Decision (P t)} :
  bool_decide (Forall P allTargets) = true ->
  forall t, t ∈ allTargets -> P t.
Proof.
  intros Hd t Ht. apply bool_decide_eq_true_1 in Hd.
  rewrite Forall_forall in Hd. by apply Hd.
Qed.

Ltac by_registry :=
  lazymatch goal with
  | |- forall t, t ∈ allTargets -> @?P t =>
      apply (registry_forall P); vm_compute; reflexivity
  end.

Lemma matchesTarget_spec goos goarch t :
  matchesTarget goos goarch t = true <-> GOOS t = goos /\ ARCH t = goarch.
Proof.
  unfold matchesTarget. rewrite andb_true_iff, !String.eqb_eq. reflexivity.
Qed.

Lemma findTarget_Some goos goarch t :
  findTarget goos goarch = Some t ->
  t ∈ allTargets /\ GOOS t = goos /\ ARCH t = goarch.
Proof.
  unfold findTarget. intros H. apply find_some in H as [Hin Hm].
  split; [by apply list_elem_of_In | by apply matchesTarget_spec].
Qed.

Lemma findTarget_None goos goarch :
  findTarget goos goarch = None ->
  forall t, t ∈ allTargets -> ~ (GOOS t = goos /\ ARCH t = goarch).
Proof.
  unfold findTarget. intros H t Ht Hm.
  apply list_elem_of_In in Ht.
  pose proof (find_none _ _ H t Ht) as Hf.
  apply matchesTarget_spec in Hm. congruence.
Qed.

(** No two registry entries share their [(GOOS, ARCH)] pair. *)
Lemma registry_unique t t' :
  t ∈ allTargets -> t' ∈ allTargets ->
  GOOS t = GOOS t' -> ARCH t = ARCH t' -> t = t'.
Proof.
  intros Ht Ht'.
  assert (Forall (fun u => GOOS t = GOOS u -> ARCH t = ARCH u -> t = u) allTargets)
    as H.
  { revert t Ht. by_registry. }
  rewrite Forall_forall in H. by apply H.
Qed.

Lemma parsePart_registered t :
  t ∈ allTargets -> parsePart (token t) = Ok t.
Proof. revert t. by_registry. Qed.

(** C7.  The selector [all] resolves to the whole registry, in declaration
    order, whatever the host is; the registry has eleven entries. *)
Theorem parseTargets_all (hostOS hostArch : string) :
  parseTargets hostOS hostArch "all" = Ok allTargets /\ length allTargets = 11.
Proof. split; reflexivity. Qed.

(** C8.  The empty selector resolves to a singleton exactly when the host
    pair [(runtime.GOOS, runtime.GOARCH)] is registered; the element is then
    the one registry entry with that pair.  Otherwise resolution is fatal with
    the unsupported-host message. *)
Theorem parseTargets_empty (hostOS hostArch : string) :
  ((exists t, parseTargets hostOS hostArch "" = Ok [t]) <-> registered hostOS hostArch)
  /\ (forall t, parseTargets hostOS hostArch "" = Ok [t] ->
       t ∈ allTargets /\ GOOS t = hostOS /\ ARCH t = hostArch
       /\ forall u, u ∈ allTargets -> GOOS u = hostOS -> ARCH u = hostArch -> u = t)
  /\ (~ registered hostOS hostArch ->
       parseTargets hostOS hostArch "" =
       Fatal ("unsupported host platform: " +:+ hostOS +:+ "/" +:+ hostArch)).
Proof.
  unfold parseTargets, registered. simpl.
  destruct (findTarget hostOS hostArch) as [t|] eqn:Hf.
  - pose proof (findTarget_Some _ _ _ Hf) as (Hin & Hos & Harch).
    split; [|split].
    + split; [intros _; by exists t | intros _; by exists t].
    + intros u [= <-]. repeat split; try done.
      intros u Hu Hos' Harch'. apply registry_unique; congruence.
    + intros Hn. exfalso. apply Hn. by exists t.
  - pose proof (findTarget_None _ _ Hf) as Hnone.
    split; [|split].
    + split; [intros [t [=]] | intros (t & Hin & Hos & Harch)].
      exfalso. by apply (Hnone t Hin).
    + intros t [=].
    + reflexivity.
Qed.

Lemma parsePart_Ok part t :
  parsePart part = Ok t ->
  exists goos goarch,
    strings_Split (strings_TrimSpace part) "/" = [goos; goarch]
    /\ findTarget goos goarch = Some t.
Proof.
  unfold parsePart. intros H.
  destruct (strings_Split (strings_TrimSpace part) "/") as [|goos [|goarch [|? ?]]];
    try discriminate.
  destruct (findTarget goos goarch) as [u|] eqn:Hf; [|discriminate].
  injection H as ->. by exists goos, goarch.
Qed.

Lemma token_Split t :
  t ∈ allTargets ->
  strings_Split (GOOS t +:+ "/" +:+ ARCH t) "/" = [GOOS t; ARCH t].
Proof. revert t. by_registry. Qed.

(* ===================================================================== *)
(** * Splitting and joining *)
(* ===================================================================== *)

Lemma Split_nonempty s sep : strings_Split s sep <> [].
Proof.
  destruct s as [|c rest]; simpl; [done|].
  destruct (Ascii.eqb c sep); [done|]. by destruct (strings_Split rest sep).
Qed.

Lemma Split_no_sep s sep : has_byte sep s = false -> strings_Split s sep = [s].
Proof.
  induction s as [|c rest IH]; simpl; [done|].
  intros H. apply orb_false_iff in H as [Hc Hrest].
  rewrite Hc, (IH Hrest). reflexivity.
Qed.

Lemma Split_app s rest sep :
  has_byte sep s = false ->
  strings_Split (s +:+ String sep rest) sep = s :: strings_Split rest sep.
Proof.
  induction s as [|c s' IH]; simpl.
  - intros _. by rewrite Ascii.eqb_refl.
  - intros H. apply orb_false_iff in H as [Hc Hs'].
    rewrite Hc, (IH Hs'). reflexivity.
Qed.

(** Splitting a joined list of separator-free elements gives the list back. *)
Lemma Split_Join toks sep :
  toks <> [] ->
  Forall (fun tok => has_byte sep tok = false) toks ->
  strings_Split (strings_Join toks (String sep "")) sep = toks.
Proof.
  induction toks as [|tok [|tok' toks'] IH]; [done| |].
  - intros _ H. apply Forall_cons in H as [H _]. by apply Split_no_sep.
  - intros _ H. apply Forall_cons in H as [Htok Hrest].
    change (strings_Join (tok :: tok' :: toks') (String sep ""))
      with (tok +:+ String sep (strings_Join (tok' :: toks') (String sep ""))).
    rewrite (Split_app _ _ _ Htok), IH; done.
Qed.

(** Joining the pieces of a split gives the string back. *)
Lemma Join_Split s sep : strings_Join (strings_Split s sep) (String sep "") = s.
Proof.
  induction s as [|c rest IH]; simpl; [done|].
  destruct (Ascii.eqb_spec c sep) as [->|Hne].
  - pose proof (Split_nonempty rest sep) as Hne.
    destruct (strings_Split rest sep) as [|hd tl]; [done|].
    simpl in *. by rewrite IH.
  - destruct (strings_Split rest sep) as [|hd tl] eqn:Hs.
    + by destruct (Split_nonempty rest sep).
    + rewrite <- IH. by destruct tl.
Qed.

Lemma prefix_app sub post : String.prefix sub (sub +:+ post) = true.
Proof.
  induction sub as [|a sub IH]; simpl; [by destruct post|].
  by destruct (ascii_dec a a).
Qed.

Lemma append_empty_r (s : string) : s +:+ "" = s.
Proof.
  induction s as [|a s IH]; [done|].
  change (String a (s +:+ "") = String a s). by rewrite IH.
Qed.

Lemma contains_unfold s sub :
  contains s sub
  = String.prefix sub s
    || match s with
       | EmptyString => false
       | String _ rest => contains rest sub
       end.
Proof. by destruct s. Qed.

Lemma names_contains msg tok : names msg tok -> contains msg tok = true.
Proof.
  intros (pre & post & ->).
  induction pre as [|a pre IH].
  - change (contains (tok +:+ post) tok = true).
    by rewrite contains_unfold, prefix_app.
  - change (contains (String a (pre +:+ tok +:+ post)) tok = true).
    rewrite contains_unfold, IH. apply orb_true_r.
Qed.

(* ===================================================================== *)
(** * Properties of the resolver loop *)
(* ===================================================================== *)

Lemma parseParts_Ok parts ts acc :
  Forall2 (fun p t => parsePart p = Ok t) parts ts ->
  parseParts parts acc = Ok (acc ++ ts).
Proof.
  intros H. revert acc.
  induction H as [|p t parts ts Hp _ IH]; intros acc; simpl.
  - by rewrite app_nil_r.
  - rewrite Hp, IH, <- app_assoc. reflexivity.
Qed.

(** The loop stops at the first piece that does not resolve, with the
    message of that piece. *)
Lemma parseParts_Fatal pre p post acc msg :
  Forall (fun q => is_Ok (parsePart q) = true) pre ->
  parsePart p = Fatal msg ->
  parseParts (pre ++ p :: post) acc = Fatal msg.
Proof.
  intros Hpre Hp. revert acc.
  induction Hpre as [|q pre Hq _ IH]; intros acc; simpl.
  - by rewrite Hp.
  - destruct (parsePart q); [apply IH | discriminate].
Qed.

(** A list of pieces with one that does not resolve never yields targets. *)
Lemma parseParts_reject pre p post acc msg :
  parsePart p = Fatal msg ->
  exists msg', parseParts (pre ++ p :: post) acc = Fatal msg'.
Proof.
  intros Hp. revert acc.
  induction pre as [|q pre IH]; intros acc; simpl.
  - rewrite Hp. by exists msg.
  - destruct (parsePart q); [apply IH | by eexists].
Qed.

Lemma token_no_comma t : t ∈ allTargets -> has_byte "," (token t) = false.
Proof. revert t. by_registry. Qed.

Lemma token_not_keyword t : t ∈ allTargets -> token t <> "" /\ token t <> "all".
Proof. revert t. by_registry. Qed.

Lemma selectorOf_Split ts :
  ts <> [] -> Forall (fun t => t ∈ allTargets) ts ->
  strings_Split (selectorOf ts) "," = map token ts.
Proof.
  intros Hne Hreg. unfold selectorOf. apply Split_Join.
  - by destruct ts.
  - apply Forall_map. eapply Forall_impl; [exact Hreg|].
    intros t Ht. by apply token_no_comma.
Qed.

(** C5.  A selector that lists registered targets by their [os/arch] tokens,
    separated by commas, resolves to exactly those targets, in the order of
    the tokens and with every repetition kept. *)
Theorem parseTargets_registered (hostOS hostArch : string) (ts : list Target) :
  ts <> [] ->
  Forall (fun t => t ∈ allTargets) ts ->
  parseTargets hostOS hostArch (selectorOf ts) = Ok ts.
Proof.
  intros Hne Hreg.
  pose proof (selectorOf_Split ts Hne Hreg) as Hsplit.
  assert (selectorOf ts <> "" /\ selectorOf ts <> "all") as [Hempty Hall].
  { split; intros E; rewrite E in Hsplit;
      destruct ts as [|t [|? ?]]; try done;
      apply Forall_cons in Hreg as [Ht _];
      destruct (token_not_keyword t Ht); simpl in Hsplit; congruence. }
  unfold parseTargets.
  destruct (String.eqb_spec (selectorOf ts) ""); [done|].
  destruct (String.eqb_spec (selectorOf ts) "all"); [done|].
  rewrite Hsplit. apply (parseParts_Ok _ ts []).
  clear -Hreg. induction Hreg as [|t ts Ht _ IH]; simpl; constructor; [|done].
  by apply parsePart_registered.
Qed.

Lemma parseTargets_registered_witness :
  parseTargets "linux" "amd64" (selectorOf [linux_x64; linux_arm64; linux_x64])
  = Ok [linux_x64; linux_arm64; linux_x64].
Proof.
  apply parseTargets_registered; [done|].
  repeat constructor; apply (bool_decide_eq_true_1 _); vm_compute; reflexivity.
Defined.

(** Either every piece of a list resolves or there is a first one that does
    not. *)
Lemma first_failure (parts : list string) :
  Forall (fun q => is_Ok (parsePart q) = true) parts
  \/ exists resolved bad rest msg,
       parts = resolved ++ bad :: rest
       /\ Forall (fun q => is_Ok (parsePart q) = true) resolved
       /\ parsePart bad = Fatal msg.
Proof.
  induction parts as [|p parts [IH|(resolved & bad & rest & msg & -> & Hres & Hbad)]].
  - by left.
  - destruct (parsePart p) as [t|msg] eqn:Hp.
    + left. constructor; [by rewrite Hp | done].
    + right. by exists [], p, parts, msg.
  - destruct (parsePart p) as [t|msg'] eqn:Hp.
    + right. exists (p :: resolved), bad, rest, msg.
      split; [done|]. split; [|done]. constructor; [by rewrite Hp | done].
    + right. by exists [], p, (resolved ++ bad :: rest), msg'.
Qed.

(** C6, as amended.  A selector with an [os/arch] piece that matches no
    registered pair never resolves, wherever the piece stands.  The error is
    the one of the first piece, in selector order, that does not resolve:
    that piece stands at or before the unregistered one, and when every piece
    before the unregistered one resolves the error is
    [unsupported target: os/arch] with the trimmed piece as its [os/arch]. *)
Theorem parseTargets_unregistered
    (hostOS hostArch s : string) (pre : list string) (tok : string)
    (post : list string) (goos goarch : string) :
  strings_Split s "," = pre ++ tok :: post ->
  strings_Split (strings_TrimSpace tok) "/" = [goos; goarch] ->
  findTarget goos goarch = None ->
  (forall resolved bad rest msg,
      strings_Split s "," = resolved ++ bad :: rest ->
      Forall (fun q => is_Ok (parsePart q) = true) resolved ->
      parsePart bad = Fatal msg ->
      parseTargets hostOS hostArch s = Fatal msg)
  /\ (exists resolved bad rest msg,
         strings_Split s "," = resolved ++ bad :: rest
         /\ Forall (fun q => is_Ok (parsePart q) = true) resolved
         /\ parsePart bad = Fatal msg
         /\ length resolved <= length pre
         /\ parseTargets hostOS hostArch s = Fatal msg)
  /\ (Forall (fun q => is_Ok (parsePart q) = true) pre ->
      parseTargets hostOS hostArch s
      = Fatal ("unsupported target: " +:+ goos +:+ "/" +:+ goarch)
      /\ strings_TrimSpace tok = goos +:+ "/" +:+ goarch
      /\ names ("unsupported target: " +:+ strings_TrimSpace tok)
               (strings_TrimSpace tok)).
Proof.
  intros Hsplit Htok Hfind.
  assert (strings_TrimSpace tok = goos +:+ "/" +:+ goarch) as Htrim.
  { rewrite <- (Join_Split (strings_TrimSpace tok) "/"), Htok. reflexivity. }
  assert (parsePart tok = Fatal ("unsupported target: " +:+ goos +:+ "/" +:+ goarch))
    as Hpart.
  { unfold parsePart. by rewrite Htok, Hfind. }
  assert (s <> "" /\ s <> "all") as [Hempty Hall].
  { split; intros ->; destruct pre as [|? [|? ?]]; simplify_eq/=;
      vm_compute in Htok; discriminate. }
  assert (forall resolved bad rest msg,
             strings_Split s "," = resolved ++ bad :: rest ->
             Forall (fun q => is_Ok (parsePart q) = true) resolved ->
             parsePart bad = Fatal msg ->
             parseTargets hostOS hostArch s = Fatal msg) as Hfirst.
  { intros resolved bad rest msg Hs Hres Hbad. unfold parseTargets.
    destruct (String.eqb_spec s ""); [done|].
    destruct (String.eqb_spec s "all"); [done|].
    rewrite Hs. by apply parseParts_Fatal. }
  split; [exact Hfirst|]. split.
  - destruct (first_failure pre) as [Hpre|(resolved & bad & rest & msg & -> & Hres & Hbad)].
    + exists pre, tok, post, ("unsupported target: " +:+ goos +:+ "/" +:+ goarch).
      do 4 (split; [done|]). by apply (Hfirst pre tok post).
    + exists resolved, bad, (rest ++ tok :: post), msg.
      rewrite <- app_assoc in Hsplit. split; [exact Hsplit|].
      split; [done|]. split; [done|]. split.
      * rewrite length_app. lia.
      * by apply (Hfirst resolved bad (rest ++ tok :: post)).
  - intros Hpre. split; [by apply (Hfirst pre tok post)|]. split; [done|].
    exists "unsupported target: ", "". by rewrite append_empty_r.
Qed.

Lemma parseTargets_unregistered_witness :
  parseTargets "linux" "amd64" "linux/amd64, plan9/amd64,darwin/arm64"
  = Fatal "unsupported target: plan9/amd64"
  /\ parseTargets "linux" "amd64" "linux/amd64,linux, plan9/amd64"
     = Fatal "invalid target format: linux (expected os/arch)".
Proof.
  split.
  - destruct (parseTargets_unregistered "linux" "amd64"
                "linux/amd64, plan9/amd64,darwin/arm64"
                ["linux/amd64"] " plan9/amd64" ["darwin/arm64"] "plan9" "amd64"
                eq_refl eq_refl eq_refl) as (_ & _ & H).
    destruct H as [H _]; [repeat constructor | exact H].
  - destruct (parseTargets_unregistered "linux" "amd64"
                "linux/amd64,linux, plan9/amd64"
                ["linux/amd64"; "linux"] " plan9/amd64" [] "plan9" "amd64"
                eq_refl eq_refl eq_refl) as (H & _).
    apply (H ["linux/amd64"] "linux" [" plan9/amd64"]); [reflexivity | repeat constructor | reflexivity].
Defined.

(** C6 as the claim words it fails: the error names the first piece that
    does not resolve, which need not be the unregistered [os/arch] piece.
    [plan9/amd64] is the only such piece of the selector, and the error does
    not name it. *)
Lemma parseTargets_error_names_first_piece :
  In "plan9/amd64" (pieces "linux,plan9/amd64")
  /\ strings_Split "plan9/amd64" "/" = ["plan9"; "amd64"]
  /\ findTarget "plan9" "amd64" = None
  /\ parseTargets "linux" "amd64" "linux,plan9/amd64"
     = Fatal "invalid target format: linux (expected os/arch)"
  /\ ~ names "invalid target format: linux (expected os/arch)" "plan9/amd64".
Proof.
  repeat split; try reflexivity; try (vm_compute; tauto).
  intros H. apply names_contains in H. vm_compute in H. discriminate.
Qed.

(* ===================================================================== *)
(** * Properties of the packaged names *)
(* ===================================================================== *)

Lemma Split_app_sep a b sep :
  strings_Split (a +:+ String sep b) sep = strings_Split a sep ++ strings_Split b sep.
Proof.
  induction a as [|c a IH].
  - change (strings_Split (String sep b) sep = [""] ++ strings_Split b sep).
    simpl. by rewrite Ascii.eqb_refl.
  - change (strings_Split (String c (a +:+ String sep b)) sep
            = strings_Split (String c a) sep ++ strings_Split b sep).
    simpl. rewrite IH. destruct (Ascii.eqb c sep); [done|].
    pose proof (Split_nonempty a sep). by destruct (strings_Split a sep).
Qed.

Lemma plain_inv n :
  plain n = true ->
  has_byte "/" n = false /\ String.eqb n "" = false
  /\ String.eqb n "." = false /\ String.eqb n ".." = false.
Proof.
  unfold plain. rewrite !andb_true_iff, !negb_true_iff. tauto.
Qed.

(** [filepath.Clean] keeps a plain last element. *)
Lemma cleanElems_snoc r elems acc n :
  plain n = true ->
  cleanElems r (elems ++ [n]) acc = cleanElems r elems acc ++ [n].
Proof.
  intros (_ & H0 & H1 & H2)%plain_inv.
  revert acc. induction elems as [|e elems IH]; intros acc; simpl.
  - by rewrite H0, H1, H2.
  - repeat case_match; apply IH.
Qed.

Lemma append_assoc a b c : (a +:+ b) +:+ c = a +:+ b +:+ c.
Proof.
  induction a as [|x a IH]; [done|].
  change (String x ((a +:+ b) +:+ c) = String x (a +:+ b +:+ c)). by rewrite IH.
Qed.

Lemma Join_snoc elems n sep :
  strings_Join (elems ++ [n]) sep
  = match elems with
    | [] => n
    | _ => strings_Join elems sep +:+ sep +:+ n
    end.
Proof.
  induction elems as [|e [|e' elems] IH]; [done|done|].
  change (e +:+ sep +:+ strings_Join ((e' :: elems) ++ [n]) sep
          = (e +:+ sep +:+ strings_Join (e' :: elems) sep) +:+ sep +:+ n).
  rewrite IH. by rewrite !append_assoc.
Qed.

Lemma append_eq_empty a b : a +:+ b = "" -> b = "".
Proof. destruct a; [done | discriminate]. Qed.

Lemma Clean_unfold path :
  path <> "" ->
  filepath_Clean path
  = let body := strings_Join (cleanElems (rooted path) (strings_Split path "/") []) "/" in
    if rooted path then "/" +:+ body
    else if String.eqb body "" then "." else body.
Proof. by destruct path. Qed.

(** Joining a directory [d] and a plain name [n]: a text that depends on [d]
    only, followed by [n]. *)
Lemma filepath_Join_plain d :
  exists front, forall n, plain n = true -> filepath_Join [d; n] = front +:+ n.
Proof.
  destruct (String.eqb_spec d "") as [->|Hd].
  - exists "". intros n Hn.
    destruct (plain_inv n Hn) as (Hslash & Hne & _).
    change (filepath_Join [""; n]) with (filepath_Join [n]).
    unfold filepath_Join. rewrite Hne. change (strings_Join [n] "/") with n.
    apply String.eqb_neq in Hne.
    rewrite (Clean_unfold n Hne).
    assert (rooted n = false) as ->.
    { destruct n; [done|]. simpl in Hslash. by apply orb_false_iff in Hslash as [? _]. }
    rewrite (Split_no_sep n "/" Hslash).
    change [n] with ([] ++ [n]). rewrite cleanElems_snoc by done.
    change (strings_Join (cleanElems false [] [] ++ [n]) "/") with n.
    cbv zeta. by destruct (String.eqb_spec n "").
  - set (kept := cleanElems (rooted d) (strings_Split d "/") []).
    exists ((if rooted d then "/" else "")
            +:+ match kept with [] => "" | _ => strings_Join kept "/" +:+ "/" end).
    intros n Hn.
    destruct (plain_inv n Hn) as (Hslash & Hne & _).
    unfold filepath_Join. apply String.eqb_neq in Hd as Hd'. rewrite Hd'.
    change (strings_Join [d; n] "/") with (d +:+ String "/" n).
    assert (d +:+ String "/" n <> "") as Hpath by (by destruct d).
    rewrite (Clean_unfold _ Hpath).
    assert (rooted (d +:+ String "/" n) = rooted d) as -> by (by destruct d).
    rewrite Split_app_sep, (Split_no_sep n "/" Hslash).
    rewrite cleanElems_snoc by done. fold kept.
    rewrite Join_snoc. cbv zeta.
    destruct (rooted d).
    + destruct kept; [done|]. by rewrite !append_assoc.
    + destruct kept as [|k kept'].
      * change ("" +:+ "" +:+ n) with n. by rewrite Hne.
      * destruct (String.eqb_spec (strings_Join (k :: kept') "/" +:+ "/" +:+ n) "")
          as [E|_].
        -- apply append_eq_empty in E. discriminate.
        -- change ("" +:+ ?x) with x. by rewrite !append_assoc.
Qed.

(** Two plain names under one directory are one name when their paths are
    one path. *)
Lemma filepath_Join_inj d n n' :
  plain n = true -> plain n' = true ->
  filepath_Join [d; n] = filepath_Join [d; n'] -> n = n'.
Proof.
  intros Hn Hn'. destruct (filepath_Join_plain d) as [front Hfront].
  rewrite (Hfront n Hn), (Hfront n' Hn'). apply String.app_inj.
Qed.

Lemma libDirName_plain t : t ∈ allTargets -> plain (libDirName t) = true.
Proof. revert t. by_registry. Qed.

Lemma cgoFilename_plain t : t ∈ allTargets -> plain (cgoFilename t) = true.
Proof. revert t. by_registry. Qed.

Lemma libDirName_inj t u :
  t ∈ allTargets -> u ∈ allTargets -> libDirName t = libDirName u -> t = u.
Proof.
  intros Ht Hu.
  assert (Forall (fun u => libDirName t = libDirName u -> t = u) allTargets) as H.
  { revert t Ht. by_registry. }
  rewrite Forall_forall in H. by apply H.
Qed.

Lemma cgoFilename_inj t u :
  t ∈ allTargets -> u ∈ allTargets -> cgoFilename t = cgoFilename u -> t = u.
Proof.
  intros Ht Hu.
  assert (Forall (fun u => cgoFilename t = cgoFilename u -> t = u) allTargets) as H.
  { revert t Ht. by_registry. }
  rewrite Forall_forall in H. by apply H.
Qed.

(** C10.  Registry entries are pairwise distinct in their [(GOOS, ARCH)]
    pair (and in their [(OS, CPU)] pair), so a selector token resolves to at
    most one entry, and no two entries share the name of their directory
    under [lib/] or of their CGO descriptor; whatever the project root is,
    no two entries share the path of that directory or of that descriptor
    either. *)
Theorem registry_names_unambiguous :
  NoDup (map (fun t => (GOOS t, ARCH t)) allTargets)
  /\ NoDup (map (fun t => (OS t, CPU t)) allTargets)
  /\ (forall goos goarch t u,
        findTarget goos goarch = Some t ->
        u ∈ allTargets -> GOOS u = goos -> ARCH u = goarch -> u = t)
  /\ (forall part t u,
        parsePart part = Ok t ->
        u ∈ allTargets -> GOOS u +:+ "/" +:+ ARCH u = strings_TrimSpace part -> u = t)
  /\ NoDup (map libDirName allTargets)
  /\ NoDup (map cgoFilename allTargets)
  /\ (forall env t u,
        t ∈ allTargets -> u ∈ allTargets ->
        packagedLibDir env t = packagedLibDir env u -> t = u)
  /\ (forall env t u,
        t ∈ allTargets -> u ∈ allTargets ->
        filepath_Join [projectRoot env; cgoFilename t]
        = filepath_Join [projectRoot env; cgoFilename u] -> t = u).
Proof.
  assert (forall goos goarch t u,
             findTarget goos goarch = Some t ->
             u ∈ allTargets -> GOOS u = goos -> ARCH u = goarch -> u = t) as Hfind.
  { intros goos goarch t u Hf Hu Hos Harch.
    apply findTarget_Some in Hf as (Ht & Hos' & Harch').
    apply registry_unique; congruence. }
  repeat split.
  - apply (bool_decide_eq_true_1 _). vm_compute. reflexivity.
  - apply (bool_decide_eq_true_1 _). vm_compute. reflexivity.
  - exact Hfind.
  - intros part t u Hp Hu Htok.
    apply parsePart_Ok in Hp as (goos & goarch & Hsplit & Hf).
    rewrite <- Htok, (token_Split u Hu) in Hsplit.
    injection Hsplit as Hos Harch. by apply (Hfind _ _ _ _ Hf).
  - apply (bool_decide_eq_true_1 _). vm_compute. reflexivity.
  - apply (bool_decide_eq_true_1 _). vm_compute. reflexivity.
  - intros env t u Ht Hu Hpath. unfold packagedLibDir in Hpath.
    apply filepath_Join_inj in Hpath; auto using libDirName_plain, libDirName_inj.
  - intros env t u Ht Hu Hpath.
    apply filepath_Join_inj in Hpath; auto using cgoFilename_plain, cgoFilename_inj.
Qed.

(* ===================================================================== *)
(** * Properties of the configuration synthesizer *)
(* ===================================================================== *)

(** C3.  The configuration for linux/x64 holds [use_cfi_icall=false] and the
    one for linux/arm64 does not, in both revisions (whatever sysroot path the
    first one was given); among the registered targets linux/x64 is the only
    one whose configuration holds it. *)
Theorem cfi_icall_only_linux_x64 (relSysroot : string) :
  (cfi_icall_off ∈ Rev2.gnArgs linux_x64)
  /\ (cfi_icall_off ∉ Rev2.gnArgs linux_arm64)
  /\ (cfi_icall_off ∈ Rev1.gnArgs relSysroot linux_x64)
  /\ (cfi_icall_off ∉ Rev1.gnArgs relSysroot linux_arm64)
  /\ (forall t, t ∈ allTargets -> (cfi_icall_off ∈ Rev2.gnArgs t <-> t = linux_x64)).
Proof.
  repeat split.
  - apply (bool_decide_eq_true_1 _). vm_compute. reflexivity.
  - apply (bool_decide_eq_true_1 _). vm_compute. reflexivity.
  - apply list_elem_of_In. vm_compute. tauto.
  - intros H. apply list_elem_of_In in H. vm_compute in H.
    repeat (destruct H as [H|H]; [discriminate H|]). exact H.
  - revert H. revert t. by_registry.
  - revert H. revert t. by_registry.
Qed.

(** C4.  The configuration of every target starts with the whole baseline
    list of its revision: the platform cases only append to it, so every
    baseline directive (and every directive common to all targets) is in
    the configuration. *)
Theorem baseline_kept (relSysroot : string) (t : Target) :
  (exists overlay, Rev2.gnArgs t = Rev2.baselineArgs t ++ overlay)
  /\ (forall d, d ∈ Rev2.baselineArgs t -> d ∈ Rev2.gnArgs t)
  /\ (forall d, d ∈ commonArgs -> d ∈ Rev2.gnArgs t)
  /\ (exists overlay, Rev1.gnArgs relSysroot t = Rev1.baselineArgs t ++ overlay)
  /\ (forall d, d ∈ Rev1.baselineArgs t -> d ∈ Rev1.gnArgs relSysroot t).
Proof.
  assert (exists overlay, Rev2.gnArgs t = Rev2.baselineArgs t ++ overlay) as H2.
  { unfold Rev2.gnArgs, Rev2.platformArgs.
    repeat case_match; rewrite <- ?app_assoc; eexists; reflexivity. }
  assert (exists overlay, Rev1.gnArgs relSysroot t = Rev1.baselineArgs t ++ overlay)
    as H1.
  { unfold Rev1.gnArgs, Rev1.platformArgs.
    repeat case_match; rewrite <- ?app_assoc; eexists; reflexivity. }
  split; [exact H2|]. split; [|split; [|split; [exact H1|]]].
  - destruct H2 as [o ->]. intros d Hd. apply elem_of_app. by left.
  - destruct H2 as [o ->]. intros d Hd. unfold Rev2.baselineArgs.
    rewrite !elem_of_app. by left; left.
  - destruct H1 as [o ->]. intros d Hd. apply elem_of_app. by left.
Qed.

(* ===================================================================== *)
(** * Properties of the toolchain provisioning *)
(* ===================================================================== *)

Lemma needsHostSysroot_true env t :
  runtime_GOOS env = "linux" ->
  OS t = "linux" \/ OS t = "android" ->
  CPU t <> Rev2.hostToCPU (runtime_GOARCH env) ->
  Rev2.needsHostSysroot env t = true.
Proof.
  intros Hos Ht Hcpu. unfold Rev2.needsHostSysroot. rewrite Hos.
  apply String.eqb_neq in Hcpu. rewrite Hcpu.
  destruct Ht as [-> | ->]; reflexivity.
Qed.

(** On a linux host, for a linux or android target whose CPU is not the
    host's, [runGetClang] starts [get-clang.sh] for the host first; if that
    succeeds and [os.Stat] finds nothing at [hostSysrootDst], it links
    [hostSysrootSrc] there (and not otherwise); only then does it start
    [get-clang.sh] for the target.  A failing step is fatal and nothing after
    it happens.  The programs started and links made are, in order: *)
Theorem runGetClang_order (env : Env) (t : Target) (fs : FileSys) :
  runtime_GOOS env = "linux" ->
  OS t = "linux" \/ OS t = "android" ->
  CPU t <> Rev2.hostToCPU (runtime_GOARCH env) ->
  let host := Rev2.getClang env (Rev2.hostFlags (Rev2.hostToCPU (runtime_GOARCH env))) in
  let target := Rev2.getClang env (Rev2.getExtraFlags t) in
  let src := Rev2.hostSysrootSrc env in
  let dst := Rev2.hostSysrootDst env in
  let run := Rev2.runGetClang env t fs in
  let r1 := exec_Run env host fs in
  match r1.1 with
  | Some e =>
      actions (run_trace run) = [EvRun host (Some e)]
      /\ run_result run = Fatal ("get-clang.sh (host) failed: " +:+ e)
  | None =>
      if os_IsNotExist (fs_Stat r1.2 dst) then
        match fs_Symlink r1.2 src dst with
        | Failed en =>
            actions (run_trace run)
            = [EvRun host None; EvSymlink src dst (Some (LinkError "symlink" src dst en))]
            /\ run_result run
               = Fatal ("failed to create host sysroot symlink: "
                        +:+ LinkError "symlink" src dst en)
        | Done fs2 =>
            let r3 := exec_Run env target fs2 in
            actions (run_trace run)
            = [EvRun host None; EvSymlink src dst None; EvRun target r3.1]
            /\ (r3.1 = None -> run_result run = Ok tt)
        end
      else
        let r3 := exec_Run env target r1.2 in
        actions (run_trace run) = [EvRun host None; EvRun target r3.1]
        /\ (r3.1 = None -> run_result run = Ok tt)
  end.
Proof.
  intros Hos Ht Hcpu host target src dst run r1.
  pose proof (needsHostSysroot_true env t Hos Ht Hcpu) as Hneed.
  subst run r1. unfold Rev2.runGetClang. rewrite Hneed.
  fold host target src dst.
  destruct (exec_Run env host fs) as [[e|] fs1] eqn:E1; run_step; rewrite E1; run_step.
  - done.
  - destruct (fs_Stat fs1 dst) eqn:Est; run_step.
    + destruct (exec_Run env target fs1) as [[e3|] fs3]; run_step; split; done.
    + destruct (fs_Symlink fs1 src dst) as [fs2|en] eqn:Esl; run_step.
      * destruct (exec_Run env target fs2) as [[e3|] fs3]; run_step; split; done.
      * done.
    + destruct (exec_Run env target fs1) as [[e3|] fs3]; run_step; split; done.
Qed.

Lemma runGetClang_order_witness :
  actions (run_trace (Rev2.runGetClang quietEnv linux_arm64 ∅))
  = [EvRun (Rev2.getClang quietEnv (Rev2.hostFlags "x64")) None;
     EvSymlink (Rev2.hostSysrootSrc quietEnv) (Rev2.hostSysrootDst quietEnv) None;
     EvRun (Rev2.getClang quietEnv (Rev2.getExtraFlags linux_arm64)) None]
  /\ run_result (Rev2.runGetClang quietEnv linux_arm64 ∅) = Ok tt.
Proof.
  pose proof (runGetClang_order quietEnv linux_arm64 ∅ eq_refl (or_introl eq_refl))
    as H.
  destruct H as [Hact Hres]; [vm_compute; discriminate|].
  split; [exact Hact | by apply Hres].
Defined.

(** C1.  On a linux/arm64 host, for the target linux/x64 and with nothing in
    the checkout yet, [runGetClang] asks [get-clang.sh] for the host sysroot
    of CPU arm64 and then links the staging directory of amd64 to
    [build/linux/debian_bullseye_amd64-sysroot].  The staging directory the
    tool itself derives for CPU arm64 is another one, and nothing is linked
    from it. *)
Theorem runGetClang_arm64_host_links_amd64 :
  let script (cpu : string) :=
    mkCmd "/work/cronet-go/naiveproxy/src" "bash" ["./get-clang.sh"]
          ["PATH=/usr/bin";
           "EXTRA_FLAGS=target_os=" +:+ dquote +:+ "linux" +:+ dquote
           +:+ " target_cpu=" +:+ dquote +:+ cpu +:+ dquote] in
  runtime_GOOS armHost = "linux"
  /\ Rev2.hostToCPU (runtime_GOARCH armHost) = "arm64"
  /\ actions (run_trace (Rev2.runGetClang armHost linux_x64 ∅))
     = [EvRun (script "arm64") None;
        EvSymlink
          "/work/cronet-go/naiveproxy/src/out/sysroot-build/bullseye/bullseye_amd64_staging"
          "/work/cronet-go/naiveproxy/src/build/linux/debian_bullseye_amd64-sysroot" None;
        EvRun (script "x64") None]
  /\ run_result (Rev2.runGetClang armHost linux_x64 ∅) = Ok tt
  /\ Rev2.sysrootDir "arm64" = "out/sysroot-build/bullseye/bullseye_arm64_staging"
  /\ forall src dst e,
       In (EvSymlink src dst e) (run_trace (Rev2.runGetClang armHost linux_x64 ∅)) ->
       src <> filepath_Join [srcRoot armHost; Rev2.sysrootDir "arm64"].
Proof.
  cbv zeta. do 5 (split; [vm_compute; reflexivity|]).
  intros src dst e Hin. vm_compute in Hin.
  repeat destruct Hin as [Hin|Hin]; try discriminate; try done.
  injection Hin as <- _ _. vm_compute. discriminate.
Qed.

(* ===================================================================== *)
(** * Properties of the integrity-checked transfer *)
(* ===================================================================== *)

Lemma fs_follow_end fuel (fs : FileSys) path p o :
  fs_follow fuel fs path = Some (p, o) ->
  fs !! p = o /\ forall target, o <> Some (Symlink target).
Proof.
  revert path. induction fuel as [|fuel IH]; intros path; unfold fs_follow; fold fs_follow.
  - destruct (fs !! path) as [[d| |tgt]|] eqn:E; intros [= <- <-]; by split.
  - destruct (fs !! path) as [[d| |tgt]|] eqn:E; try (intros [= <- <-]; by split).
    apply IH.
Qed.

(** Writing a file where a chain of links ends leaves the chain in place. *)
Lemma fs_follow_insert fuel (fs : FileSys) path p o data :
  fs_follow fuel fs path = Some (p, o) ->
  fs_follow fuel (<[p := File data]> fs) path = Some (p, Some (File data)).
Proof.
  revert path. induction fuel as [|fuel IH]; intros path; unfold fs_follow; fold fs_follow.
  - destruct (fs !! path) as [[d| |tgt]|] eqn:E; intros [= <- <-];
      by rewrite lookup_insert_eq.
  - destruct (decide (path = p)) as [->|Hne].
    + intros _. by rewrite lookup_insert_eq.
    + rewrite lookup_insert_ne by done.
      destruct (fs !! path) as [[d| |tgt]|] eqn:E; try (by intros [= <- <-]).
      apply IH.
Qed.

Lemma fs_Create_spec (fs : FileSys) path p fs' :
  fs_Create fs path = Done (p, fs') ->
  exists o, fs_follow maxSymlinks fs path = Some (p, o) /\ fs' = <[p := File ""]> fs.
Proof.
  unfold fs_Create.
  destruct (fs_follow maxSymlinks fs path) as [[q [[d| |tgt]|]]|];
    intros [= <- <-]; eauto.
Qed.

Lemma fs_Stat_absent (fs : FileSys) path :
  fs !! path = None -> fs_Stat fs path = StatNotExist.
Proof. unfold fs_Stat, maxSymlinks, fs_follow. by intros ->. Qed.

(** C2.  When the transfer completes (status 200, the body read to its
    end, the destination opened for writing): if the SHA-256 of the payload, in
    lower-case hex, is the expected string, [downloadFile] returns no error
    and the destination reads back as the payload; if it is not, [downloadFile]
    returns the mismatch error and nothing is left at the destination path. *)
Theorem downloadFile_integrity
    (env : Env) (url dest expectedSha256 payload : string) (fs : FileSys) :
  http_Get env url = HttpResponse 200 payload None ->
  (exists created, fs_Create fs dest = Done created) ->
  let run := Rev1.downloadFile env url dest expectedSha256 fs in
  let digest := hex_EncodeToString (sha256_Sum payload) in
  (digest = expectedSha256 ->
     run_result run = Ok None
     /\ fs_ReadFile (run_fs run) dest = Some payload)
  /\ (digest <> expectedSha256 ->
      run_result run
      = Ok (Some ("sha256 mismatch: expected " +:+ expectedSha256
                  +:+ ", got " +:+ digest))
      /\ run_fs run !! dest = None
      /\ fs_Stat (run_fs run) dest = StatNotExist).
Proof.
  intros Hget [[p fs'] Hcreate] run digest.
  pose proof (fs_Create_spec _ _ _ _ Hcreate) as (o & Hfollow & ->).
  subst run digest. unfold Rev1.downloadFile.
  run_step. rewrite Hget. run_step. rewrite Z.eqb_refl. run_step.
  rewrite Hcreate. run_step.
  unfold fs_Write. rewrite insert_insert_eq.
  remember (hex_EncodeToString (sha256_Sum payload)) as digest eqn:Hd. clear Hd.
  split.
  - intros Heq. apply String.eqb_eq in Heq. rewrite Heq. run_step.
    split; [done|].
    unfold fs_ReadFile, fs_Open.
    by rewrite (fs_follow_insert _ _ _ _ _ payload Hfollow).
  - intros Hne. apply String.eqb_neq in Hne. rewrite Hne. run_step.
    split; [done|].
    assert ((match fs_Remove (<[p:=File payload]> fs) dest with
             | Done fs'0 => fs'0
             | Failed _ => <[p:=File payload]> fs
             end) !! dest = None) as Hgone.
    { unfold fs_Remove.
      destruct (<[p:=File payload]> fs !! dest) eqn:E; [|done].
      apply lookup_delete_eq. }
    split; [exact Hgone | by apply fs_Stat_absent].
Qed.

Lemma downloadFile_integrity_witness :
  (hex_EncodeToString (sha256_Sum "sysroot")
   = "7537056ccf75356c61a67695a59cd540e63c8f9f28941a21e96517f5690caec8" ->
   run_result
     (Rev1.downloadFile mirrorEnv "https://mirror.example/sysroot" "/tmp/sysroot.tar.xz"
        "7537056ccf75356c61a67695a59cd540e63c8f9f28941a21e96517f5690caec8" ∅)
   = Ok None
   /\ fs_ReadFile
        (run_fs
           (Rev1.downloadFile mirrorEnv "https://mirror.example/sysroot"
              "/tmp/sysroot.tar.xz"
              "7537056ccf75356c61a67695a59cd540e63c8f9f28941a21e96517f5690caec8" ∅))
        "/tmp/sysroot.tar.xz"
      = Some "sysroot")
  /\ hex_EncodeToString (sha256_Sum "sysroot")
     = "7537056ccf75356c61a67695a59cd540e63c8f9f28941a21e96517f5690caec8"
  /\ http_Get mirrorEnv "https://mirror.example/sysroot" = HttpResponse 200 "sysroot" None
  /\ exists created, fs_Create (∅ : FileSys) "/tmp/sysroot.tar.xz" = Done created.
Proof.
  assert (http_Get mirrorEnv "https://mirror.example/sysroot"
          = HttpResponse 200 "sysroot" None) as Hget by reflexivity.
  assert (exists created, fs_Create (∅ : FileSys) "/tmp/sysroot.tar.xz" = Done created)
    as Hcreate by (eexists; vm_compute; reflexivity).
  pose proof (downloadFile_integrity mirrorEnv "https://mirror.example/sysroot"
                "/tmp/sysroot.tar.xz"
                "7537056ccf75356c61a67695a59cd540e63c8f9f28941a21e96517f5690caec8"
                "sysroot" ∅ Hget Hcreate) as H.
  split; [exact (proj1 H)|].
  split; [vm_compute; reflexivity|]. split; [exact Hget | exact Hcreate].
Defined.

(* ===================================================================== *)
(** * Properties of the packager *)
(* ===================================================================== *)

Lemma writes_app (tr1 tr2 : list Event) : writes (tr1 ++ tr2) = writes tr1 ++ writes tr2.
Proof. apply List.filter_app. Qed.

Lemma run_bind {A B : Type} (m : M A) (f : A -> M B) (fs : FileSys) :
  (m ≫= f) fs
  = match run_result (m fs) with
    | Ok a =>
        mkRun (run_result (f a (run_fs (m fs)))) (run_fs (f a (run_fs (m fs))))
              (run_trace (m fs) ++ run_trace (f a (run_fs (m fs))))
    | Fatal msg => mkRun (Fatal msg) (run_fs (m fs)) (run_trace (m fs))
    end.
Proof. reflexivity. Qed.

Lemma bind_Ok_inv {A B : Type} (m : M A) (f : A -> M B) (fs : FileSys) (b : B) :
  run_result ((m ≫= f) fs) = Ok b ->
  exists a, run_result (m fs) = Ok a
            /\ run_result (f a (run_fs (m fs))) = Ok b
            /\ run_trace ((m ≫= f) fs)
               = run_trace (m fs) ++ run_trace (f a (run_fs (m fs)))
            /\ run_fs ((m ≫= f) fs) = run_fs (f a (run_fs (m fs))).
Proof.
  rewrite run_bind. destruct (run_result (m fs)) as [a|msg]; [|discriminate].
  intros H. exists a. by repeat split.
Qed.

Lemma fails_on_io_bind {A B : Type} (m : M A) (f : A -> M B) :
  fails_on_io m -> (forall a, fails_on_io (f a)) -> fails_on_io (m ≫= f).
Proof.
  intros Hm Hf fs. rewrite run_bind.
  destruct (Hm fs) as [[a Ha]|Hfail].
  - rewrite Ha. destruct (Hf a (run_fs (m fs))) as [[b Hb]|Hfail].
    + left. by exists b.
    + right. cbv [run_trace]. rewrite existsb_app.
      fold (run_trace (f a (run_fs (m fs)))). rewrite Hfail. apply orb_true_r.
  - right. destruct (run_result (m fs)); cbv [run_trace];
      [rewrite existsb_app|]; fold (run_trace (m fs)); by rewrite Hfail.
Qed.

Lemma writes_nothing_bind {A B : Type} (m : M A) (f : A -> M B) :
  writes_nothing m -> (forall a, writes_nothing (f a)) -> writes_nothing (m ≫= f).
Proof.
  intros Hm Hf fs. rewrite run_bind.
  destruct (run_result (m fs)) as [a|msg]; cbv [run_trace].
  - fold (run_trace (m fs)) (run_trace (f a (run_fs (m fs)))).
    by rewrite writes_app, Hm, Hf.
  - apply Hm.
Qed.

Lemma fails_on_io_forEach {A : Type} (xs : list A) (body : A -> M unit) :
  (forall x, fails_on_io (body x)) -> fails_on_io (forEach xs body).
Proof.
  intros Hbody. induction xs as [|x xs IH].
  - intros fs. left. by exists tt.
  - apply fails_on_io_bind; [apply Hbody | intros _; apply IH].
Qed.

Lemma writes_nothing_forEach {A : Type} (xs : list A) (body : A -> M unit) :
  (forall x, writes_nothing (body x)) -> writes_nothing (forEach xs body).
Proof.
  intros Hbody. induction xs as [|x xs IH].
  - by intros fs.
  - apply writes_nothing_bind; [apply Hbody | intros _; apply IH].
Qed.

Lemma copyFile_fails_on_io src dst : fails_on_io (copyFile src dst).
Proof.
  intros fs. unfold copyFile. trace_step.
  destruct (fs_Open fs src) as [node|e]; trace_step; [|by right].
  destruct (fs_MkdirAll fs (filepath_Dir dst)) as [fs1|e]; trace_step; [|by right].
  destruct (fs_Create fs1 dst) as [[p fs2]|e]; trace_step; [|by right].
  destruct node as [data| |target]; cbv [read_all]; trace_step;
    [left; by exists tt | by right | by right].
Qed.

Lemma copyFile_writes_nothing src dst : writes_nothing (copyFile src dst).
Proof.
  intros fs. unfold copyFile. trace_step.
  destruct (fs_Open fs src) as [node|e]; trace_step; [|done].
  destruct (fs_MkdirAll fs (filepath_Dir dst)) as [fs1|e]; trace_step; [|done].
  destruct (fs_Create fs1 dst) as [[p fs2]|e]; trace_step; [|done].
  destruct node as [data| |target]; cbv [read_all]; trace_step; done.
Qed.

Lemma packageLibrary_fails_on_io env t : fails_on_io (packageLibrary env t).
Proof.
  unfold packageLibrary.
  apply fails_on_io_bind; [intros fs; left; by eexists|]. intros _.
  apply fails_on_io_bind; [intros fs; left; by eexists|]. intros st.
  destruct (os_IsNotExist st).
  - intros fs. left. by exists tt.
  - apply fails_on_io_bind; [apply copyFile_fails_on_io|].
    intros _ fs. left. by exists tt.
Qed.

Lemma packageLibrary_writes_nothing env t : writes_nothing (packageLibrary env t).
Proof.
  unfold packageLibrary.
  apply writes_nothing_bind; [by intros fs|]. intros _.
  apply writes_nothing_bind; [by intros fs|]. intros st.
  destruct (os_IsNotExist st).
  - by intros fs.
  - apply writes_nothing_bind; [apply copyFile_writes_nothing|]. by intros _ fs.
Qed.

Lemma generateCGOConfig_fails_on_io env t : fails_on_io (generateCGOConfig env t).
Proof.
  intros fs. unfold generateCGOConfig. trace_step.
  destruct (fs_Create fs _) as [[p fs1]|e]; trace_step; [left; by exists tt | by right].
Qed.

(** A run of [generateCGOConfigs] that is not fatal wrote one descriptor per
    list entry, in order. *)
Lemma generateCGOConfigs_writes env ts fs :
  run_result (generateCGOConfigs env ts fs) = Ok tt ->
  writes (run_trace (generateCGOConfigs env ts fs)) = map (descriptor env) ts.
Proof.
  revert fs. induction ts as [|t ts IH]; intros fs; [done|].
  unfold generateCGOConfigs. simpl forEach. intros H.
  apply bind_Ok_inv in H as ([] & H1 & H2 & -> & _).
  rewrite writes_app. fold (generateCGOConfigs env ts) in *. rewrite (IH _ H2).
  simpl map. f_equal.
  revert H1. unfold generateCGOConfig, descriptor. trace_step.
  destruct (fs_Create fs _) as [[p fs1]|e]; trace_step; [done | discriminate].
Qed.

Lemma cmdPackage_fails_on_io env ts : fails_on_io (cmdPackage env ts).
Proof.
  unfold cmdPackage.
  apply fails_on_io_bind; [intros fs; left; by eexists|]. intros _.
  apply fails_on_io_bind; [intros fs; left; by eexists|]. intros _.
  apply fails_on_io_bind; [intros fs; left; by eexists|]. intros _.
  apply fails_on_io_bind; [intros fs; left; by eexists|]. intros _.
  apply fails_on_io_bind.
  { apply fails_on_io_forEach. intros h. apply copyFile_fails_on_io. }
  intros _.
  apply fails_on_io_bind; [intros fs; left; by eexists|]. intros _.
  apply fails_on_io_bind.
  { apply fails_on_io_forEach. intros t. apply packageLibrary_fails_on_io. }
  intros _.
  apply fails_on_io_bind.
  { apply fails_on_io_forEach. intros t. apply generateCGOConfig_fails_on_io. }
  intros _ fs. left. by eexists.
Qed.

Lemma log_writes line fs : writes (run_trace (log line fs)) = [].
Proof. reflexivity. Qed.
Lemma RemoveAll_writes path fs : writes (run_trace (os_RemoveAll path fs)) = [].
Proof. reflexivity. Qed.
Lemma MkdirAll_writes path fs : writes (run_trace (os_MkdirAll path fs)) = [].
Proof. reflexivity. Qed.

Ltac peel H :=
  let a := fresh "a" in
  let H1 := fresh "Hhead" in
  let Htr := fresh "Htr" in
  apply bind_Ok_inv in H as (a & H1 & H & Htr & _); rewrite Htr, writes_app; clear Htr;
  lazymatch type of a with
  | unit => destruct a
  | _ => idtac
  end.

(** C9.  Packaging is best effort per target.  A run of [cmdPackage] ends
    in [fatal] only after a failed open, create, copy, mkdir or write; a run
    that is not fatal wrote one CGO descriptor per entry of the target list, in
    list order, whether or not the library of the entry was copied; and a
    target whose built library [os.Stat] reports absent leaves a warning and
    no copy, after which the loop goes on with the remaining targets. *)
Theorem cmdPackage_best_effort (env : Env) (ts : list Target) (fs : FileSys) :
  let run := cmdPackage env ts fs in
  (existsb io_failure (run_trace run) = false -> run_result run = Ok tt)
  /\ (run_result run = Ok tt -> writes (run_trace run) = map (descriptor env) ts)
  /\ (forall t rest fs1,
        let mkdir := os_MkdirAll (packagedLibDir env t) fs1 in
        let skipped := forEach (t :: rest) (packageLibrary env) fs1 in
        let others := forEach rest (packageLibrary env) (run_fs mkdir) in
        fs_Stat (run_fs mkdir) (srcLib env t) = StatNotExist ->
        run_result skipped = run_result others
        /\ run_fs skipped = run_fs others
        /\ run_trace skipped
           = run_trace mkdir
             ++ [EvStat (srcLib env t) StatNotExist; libraryWarning t]
             ++ run_trace others).
Proof.
  intros run. split; [|split].
  - intros Hquiet. destruct (cmdPackage_fails_on_io env ts fs) as [[[] Hok]|Hfail].
    + exact Hok.
    + subst run. congruence.
  - subst run. unfold cmdPackage. intros H.
    peel H; peel H; peel H; peel H; peel H; peel H; peel H; peel H.
    repeat lazymatch goal with
           | |- context [writes (run_trace (forEach ?xs ?body ?st))] =>
               let Hq := fresh "Hq" in
               assert (writes (run_trace (forEach xs body st)) = []) as Hq
                 by (apply writes_nothing_forEach; intros ?;
                     first [apply copyFile_writes_nothing
                           | apply packageLibrary_writes_nothing]);
               rewrite Hq; clear Hq
           end.
    rewrite (generateCGOConfigs_writes env ts _ Hhead6).
    rewrite !log_writes, !RemoveAll_writes, MkdirAll_writes.
    by rewrite app_nil_r.
  - intros t rest fs1 mkdir skipped others Hstat.
    subst skipped others. simpl forEach. rewrite run_bind.
    assert (packageLibrary env t fs1
            = mkRun (Ok tt) (run_fs mkdir)
                    (run_trace mkdir
                     ++ [EvStat (srcLib env t) StatNotExist; libraryWarning t]))
      as ->.
    { subst mkdir. unfold packageLibrary, libraryWarning. trace_step.
      destruct (fs_MkdirAll fs1 (packagedLibDir env t)) as [fs2|e] eqn:E;
        revert Hstat; trace_step; rewrite E; intros ->; reflexivity. }
    cbv [run_result run_fs run_trace]. rewrite <- app_assoc. done.
Qed.

Lemma cmdPackage_best_effort_witness :
  run_result (cmdPackage quietEnv [linux_x64; linux_arm64] builtFiles) = Ok tt
  /\ writes (run_trace (cmdPackage quietEnv [linux_x64; linux_arm64] builtFiles))
     = map (descriptor quietEnv) [linux_x64; linux_arm64]
  /\ In (libraryWarning linux_arm64)
        (run_trace (cmdPackage quietEnv [linux_x64; linux_arm64] builtFiles))
  /\ fs_ReadFile (run_fs (cmdPackage quietEnv [linux_x64; linux_arm64] builtFiles))
                 "/work/cronet-go/lib/linux_amd64/libcronet.a"
     = Some "archive"
  /\ run_fs (cmdPackage quietEnv [linux_x64; linux_arm64] builtFiles)
     !! "/work/cronet-go/lib/linux_arm64/libcronet.a"
     = None.
Proof.
  pose proof (cmdPackage_best_effort quietEnv [linux_x64; linux_arm64] builtFiles)
    as (Hruns & Hwrites & _).
  assert (run_result (cmdPackage quietEnv [linux_x64; linux_arm64] builtFiles) = Ok tt)
    as Hok by (apply Hruns; vm_compute; reflexivity).
  split; [exact Hok|]. split; [exact (Hwrites Hok)|].
  split; [vm_compute; tauto|]. split; vm_compute; reflexivity.
Defined.

(* ===================================================================== *)
(** * Further properties *)
(* ===================================================================== *)

(** A response whose status is not 200 makes [downloadFile] return the
    [HTTP status] error; nothing is created or changed. *)
Theorem downloadFile_bad_status
    (env : Env) (url dest expectedSha256 : string) (fs : FileSys)
    (status : Z) (body : string) (body_error : error) :
  http_Get env url = HttpResponse status body body_error ->
  status <> 200%Z ->
  Rev1.downloadFile env url dest expectedSha256 fs
  = mkRun (Ok (Some (Rev1.httpStatusError status))) fs [EvHttpGet url].
Proof.
  intros Hget Hstatus. unfold Rev1.downloadFile. run_step. rewrite Hget. run_step.
  destruct (Z.eqb_spec status 200); [done|]. run_step. reflexivity.
Qed.

Lemma downloadFile_bad_status_witness :
  Rev1.downloadFile mirrorEnv "https://mirror.example/missing" "/tmp/x" "00" ∅
  = mkRun (Ok (Some "HTTP 404")) ∅ [EvHttpGet "https://mirror.example/missing"].
Proof.
  apply (downloadFile_bad_status mirrorEnv "https://mirror.example/missing" "/tmp/x"
           "00" ∅ 404 "" None); [reflexivity | discriminate].
Defined.

(** When reading the body ends in an error, [downloadFile] returns that
    error without comparing digests, and the bytes received stay at the
    destination. *)
Theorem downloadFile_broken_body
    (env : Env) (url dest expectedSha256 received cause : string) (fs : FileSys) :
  http_Get env url = HttpResponse 200 received (Some cause) ->
  (exists created, fs_Create fs dest = Done created) ->
  run_result (Rev1.downloadFile env url dest expectedSha256 fs) = Ok (Some cause)
  /\ fs_ReadFile (run_fs (Rev1.downloadFile env url dest expectedSha256 fs)) dest
     = Some received.
Proof.
  intros Hget [[p fs'] Hcreate].
  pose proof (fs_Create_spec _ _ _ _ Hcreate) as (o & Hfollow & ->).
  unfold Rev1.downloadFile.
  run_step. rewrite Hget. run_step. rewrite Z.eqb_refl. run_step.
  rewrite Hcreate. run_step.
  unfold fs_Write. rewrite insert_insert_eq. split; [done|].
  unfold fs_ReadFile, fs_Open.
  by rewrite (fs_follow_insert _ _ _ _ _ received Hfollow).
Qed.

Lemma downloadFile_broken_body_witness :
  run_result (Rev1.downloadFile flakyEnv "https://mirror.example/sysroot" "/tmp/x" "00" ∅)
  = Ok (Some "unexpected EOF")
  /\ fs_ReadFile
       (run_fs (Rev1.downloadFile flakyEnv "https://mirror.example/sysroot" "/tmp/x" "00" ∅))
       "/tmp/x"
     = Some "sysr".
Proof.
  assert (exists created, fs_Create (∅ : FileSys) "/tmp/x" = Done created) as Hcreate
    by (eexists; vm_compute; reflexivity).
  exact (downloadFile_broken_body flakyEnv "https://mirror.example/sysroot" "/tmp/x"
           "00" "sysr" "unexpected EOF" ∅ eq_refl Hcreate).
Defined.

(** A loop stops at the first pass that is fatal. *)
Lemma forEach_fail_fast {A : Type} (pre : list A) (x : A) (post : list A)
    (body : A -> M unit) (fs : FileSys) (msg : string) :
  run_result (forEach pre body fs) = Ok tt ->
  run_result (body x (run_fs (forEach pre body fs))) = Fatal msg ->
  forEach (pre ++ x :: post) body fs = forEach (pre ++ [x]) body fs
  /\ run_result (forEach (pre ++ x :: post) body fs) = Fatal msg.
Proof.
  revert fs. induction pre as [|y pre IH]; intros fs Hpre Hx.
  - change (run_fs (forEach [] body fs)) with fs in Hx.
    simpl app. simpl forEach. rewrite !run_bind, Hx. done.
  - simpl app in *. simpl forEach in *. rewrite run_bind in Hpre, Hx.
    rewrite !run_bind.
    destruct (run_result (body y fs)) as [[]|msg'] eqn:Ey; [|discriminate].
    cbv [run_result run_fs] in Hpre, Hx.
    destruct (IH (run_fs (body y fs))) as [-> ->]; done.
Qed.

Lemma run_log_then {B : Type} (line : string) (m : M B) (fs : FileSys) :
  (log line;; m) fs = mkRun (run_result (m fs)) (run_fs (m fs)) (EvLog line :: run_trace (m fs)).
Proof. reflexivity. Qed.

Lemma cmdBuild_unfold (env : Env) (ts : list Target) :
  Rev2.cmdBuild env ts
  = (log ("Building cronet_static for " +:+ itoa (length ts) +:+ " target(s)");;
     (forEach ts (buildStep env);; log "Build complete!")).
Proof. reflexivity. Qed.

(** [cmdBuild] is fail fast: when building a target is fatal, the run is
    fatal with that message and nothing is started for the targets after it
    (the run does what it does on the list cut after that target). *)
Theorem cmdBuild_fail_fast
    (env : Env) (pre : list Target) (t : Target) (post : list Target)
    (fs : FileSys) (msg : string) :
  run_result (forEach pre (buildStep env) fs) = Ok tt ->
  run_result (Rev2.buildTarget env t (run_fs (forEach pre (buildStep env) fs)))
  = Fatal msg ->
  run_result (Rev2.cmdBuild env (pre ++ t :: post) fs) = Fatal msg
  /\ actions (run_trace (Rev2.cmdBuild env (pre ++ t :: post) fs))
     = actions (run_trace (Rev2.cmdBuild env (pre ++ [t]) fs))
  /\ run_fs (Rev2.cmdBuild env (pre ++ t :: post) fs)
     = run_fs (Rev2.cmdBuild env (pre ++ [t]) fs).
Proof.
  intros Hpre Ht.
  assert (run_result (buildStep env t (run_fs (forEach pre (buildStep env) fs)))
          = Fatal msg) as Hstep.
  { unfold buildStep. by rewrite run_log_then. }
  destruct (forEach_fail_fast pre t post (buildStep env) fs msg Hpre Hstep)
    as [Heq Hres].
  rewrite !cmdBuild_unfold, !run_log_then, !run_bind, Heq.
  rewrite Heq in Hres. rewrite Hres. repeat split.
Qed.

Lemma cmdBuild_fail_fast_witness :
  run_result (Rev2.cmdBuild flakyEnv ([] ++ linux_x64 :: [linux_arm64; mac_arm64]) ∅)
  = Fatal "get-clang.sh failed: exit status 1"
  /\ actions (run_trace (Rev2.cmdBuild flakyEnv ([] ++ linux_x64 :: [linux_arm64; mac_arm64]) ∅))
     = actions (run_trace (Rev2.cmdBuild flakyEnv ([] ++ [linux_x64]) ∅))
  /\ run_fs (Rev2.cmdBuild flakyEnv ([] ++ linux_x64 :: [linux_arm64; mac_arm64]) ∅)
     = run_fs (Rev2.cmdBuild flakyEnv ([] ++ [linux_x64]) ∅).
Proof.
  apply (cmdBuild_fail_fast flakyEnv [] linux_x64 [linux_arm64; mac_arm64] ∅
           "get-clang.sh failed: exit status 1"); vm_compute; reflexivity.
Defined.

(* ===================================================================== *)
(** * Properties of the selector, continued *)
(* ===================================================================== *)

Lemma parseParts_inv parts acc r :
  parseParts parts acc = Ok r ->
  exists ts, r = acc ++ ts /\ Forall2 (fun p t => parsePart p = Ok t) parts ts.
Proof.
  revert acc. induction parts as [|p parts IH]; intros acc; simpl.
  - intros [= <-]. exists []. by rewrite app_nil_r.
  - destruct (parsePart p) as [t|msg] eqn:Hp; [|discriminate].
    intros H. apply IH in H as (ts & -> & Hall).
    exists (t :: ts). rewrite <- app_assoc. split; [done|]. by constructor.
Qed.

Lemma parsePart_Ok_registered part t :
  parsePart part = Ok t ->
  t ∈ allTargets /\ token t = strings_TrimSpace part.
Proof.
  intros H. apply parsePart_Ok in H as (goos & goarch & Hsplit & Hf).
  apply findTarget_Some in Hf as (Ht & <- & <-). split; [done|].
  rewrite <- (Join_Split (strings_TrimSpace part) "/"), Hsplit. reflexivity.
Qed.

(** Whatever [parseTargets] answers is a non-empty list of registry entries;
    for a selector that is neither empty nor [all] it holds one entry per
    comma-separated piece, the entry whose token is the trimmed piece. *)
Theorem parseTargets_sound (hostOS hostArch s : string) (ts : list Target) :
  parseTargets hostOS hostArch s = Ok ts ->
  ts <> []
  /\ Forall (fun t => t ∈ allTargets) ts
  /\ (s <> "" -> s <> "all" -> map token ts = pieces s).
Proof.
  unfold parseTargets.
  destruct (String.eqb_spec s "") as [->|Hne].
  - destruct (findTarget hostOS hostArch) as [t|] eqn:Hf; [|discriminate].
    intros [= <-]. apply findTarget_Some in Hf as (Ht & _).
    split; [done|]. split; [|done]. by apply Forall_cons.
  - destruct (String.eqb_spec s "all") as [->|Hnall].
    + intros [= <-]. split; [done|]. split; [|done].
      apply Forall_forall. auto.
    + intros H. apply parseParts_inv in H as (ts' & -> & Hall). simpl.
      pose proof (Split_nonempty s ",") as Hparts. unfold pieces.
      induction Hall as [|p t parts ts' Hp Hall IH]; [done|].
      apply parsePart_Ok_registered in Hp as [Ht Htok].
      split; [done|]. split.
      * constructor; [done|]. destruct parts; [by inversion Hall|].
        by apply IH.
      * intros _ _. simpl. f_equal; [done|].
        destruct parts as [|q parts]; [by inversion Hall|]. by apply IH.
Qed.

Lemma parseTargets_sound_witness :
  [linux_arm64; mac_arm64] <> []
  /\ Forall (fun t => t ∈ allTargets) [linux_arm64; mac_arm64]
  /\ ("linux/arm64 ,darwin/arm64" <> "" -> "linux/arm64 ,darwin/arm64" <> "all" ->
      map token [linux_arm64; mac_arm64] = pieces "linux/arm64 ,darwin/arm64").
Proof.
  apply (parseTargets_sound "linux" "amd64" "linux/arm64 ,darwin/arm64").
  vm_compute. reflexivity.
Defined.

Lemma blank_nil : blank "".
Proof. constructor. Qed.

Lemma blank_cons c s : blank (String c s) <-> asciiSpace c = true /\ blank s.
Proof. unfold blank. simpl. apply (Forall_cons (fun c => asciiSpace c = true)). Qed.

Lemma trimLeftSpace_blank pad s : blank pad -> trimLeftSpace (pad +:+ s) = trimLeftSpace s.
Proof.
  induction pad as [|c pad IH]; [done|].
  intros [Hc Hpad]%blank_cons.
  change (trimLeftSpace (String c (pad +:+ s)) = trimLeftSpace s).
  simpl. rewrite Hc. by apply IH.
Qed.

Lemma trimLeftSpaceRev_blank pad s :
  blank pad -> trimLeftSpaceRev (pad +:+ s) = trimLeftSpaceRev s.
Proof.
  induction pad as [|c pad IH]; [done|].
  intros [Hc Hpad]%blank_cons.
  change (trimLeftSpaceRev (String c (pad +:+ s)) = trimLeftSpaceRev s).
  simpl. rewrite Hc. by apply IH.
Qed.

Lemma space2_solid a b : solid a = true -> space2 a b = false /\ space2 b a = false.
Proof.
  unfold solid, space2. intros [_ H]%andb_true_iff. apply N.ltb_lt in H.
  split.
  - apply andb_false_iff. left. apply N.eqb_neq. lia.
  - apply andb_false_iff. right. apply orb_false_iff. split; apply N.eqb_neq; lia.
Qed.

Lemma space3_solid a b c :
  solid a = true -> space3 a b c = false /\ space3 c b a = false.
Proof.
  unfold solid, space3. intros [_ H]%andb_true_iff. apply N.ltb_lt in H.
  assert ((byte_val a =? 225)%N = false) as H1 by (apply N.eqb_neq; lia).
  assert ((byte_val a =? 226)%N = false) as H2 by (apply N.eqb_neq; lia).
  assert ((byte_val a =? 227)%N = false) as H3 by (apply N.eqb_neq; lia).
  assert ((128 <=? byte_val a)%N = false) as H4 by (apply N.leb_gt; lia).
  assert ((byte_val a =? 168)%N = false) as H5 by (apply N.eqb_neq; lia).
  assert ((byte_val a =? 169)%N = false) as H6 by (apply N.eqb_neq; lia).
  assert ((byte_val a =? 175)%N = false) as H7 by (apply N.eqb_neq; lia).
  assert ((byte_val a =? 128)%N = false) as H8 by (apply N.eqb_neq; lia).
  assert ((byte_val a =? 159)%N = false) as H9 by (apply N.eqb_neq; lia).
  cbv zeta. rewrite H1, H2, H3, H4, H5, H6, H7, H8, H9.
  split; [reflexivity|]. rewrite !andb_false_r. reflexivity.
Qed.

Lemma trimLeftSpace_solid a s : solid a = true -> trimLeftSpace (String a s) = String a s.
Proof.
  intros Ha. pose proof Ha as [Hsp _]%andb_true_iff. apply negb_true_iff in Hsp.
  simpl. rewrite Hsp. destruct s as [|b s]; [done|].
  rewrite (proj1 (space2_solid a b Ha)). destruct s as [|c s]; [done|].
  by rewrite (proj1 (space3_solid a b c Ha)).
Qed.

Lemma trimLeftSpaceRev_solid a s :
  solid a = true -> trimLeftSpaceRev (String a s) = String a s.
Proof.
  intros Ha. pose proof Ha as [Hsp _]%andb_true_iff. apply negb_true_iff in Hsp.
  simpl. rewrite Hsp. destruct s as [|b s]; [done|].
  rewrite (proj2 (space2_solid a b Ha)). destruct s as [|c s]; [done|].
  by rewrite (proj2 (space3_solid a b c Ha)).
Qed.

Lemma rev_app_acc s acc : String.rev_app s acc = String.rev s +:+ acc.
Proof.
  unfold String.rev. revert acc. induction s as [|x s IH]; intros acc; [done|].
  simpl. rewrite (IH (String x acc)), (IH (String x "")).
  by rewrite append_assoc.
Qed.

Lemma rev_cons x s : String.rev (String x s) = String.rev s +:+ String x "".
Proof. unfold String.rev at 1. simpl. apply rev_app_acc. Qed.

Lemma rev_app a b : String.rev (a +:+ b) = String.rev b +:+ String.rev a.
Proof.
  induction a as [|x a IH].
  - change (String.rev b = String.rev b +:+ ""). by rewrite append_empty_r.
  - change (String.rev (String x (a +:+ b)) = String.rev b +:+ String.rev (String x a)).
    by rewrite !rev_cons, IH, append_assoc.
Qed.

Lemma rev_rev s : String.rev (String.rev s) = s.
Proof.
  induction s as [|x s IH]; [done|].
  rewrite rev_cons, rev_app, IH. reflexivity.
Qed.

Lemma blank_rev s : blank s -> blank (String.rev s).
Proof.
  induction s as [|c s IH]; [done|]. intros [Hc Hs]%blank_cons.
  rewrite rev_cons.
  specialize (IH Hs). revert IH. generalize (String.rev s). clear -Hc.
  intros r. induction r as [|d r IH].
  - intros _. apply blank_cons. split; [done | apply blank_nil].
  - intros [Hd Hr]%blank_cons. apply blank_cons. split; [done | by apply IH].
Qed.

(** [strings.TrimSpace] removes the white space around a text that starts
    and ends with a solid byte, and nothing else. *)
Lemma TrimSpace_padded pad1 s pad2 a z :
  blank pad1 -> blank pad2 ->
  firstByte s = Some a -> solid a = true ->
  lastByte s = Some z -> solid z = true ->
  strings_TrimSpace (pad1 +:+ s +:+ pad2) = s.
Proof.
  intros H1 H2 Ha Hsa Hz Hsz.
  unfold strings_TrimSpace, trimRightSpace.
  rewrite (trimLeftSpace_blank _ _ H1).
  destruct s as [|a' s']; [discriminate|]. injection Ha as ->.
  change (String a s' +:+ pad2) with (String a (s' +:+ pad2)).
  rewrite (trimLeftSpace_solid _ _ Hsa).
  change (String a (s' +:+ pad2)) with (String a s' +:+ pad2).
  rewrite rev_app, (trimLeftSpaceRev_blank _ _ (blank_rev _ H2)).
  unfold lastByte in Hz. destruct (String.rev (String a s')) as [|z' r] eqn:Hr;
    [discriminate|]. injection Hz as ->.
  rewrite (trimLeftSpaceRev_solid _ _ Hsz), <- Hr. apply rev_rev.
Qed.

Lemma token_solid t :
  t ∈ allTargets ->
  (exists a, firstByte (token t) = Some a /\ solid a = true)
  /\ (exists z, lastByte (token t) = Some z /\ solid z = true).
Proof.
  intros Ht.
  assert (match firstByte (token t) with Some a => solid a | None => false end = true
          /\ match lastByte (token t) with Some z => solid z | None => false end = true)
    as [Ha Hz].
  { revert t Ht. by_registry. }
  split.
  - destruct (firstByte (token t)) as [a|]; [by exists a | discriminate].
  - destruct (lastByte (token t)) as [z|]; [by exists z | discriminate].
Qed.

Lemma parsePart_padded item :
  blank item.1.1 -> item.1.2 ∈ allTargets -> blank item.2 ->
  parsePart (padded item) = Ok item.1.2.
Proof.
  destruct item as [[pad1 t] pad2]. simpl. intros H1 Ht H2.
  destruct (token_solid t Ht) as [(a & Ha & Hsa) (z & Hz & Hsz)].
  rewrite <- (parsePart_registered t Ht). unfold parsePart, padded. simpl.
  rewrite (TrimSpace_padded pad1 (token t) pad2 a z) by done.
  pose proof (TrimSpace_padded "" (token t) "" a z blank_nil blank_nil Ha Hsa Hz Hsz)
    as Hself.
  change ("" +:+ token t +:+ "") with (token t +:+ "") in Hself.
  rewrite append_empty_r in Hself. by rewrite Hself.
Qed.

Lemma has_byte_app c a b : has_byte c (a +:+ b) = has_byte c a || has_byte c b.
Proof.
  induction a as [|x a IH]; [done|].
  change (Ascii.eqb x c || has_byte c (a +:+ b)
          = Ascii.eqb x c || has_byte c a || has_byte c b).
  by rewrite IH, orb_assoc.
Qed.

Lemma blank_no_comma s : blank s -> has_byte "," s = false.
Proof.
  induction s as [|c s IH]; [done|]. intros [Hc Hs]%blank_cons.
  simpl. rewrite (IH Hs), orb_false_r.
  destruct (Ascii.eqb_spec c ","); [subst; vm_compute in Hc; discriminate | done].
Qed.

(** A selector whose tokens name registered targets resolves to those
    targets whatever white space of the ASCII range (blank, tab, line breaks)
    stands before and after each token. *)
Theorem parseTargets_padded
    (hostOS hostArch : string) (items : list (string * Target * string)) :
  items <> [] ->
  Forall (fun item => blank item.1.1 /\ item.1.2 ∈ allTargets /\ blank item.2) items ->
  parseTargets hostOS hostArch (paddedSelector items) = Ok (map (fun item => item.1.2) items).
Proof.
  intros Hne Hitems.
  assert (strings_Split (paddedSelector items) "," = map padded items) as Hsplit.
  { unfold paddedSelector. apply Split_Join; [by destruct items|].
    apply Forall_map. eapply Forall_impl; [exact Hitems|].
    intros [[pad1 t] pad2] (H1 & Ht & H2). unfold padded. simpl in *.
    rewrite !has_byte_app, (blank_no_comma _ H1), (blank_no_comma _ H2).
    by rewrite (token_no_comma t Ht). }
  assert (Forall2 (fun p t => parsePart p = Ok t)
                  (map padded items) (map (fun item => item.1.2) items)) as Hall.
  { clear -Hitems. induction Hitems as [|item items (H1 & Ht & H2) _ IH]; simpl;
      constructor; [by apply parsePart_padded | done]. }
  pose proof (parseParts_Ok _ _ [] Hall) as Hparse. simpl in Hparse.
  unfold parseTargets.
  destruct (String.eqb_spec (paddedSelector items) "") as [E|_].
  - rewrite E in Hsplit. destruct items as [|i [|? ?]]; try done.
    injection Hsplit as Hp. inversion Hall as [|? ? ? ? Hpp _]; subst.
    rewrite <- Hp in Hpp. vm_compute in Hpp. discriminate.
  - destruct (String.eqb_spec (paddedSelector items) "all") as [E|_].
    + rewrite E in Hsplit. destruct items as [|i [|? ?]]; try done.
      injection Hsplit as Hp. inversion Hall as [|? ? ? ? Hpp _]; subst.
      rewrite <- Hp in Hpp. vm_compute in Hpp. discriminate.
    + by rewrite Hsplit.
Qed.

Lemma parseTargets_padded_witness :
  parseTargets "linux" "amd64"
    (paddedSelector [(" ", linux_x64, ""); (tab, mac_arm64, "  ")])
  = Ok [linux_x64; mac_arm64].
Proof.
  apply (parseTargets_padded "linux" "amd64"
           [(" ", linux_x64, ""); (tab, mac_arm64, "  ")]); [done|].
  repeat constructor; try (apply (bool_decide_eq_true_1 _); vm_compute; reflexivity).
Defined.

Lemma trimLeftSpace_all_blank s : blank s -> trimLeftSpace s = "".
Proof.
  induction s as [|c s IH]; [done|]. intros [Hc Hs]%blank_cons.
  simpl. rewrite Hc. by apply IH.
Qed.

Lemma TrimSpace_blank s : blank s -> strings_TrimSpace s = "".
Proof.
  intros H. unfold strings_TrimSpace, trimRightSpace.
  by rewrite (trimLeftSpace_all_blank s H).
Qed.

Lemma blank_app a b : blank a -> blank b -> blank (a +:+ b).
Proof.
  induction a as [|c a IH]; [done|]. intros [Hc Ha]%blank_cons Hb.
  apply blank_cons. split; [done | by apply IH].
Qed.

Lemma blank_no_slash s : blank s -> has_byte "/" s = false.
Proof.
  induction s as [|c s IH]; [done|]. intros [Hc Hs]%blank_cons.
  simpl. rewrite (IH Hs), orb_false_r.
  destruct (Ascii.eqb_spec c "/"); [subst; vm_compute in Hc; discriminate | done].
Qed.

(** The two keywords of the selector are taken literally.  With white space
    around it [all] is read as a list of one piece, which is no [os/arch]
    pair; a selector of white space only is not the empty selector and does
    not fall back to the host; and an empty piece, as a doubled or trailing
    comma leaves one, is an error once the pieces before it have resolved. *)
Theorem parseTargets_strict
    (hostOS hostArch pad1 pad2 : string) (items : list (string * Target * string)) :
  blank pad1 -> blank pad2 -> pad1 +:+ pad2 <> "" ->
  Forall (fun item => blank item.1.1 /\ item.1.2 ∈ allTargets /\ blank item.2) items ->
  parseTargets hostOS hostArch (pad1 +:+ "all" +:+ pad2)
  = Fatal "invalid target format: all (expected os/arch)"
  /\ parseTargets hostOS hostArch (pad1 +:+ pad2)
     = Fatal "invalid target format:  (expected os/arch)"
  /\ (items <> [] ->
      parseTargets hostOS hostArch (paddedSelector items +:+ "," +:+ pad1)
      = Fatal "invalid target format:  (expected os/arch)").
Proof.
  intros H1 H2 Hne Hitems.
  assert (forall s msg, parsePart s = Fatal msg ->
                        s <> "" -> s <> "all" -> has_byte "," s = false ->
                        parseTargets hostOS hostArch s = Fatal msg) as Hone.
  { intros s msg Hpart Hs Hall Hcomma. unfold parseTargets.
    destruct (String.eqb_spec s ""); [done|]. destruct (String.eqb_spec s "all"); [done|].
    rewrite (Split_no_sep s "," Hcomma). simpl. by rewrite Hpart. }
  split; [|split].
  - apply Hone.
    + unfold parsePart.
      by rewrite (TrimSpace_padded pad1 "all" pad2 "a" "l" H1 H2 eq_refl eq_refl eq_refl eq_refl).
    + by destruct pad1.
    + intros E. apply Hne. destruct pad1 as [|c pad1].
      * destruct pad2 as [|c pad2]; [done|].
        change ("" +:+ "all" +:+ String c pad2) with ("all" +:+ String c pad2) in E.
        discriminate.
      * apply blank_cons in H1 as [Hc _].
        change (String c pad1 +:+ "all" +:+ pad2) with (String c (pad1 +:+ "all" +:+ pad2)) in E.
        injection E as -> _. vm_compute in Hc. discriminate.
    + by rewrite !has_byte_app, (blank_no_comma _ H1), (blank_no_comma _ H2).
  - pose proof (blank_app _ _ H1 H2) as Hb. apply Hone.
    + unfold parsePart. by rewrite (TrimSpace_blank _ Hb).
    + done.
    + intros E. rewrite E in Hb. apply blank_cons in Hb as [Hc _].
      vm_compute in Hc. discriminate.
    + by apply blank_no_comma.
  - intros Hitems_ne.
    assert (strings_Split (paddedSelector items) "," = map padded items) as Hsplit.
    { unfold paddedSelector. apply Split_Join; [by destruct items|].
      apply Forall_map. eapply Forall_impl; [exact Hitems|].
      intros [[p1 t] p2] (Hp1 & Ht & Hp2). unfold padded. simpl in *.
      rewrite !has_byte_app, (blank_no_comma _ Hp1), (blank_no_comma _ Hp2).
      by rewrite (token_no_comma t Ht). }
    assert (strings_Split (paddedSelector items +:+ "," +:+ pad1) ","
            = map padded items ++ [pad1]) as Hall.
    { change (paddedSelector items +:+ "," +:+ pad1)
        with (paddedSelector items +:+ String "," pad1).
      by rewrite Split_app_sep, Hsplit, (Split_no_sep pad1 "," (blank_no_comma _ H1)). }
    unfold parseTargets.
    destruct (String.eqb_spec (paddedSelector items +:+ "," +:+ pad1) "") as [E|_].
    { rewrite E in Hall. destruct items; [done|]. simpl in Hall.
      destruct (map padded items); discriminate. }
    destruct (String.eqb_spec (paddedSelector items +:+ "," +:+ pad1) "all") as [E|_].
    { rewrite E in Hall. destruct items; [done|]. simpl in Hall.
      destruct (map padded items); discriminate. }
    rewrite Hall. apply parseParts_Fatal.
    + apply Forall_map. eapply Forall_impl; [exact Hitems|].
      intros item (Hp1 & Ht & Hp2). simpl. by rewrite parsePart_padded.
    + unfold parsePart. by rewrite (TrimSpace_blank _ H1).
Qed.

Lemma parseTargets_strict_witness :
  parseTargets "linux" "amd64" (" " +:+ "all" +:+ "")
  = Fatal "invalid target format: all (expected os/arch)"
  /\ parseTargets "linux" "amd64" (" " +:+ "")
     = Fatal "invalid target format:  (expected os/arch)"
  /\ ([("", linux_x64, "")] <> [] ->
      parseTargets "linux" "amd64" (paddedSelector [("", linux_x64, "")] +:+ "," +:+ " ")
      = Fatal "invalid target format:  (expected os/arch)").
Proof.
  apply (parseTargets_strict "linux" "amd64" " " "" [("", linux_x64, "")]).
  - repeat constructor.
  - constructor.
  - discriminate.
  - repeat constructor.
Defined.

(** For the linux targets of the registry the sysroot architecture of both
    revisions is the Go architecture of the target, so the sysroot path the
    generator is given is the one of that architecture.  A CPU outside the map
    of the second revision reads as the empty name, which the second revision
    puts into the path as it is. *)
Theorem sysroot_of_registry (t : Target) (cpu : string) :
  (t ∈ allTargets -> OS t = "linux" ->
   Rev1Build.sysrootArch (CPU t) = ARCH t
   /\ Rev2.sysrootDir (CPU t)
      = "out/sysroot-build/bullseye/bullseye_" +:+ ARCH t +:+ "_staging"
   /\ quoted "target_sysroot" ("//" +:+ Rev2.sysrootDir (CPU t)) ∈ Rev2.gnArgs t)
  /\ (cpu <> "x64" -> cpu <> "arm64" ->
      Rev2.sysrootDir cpu = "out/sysroot-build/bullseye/bullseye__staging").
Proof.
  split.
  - revert t. by_registry.
  - intros H1 H2. unfold Rev2.sysrootDir, map_index.
    by rewrite !lookup_insert_ne, lookup_empty.
Qed.

(* ===================================================================== *)
(** * Properties of the build of the second revision *)
(* ===================================================================== *)

Lemma hostToCPU_registry t : t ∈ allTargets -> Rev2.hostToCPU (ARCH t) = CPU t.
Proof. revert t. by_registry. Qed.

Lemma actions_app (tr1 tr2 : list Event) :
  actions (tr1 ++ tr2) = actions tr1 ++ actions tr2.
Proof. apply List.filter_app. Qed.

(** Off linux, for a target that is neither linux nor android, and for a
    registered target of the host's own architecture, [runGetClang] starts
    [get-clang.sh] once, for the target, and makes no link. *)
Theorem runGetClang_single (env : Env) (t : Target) (fs : FileSys) :
  runtime_GOOS env <> "linux"
  \/ (OS t <> "linux" /\ OS t <> "android")
  \/ (t ∈ allTargets /\ ARCH t = runtime_GOARCH env) ->
  let target := Rev2.getClang env (Rev2.getExtraFlags t) in
  let r := exec_Run env target fs in
  let run := Rev2.runGetClang env t fs in
  actions (run_trace run) = [EvRun target r.1]
  /\ run_fs run = r.2
  /\ run_result run
     = match r.1 with
       | None => Ok tt
       | Some e => Fatal ("get-clang.sh failed: " +:+ e)
       end.
Proof.
  intros H target r run.
  assert (Rev2.needsHostSysroot env t = false) as Hneed.
  { unfold Rev2.needsHostSysroot. destruct H as [H | [[H1 H2] | [Ht Harch]]].
    - apply String.eqb_neq in H. by rewrite H.
    - apply String.eqb_neq in H1, H2. rewrite H1, H2. simpl.
      by rewrite andb_false_r.
    - rewrite <- Harch, (hostToCPU_registry t Ht), String.eqb_refl. apply andb_false_r. }
  subst run r. unfold Rev2.runGetClang. rewrite Hneed. fold target.
  destruct (exec_Run env target fs) as [[e|] fs1] eqn:E; run_step; rewrite E; run_step;
    done.
Qed.

Lemma runGetClang_single_witness :
  actions (run_trace (Rev2.runGetClang quietEnv linux_x64 ∅))
  = [EvRun (Rev2.getClang quietEnv (Rev2.getExtraFlags linux_x64)) None]
  /\ run_fs (Rev2.runGetClang quietEnv linux_x64 ∅) = ∅
  /\ run_result (Rev2.runGetClang quietEnv linux_x64 ∅) = Ok tt.
Proof.
  assert (linux_x64 ∈ allTargets /\ ARCH linux_x64 = runtime_GOARCH quietEnv) as H.
  { split; [|reflexivity]. apply (bool_decide_eq_true_1 _). vm_compute. reflexivity. }
  exact (runGetClang_single quietEnv linux_x64 ∅ (or_intror (or_intror H))).
Defined.

(** [runGetClang] makes no link but the one from the staging directory of
    CPU x64 to [build/linux/debian_bullseye_amd64-sysroot], for every host,
    target and file system; on a host whose CPU is not x64 that is not the
    staging directory of the CPU it has just asked [get-clang.sh] for. *)
Theorem host_sysroot_link_fixed
    (env : Env) (t : Target) (fs : FileSys) (src dst : string) (e : error) :
  In (EvSymlink src dst e) (run_trace (Rev2.runGetClang env t fs)) ->
  let hostCPU := Rev2.hostToCPU (runtime_GOARCH env) in
  src = filepath_Join [srcRoot env; Rev2.sysrootDir "x64"]
  /\ dst = filepath_Join [srcRoot env; "build/linux/debian_bullseye_amd64-sysroot"]
  /\ In (EvRun (Rev2.getClang env (Rev2.hostFlags hostCPU)) None)
        (run_trace (Rev2.runGetClang env t fs))
  /\ (Rev2.sysrootDir hostCPU = Rev2.sysrootDir "x64" -> hostCPU = "x64").
Proof.
  intros Hin hostCPU.
  assert (Rev2.sysrootDir hostCPU = Rev2.sysrootDir "x64" -> hostCPU = "x64") as Hx.
  { unfold Rev2.sysrootDir, map_index. intros H.
    apply String.app_inj in H.
    destruct (decide (hostCPU = "x64")) as [|Hne]; [done|]. exfalso.
    rewrite lookup_insert_ne in H by done.
    destruct (decide (hostCPU = "arm64")) as [->|Hne2].
    - vm_compute in H. discriminate.
    - rewrite lookup_insert_ne in H by done. rewrite lookup_empty in H.
      vm_compute in H. discriminate. }
  revert Hin. unfold Rev2.runGetClang. fold hostCPU.
  change (Rev2.hostSysrootSrc env)
    with (filepath_Join [srcRoot env; Rev2.sysrootDir "x64"]).
  change (Rev2.hostSysrootDst env)
    with (filepath_Join [srcRoot env; "build/linux/debian_bullseye_amd64-sysroot"]).
  generalize (filepath_Join [srcRoot env; Rev2.sysrootDir "x64"])
             (filepath_Join [srcRoot env; "build/linux/debian_bullseye_amd64-sysroot"])
             (Rev2.getClang env (Rev2.hostFlags hostCPU))
             (Rev2.getClang env (Rev2.getExtraFlags t)).
  intros s d host target.
  destruct (Rev2.needsHostSysroot env t).
  - destruct (exec_Run env host fs) as [[e1|] fs1] eqn:E1; exec_step; rewrite E1; exec_step.
    { cbn [In app]. intros H. repeat destruct H as [H|H]; try discriminate; done. }
    unfold fs_Symlink.
    destruct (fs_Stat fs1 d); exec_step;
      [ | destruct (fs1 !! d); exec_step | ];
      repeat match goal with
      | |- context [exec_Run env target ?f] =>
          let E := fresh "E" in
          destruct (exec_Run env target f) as [[?|] ?] eqn:E; exec_step; rewrite ?E; exec_step
      end;
      cbn [In app]; intros H;
      repeat destruct H as [H|H]; try discriminate; try done;
      injection H as <- <- _; repeat split; auto 10.
  - exec_step.
    destruct (exec_Run env target fs) as [[e1|] fs1] eqn:E1; exec_step; rewrite ?E1; exec_step;
      cbn [In app]; intros H; repeat destruct H as [H|H]; try discriminate; done.
Qed.

Lemma host_sysroot_link_fixed_witness :
  Rev2.hostSysrootSrc armHost = filepath_Join [srcRoot armHost; Rev2.sysrootDir "x64"]
  /\ Rev2.hostSysrootDst armHost
     = filepath_Join [srcRoot armHost; "build/linux/debian_bullseye_amd64-sysroot"]
  /\ In (EvRun (Rev2.getClang armHost (Rev2.hostFlags "arm64")) None)
        (run_trace (Rev2.runGetClang armHost linux_x64 ∅))
  /\ (Rev2.sysrootDir "arm64" = Rev2.sysrootDir "x64" -> "arm64" = "x64").
Proof.
  assert (In (EvSymlink (Rev2.hostSysrootSrc armHost) (Rev2.hostSysrootDst armHost) None)
             (run_trace (Rev2.runGetClang armHost linux_x64 ∅))) as Hin
    by (vm_compute; tauto).
  exact (host_sysroot_link_fixed armHost linux_x64 ∅ _ _ _ Hin).
Defined.

(** [buildTarget] after the toolchain step: [gn gen] runs in [srcRoot] on
    what [runGetClang] left; when it fails the run is fatal and ninja is never
    started; when it succeeds ninja runs on what gn left.  On a Windows host
    the gn program is [gn.exe] and [DEPOT_TOOLS_WIN_TOOLCHAIN=0] is added to
    the environment of gn, and not to the one of ninja. *)
Theorem buildTarget_steps (env : Env) (t : Target) (fs : FileSys) :
  let fetch := Rev2.runGetClang env t fs in
  let run := Rev2.buildTarget env t fs in
  let gn := exec_Run env (gnCommand env t) (run_fs fetch) in
  let ninja := exec_Run env (ninjaCommand env t) gn.2 in
  match run_result fetch with
  | Fatal msg =>
      run_result run = Fatal msg /\ run_fs run = run_fs fetch
      /\ actions (run_trace run) = actions (run_trace fetch)
  | Ok _ =>
      match gn.1 with
      | Some e =>
          run_result run = Fatal ("gn gen failed: " +:+ e) /\ run_fs run = gn.2
          /\ actions (run_trace run)
             = actions (run_trace fetch) ++ [EvRun (gnCommand env t) (Some e)]
      | None =>
          run_fs run = ninja.2
          /\ actions (run_trace run)
             = actions (run_trace fetch)
               ++ [EvRun (gnCommand env t) None; EvRun (ninjaCommand env t) ninja.1]
          /\ run_result run
             = match ninja.1 with
               | None => Ok tt
               | Some e =>
                   Fatal ("command failed: ninja "
                          +:+ strings_Join ["-C"; outDir t; "cronet_static"] " "
                          +:+ ": " +:+ e)
               end
      end
  end.
Proof.
  intros fetch run gn ninja. subst run. unfold Rev2.buildTarget.
  rewrite run_bind. fold fetch.
  destruct (run_result fetch) as [[]|msg] eqn:Hfetch; [|done].
  assert (mkCmd (srcRoot env)
            (if String.eqb (runtime_GOOS env) "windows"
             then filepath_Join [srcRoot env; "gn"; "out"; "gn"] +:+ ".exe"
             else filepath_Join [srcRoot env; "gn"; "out"; "gn"])
            ["gen"; outDir t; "--args=" +:+ strings_Join (Rev2.gnArgs t) " "]
            (if String.eqb (runtime_GOOS env) "windows"
             then os_Environ env ++ ["DEPOT_TOOLS_WIN_TOOLCHAIN=0"]
             else os_Environ env)
          = gnCommand env t) as ->.
  { unfold gnCommand. by destruct (String.eqb (runtime_GOOS env) "windows"). }
  fold (ninjaCommand env t). unfold runCmd. fold (ninjaCommand env t).
  subst ninja gn.
  generalize (gnCommand env t) (ninjaCommand env t). intros cgn cninja.
  generalize (run_trace fetch) (run_fs fetch). intros tr0 fs0.
  destruct (exec_Run env cgn fs0) as [[e|] fs1] eqn:E1; exec_step; rewrite E1; exec_step.
  - rewrite actions_app. done.
  - destruct (exec_Run env cninja fs1) as [[e2|] fs2] eqn:E2; exec_step;
      rewrite ?E2; exec_step; rewrite actions_app; done.
Qed.

(* ===================================================================== *)
(** * Properties of the directives *)
(* ===================================================================== *)

Lemma directiveKey_quoted key v :
  has_byte "=" key = false -> directiveKey (quoted key v) = key.
Proof.
  intros H. unfold directiveKey, quoted.
  change (key +:+ "=" +:+ dquote +:+ v +:+ dquote)
    with (key +:+ String "=" (dquote +:+ v +:+ dquote)).
  by rewrite (Split_app _ _ _ H).
Qed.

Lemma Rev1_keys relSysroot t :
  map directiveKey (Rev1.gnArgs relSysroot t) = map directiveKey (Rev1.gnArgs "" t).
Proof.
  unfold Rev1.gnArgs, Rev1.platformArgs.
  repeat case_match; rewrite ?map_app; try reflexivity.
  all: repeat f_equal; simpl; f_equal; by rewrite !directiveKey_quoted.
Qed.

(** The configuration of a registered target assigns to no name twice and
    sets [use_sysroot] (to true for linux, to false for every other system);
    no directive holds a blank, so the text handed to [gn gen] after [--args=]
    splits at blanks into the directives again.  In the first revision this
    holds for every sysroot path without a blank. *)
Theorem gnArgs_well_formed (t : Target) (relSysroot : string) :
  t ∈ allTargets ->
  has_byte " " relSysroot = false ->
  (NoDup (map directiveKey (Rev2.gnArgs t))
   /\ NoDup (map directiveKey (Rev1.gnArgs relSysroot t)))
  /\ (("use_sysroot=true" ∈ Rev2.gnArgs t <-> OS t = "linux")
      /\ ("use_sysroot=false" ∈ Rev2.gnArgs t <-> OS t <> "linux")
      /\ ("use_sysroot=true" ∈ Rev1.gnArgs relSysroot t <-> OS t = "linux")
      /\ ("use_sysroot=false" ∈ Rev1.gnArgs relSysroot t <-> OS t <> "linux"))
  /\ (strings_Split (strings_Join (Rev2.gnArgs t) " ") " " = Rev2.gnArgs t
      /\ strings_Split (strings_Join (Rev1.gnArgs relSysroot t) " ") " "
         = Rev1.gnArgs relSysroot t).
Proof.
  intros Ht Hrel. split; [|split].
  - rewrite Rev1_keys. revert t Ht. by_registry.
  - assert (forall d, has_byte "/" d = false ->
              (d ∈ Rev1.gnArgs relSysroot t <-> d ∈ Rev1.gnArgs "" t)) as Hsame.
    { intros d Hd. unfold Rev1.gnArgs, Rev1.platformArgs.
      repeat case_match; try reflexivity.
      all: rewrite !elem_of_app, !elem_of_cons.
      all: assert (forall r, d <> quoted "target_sysroot" ("//" +:+ r)) as Hq
          by (intros r ->; vm_compute in Hd; discriminate).
      all: pose proof (Hq relSysroot); pose proof (Hq ""); tauto. }
    rewrite !Hsame by reflexivity. clear Hsame. revert t Ht. by_registry.
  - split.
    + revert t Ht. by_registry.
    + apply Split_Join.
      * unfold Rev1.gnArgs, Rev1.platformArgs. repeat case_match; done.
      * assert (Forall (fun d => has_byte " " d = false) (Rev1.gnArgs "" t)) as Hblank.
        { revert t Ht. by_registry. }
        revert Hblank. unfold Rev1.gnArgs, Rev1.platformArgs.
        repeat case_match; try done.
        all: rewrite !Forall_app, !Forall_cons; intros Hblank; repeat split; try tauto.
        all: unfold quoted; rewrite !has_byte_app, Hrel; reflexivity.
Qed.

Lemma gnArgs_well_formed_witness :
  (NoDup (map directiveKey (Rev2.gnArgs linux_x64))
   /\ NoDup (map directiveKey (Rev1.gnArgs "build/linux/debian_bullseye_amd64-sysroot" linux_x64)))
  /\ (("use_sysroot=true" ∈ Rev2.gnArgs linux_x64 <-> OS linux_x64 = "linux")
      /\ ("use_sysroot=false" ∈ Rev2.gnArgs linux_x64 <-> OS linux_x64 <> "linux")
      /\ ("use_sysroot=true" ∈ Rev1.gnArgs "build/linux/debian_bullseye_amd64-sysroot" linux_x64
          <-> OS linux_x64 = "linux")
      /\ ("use_sysroot=false" ∈ Rev1.gnArgs "build/linux/debian_bullseye_amd64-sysroot" linux_x64
          <-> OS linux_x64 <> "linux"))
  /\ (strings_Split (strings_Join (Rev2.gnArgs linux_x64) " ") " " = Rev2.gnArgs linux_x64
      /\ strings_Split
           (strings_Join (Rev1.gnArgs "build/linux/debian_bullseye_amd64-sysroot" linux_x64) " ")
           " "
         = Rev1.gnArgs "build/linux/debian_bullseye_amd64-sysroot" linux_x64).
Proof.
  apply (gnArgs_well_formed linux_x64 "build/linux/debian_bullseye_amd64-sysroot");
    [|reflexivity].
  apply (bool_decide_eq_true_1 _). vm_compute. reflexivity.
Defined.

(* ===================================================================== *)
(** * Properties of [init]: the walk to the project root *)
(* ===================================================================== *)

Lemma length_append a b : String.length (a +:+ b) = String.length a + String.length b.
Proof. induction a as [|x a IH]; simpl; [done | by rewrite IH]. Qed.

Lemma weight_app l1 l2 : weight (l1 ++ l2) = weight l1 + weight l2.
Proof. unfold weight. by rewrite map_app, list_sum_app. Qed.

Lemma weight_rev l : weight (rev l) = weight l.
Proof.
  induction l as [|e l IH]; [done|]. simpl rev. rewrite weight_app, IH.
  unfold weight. simpl. lia.
Qed.

Lemma weight_Split s sep : weight (strings_Split s sep) = S (String.length s).
Proof.
  induction s as [|c s IH]; [done|]. simpl.
  destruct (Ascii.eqb c sep).
  - change (weight ("" :: strings_Split s sep)) with (1 + weight (strings_Split s sep)).
    rewrite IH. reflexivity.
  - pose proof (Split_nonempty s sep). destruct (strings_Split s sep) as [|hd tl]; [done|].
    revert IH. unfold weight. simpl. lia.
Qed.

Lemma weight_Join l sep :
  l <> [] -> String.length sep = 1 -> S (String.length (strings_Join l sep)) = weight l.
Proof.
  intros Hne Hsep. induction l as [|e [|e' l] IH]; [done| |].
  - unfold weight. simpl. lia.
  - change (strings_Join (e :: e' :: l) sep) with (e +:+ sep +:+ strings_Join (e' :: l) sep).
    rewrite !length_append, Hsep.
    change (weight (e :: e' :: l)) with (S (String.length e) + weight (e' :: l)).
    rewrite <- IH by done. lia.
Qed.

Lemma empties_app l1 l2 : empties (l1 ++ l2) = empties l1 + empties l2.
Proof. unfold empties. by rewrite List.filter_app, length_app. Qed.

(** [filepath.Clean] keeps no empty element and makes none up. *)
Lemma weight_cleanElems r elems acc :
  weight (cleanElems r elems acc) + empties elems <= weight acc + weight elems.
Proof.
  revert acc. induction elems as [|e elems IH]; intros acc.
  - simpl. rewrite weight_rev. unfold empties, weight. simpl. lia.
  - change (weight (e :: elems)) with (S (String.length e) + weight elems).
    change (empties (e :: elems))
      with (List.length (if String.eqb e "" then e :: List.filter (fun e => String.eqb e "") elems
                         else List.filter (fun e => String.eqb e "") elems)).
    simpl cleanElems.
    destruct (String.eqb_spec e "") as [->|Hne]; simpl.
    + specialize (IH acc). unfold empties in IH. lia.
    + fold (empties elems).
      destruct (String.eqb e ".").
      { specialize (IH acc). lia. }
      destruct (String.eqb e "..").
      * destruct acc as [|top acc].
        -- destruct r.
           ++ specialize (IH []). unfold weight in *. simpl in *. lia.
           ++ specialize (IH [e]). unfold weight in *. simpl in *. lia.
        -- destruct (String.eqb top "..").
           ++ specialize (IH (e :: top :: acc)). unfold weight in *. simpl in *. lia.
           ++ specialize (IH acc). unfold weight in *. simpl in *. lia.
      * specialize (IH (e :: acc)). unfold weight in *. simpl in *. lia.
Qed.

Lemma rooted_Split path :
  rooted path = true -> exists rest, strings_Split path "/" = "" :: rest /\ rest <> [].
Proof.
  destruct path as [|c path]; [done|]. simpl. intros ->.
  exists (strings_Split path "/"). split; [done | apply Split_nonempty].
Qed.

Lemma empties_le l : empties l <= weight l.
Proof.
  induction l as [|e l IH]; [done|].
  change (weight (e :: l)) with (S (String.length e) + weight l).
  unfold empties in *. simpl. destruct (String.eqb e ""); simpl; lia.
Qed.

Lemma relative_Split path :
  rooted path = false -> path <> "" ->
  empties (strings_Split path "/") + 1 <= String.length path.
Proof.
  intros Hr Hne. pose proof (weight_Split path "/") as Hw.
  destruct path as [|c path]; [done|]. simpl in Hr. simpl strings_Split in *.
  rewrite Hr in *. pose proof (Split_nonempty path "/").
  destruct (strings_Split path "/") as [|hd tl]; [done|].
  pose proof (empties_le tl).
  change (weight (String c hd :: tl)) with (S (S (String.length hd)) + weight tl) in Hw.
  change (empties (String c hd :: tl)) with (empties tl). lia.
Qed.

(** Cleaning never makes a path longer, the empty one apart: every empty
    element is a byte less. *)
Lemma length_Clean path :
  path <> "" ->
  1 <= String.length (filepath_Clean path)
  /\ (filepath_Clean path = "/"
      \/ String.length (filepath_Clean path) + empties (strings_Split path "/")
         <= String.length path + (if rooted path then 1 else 0)).
Proof.
  intros Hne. rewrite (Clean_unfold path Hne). cbv zeta.
  pose proof (weight_cleanElems (rooted path) (strings_Split path "/") []) as Hw.
  rewrite weight_Split in Hw. change (weight []) with 0 in Hw.
  assert (rooted path = false -> empties (strings_Split path "/") + 1 <= String.length path)
    as Hrel by (intros Hr; by apply relative_Split).
  set (n := String.length path) in *. clearbody n.
  set (holes := empties (strings_Split path "/")) in *. clearbody holes.
  set (kept := cleanElems (rooted path) (strings_Split path "/") []) in *.
  clearbody kept.
  destruct (rooted path) eqn:Hr.
  - change ("/" +:+ strings_Join kept "/") with (String "/" (strings_Join kept "/")).
    change (String.length (String "/" (strings_Join kept "/")))
      with (S (String.length (strings_Join kept "/"))).
    split; [lia|].
    destruct kept as [|k kept'].
    + by left.
    + right. pose proof (weight_Join (k :: kept') "/" ltac:(done) eq_refl). lia.
  - specialize (Hrel eq_refl). destruct kept as [|k kept'].
    + simpl. split; [lia|]. right. lia.
    + pose proof (weight_Join (k :: kept') "/" ltac:(done) eq_refl) as Hj.
      destruct (String.eqb_spec (strings_Join (k :: kept') "/") "") as [E|Hbody].
      * simpl. split; [lia|]. right. lia.
      * split; [|right; lia].
        destruct (strings_Join (k :: kept') "/"); [done | simpl; lia].
Qed.

Lemma has_byte_rev c s : has_byte c (String.rev s) = has_byte c s.
Proof.
  induction s as [|x s IH]; [done|].
  rewrite rev_cons, has_byte_app, IH. simpl. rewrite orb_false_r. apply orb_comm.
Qed.

Lemma length_rev s : String.length (String.rev s) = String.length s.
Proof.
  induction s as [|x s IH]; [done|].
  rewrite rev_cons, length_append, IH. simpl. lia.
Qed.

(** What [fromSlash] cuts off holds no slash; what it leaves is empty or
    starts with one. *)
Lemma fromSlash_spec r :
  exists name,
    r = name +:+ fromSlash r /\ has_byte "/" name = false
    /\ (if has_byte "/" r then exists rest, fromSlash r = String "/" rest
        else fromSlash r = "").
Proof.
  induction r as [|c r (name & Hr & Hname & Hrest)].
  - by exists "".
  - simpl. destruct (Ascii.eqb_spec c "/") as [->|Hc].
    + exists "". split; [done|]. split; [done|]. by eexists.
    + exists (String c name). split; [|split].
      * change (String c r = String c (name +:+ fromSlash r)). by rewrite <- Hr.
      * simpl. rewrite Hname. by apply Ascii.eqb_neq in Hc as ->.
      * done.
Qed.

Lemma Dir_no_slash path : has_byte "/" path = false -> filepath_Dir path = ".".
Proof.
  intros H. unfold filepath_Dir.
  destruct (fromSlash_spec (String.rev path)) as (name & _ & _ & Hrest).
  rewrite has_byte_rev, H in Hrest. by rewrite Hrest.
Qed.

(** One step up makes a path with a slash shorter, the root apart. *)
Lemma Dir_shrinks path :
  has_byte "/" path = true ->
  path = "/" \/ String.length (filepath_Dir path) < String.length path.
Proof.
  intros H. unfold filepath_Dir.
  destruct (fromSlash_spec (String.rev path)) as (name & Hr & Hname & Hrest).
  rewrite has_byte_rev, H in Hrest. destruct Hrest as [rest Hrest].
  assert (String.length path
          = String.length name + String.length (String.rev (fromSlash (String.rev path))))
    as Hlen.
  { rewrite <- (length_rev path), Hr at 1. by rewrite length_append, length_rev. }
  rewrite Hrest in *. rewrite rev_cons in *.
  set (pre := String.rev rest) in *. clearbody pre.
  assert (pre +:+ "/" <> "") as Hne by (by destruct pre).
  destruct (length_Clean _ Hne) as [Hpos [Hroot|Hbound]].
  - rewrite Hroot. simpl String.length.
    rewrite length_append in Hlen. simpl String.length in Hlen.
    destruct (decide (String.length path = 1)) as [H1|H1]; [left|right; lia].
    destruct path as [|c [|? ?]]; try discriminate.
    simpl in H. destruct (Ascii.eqb_spec c "/"); [by subst | done].
  - right. rewrite Split_app_sep, empties_app in Hbound.
    change (empties (strings_Split "" "/")) with 1 in Hbound.
    rewrite length_append in Hbound. simpl String.length in Hbound.
    rewrite length_append in Hlen. simpl String.length in Hlen.
    destruct (rooted (pre +:+ "/")) eqn:Hrooted; [|lia].
    destruct pre as [|c pre].
    + simpl in *. lia.
    + simpl in Hrooted. simpl strings_Split in Hbound. rewrite Hrooted in Hbound.
      change (empties ("" :: strings_Split pre "/"))
        with (S (empties (strings_Split pre "/"))) in Hbound.
      simpl String.length in *. lia.
Qed.

Lemma passes_bound dir : passes dir <= String.length dir + 2.
Proof.
  unfold passes. destruct (has_byte "/" dir); [lia|].
  destruct (String.eqb dir "."); lia.
Qed.

(** A step of the walk that moves lowers the number of passes left. *)
Lemma passes_Dir dir :
  dir <> filepath_Dir dir -> S (passes (filepath_Dir dir)) <= passes dir.
Proof.
  intros Hmove. unfold passes at 2.
  destruct (has_byte "/" dir) eqn:Hs.
  - destruct (Dir_shrinks dir Hs) as [->|Hlt]; [by destruct Hmove|].
    pose proof (passes_bound (filepath_Dir dir)). lia.
  - rewrite (Dir_no_slash dir Hs) in *.
    destruct (String.eqb_spec dir "."); [done|]. reflexivity.
Qed.

Lemma ancestor_fixed n dir : dir = filepath_Dir dir -> ancestor n dir = dir.
Proof. intros H. induction n as [|n IH]; [done|]. simpl. by rewrite <- H. Qed.

Lemma findRoot_step fuel dir fs :
  findRoot (S fuel) dir fs
  = let p := filepath_Join [dir; "go.mod"] in
    let st := fs_Stat fs p in
    match st with
    | StatOk => mkRun (Ok (Some dir)) fs [EvStat p StatOk]
    | _ =>
        if String.eqb dir (filepath_Dir dir)
        then mkRun (Fatal "could not find project root (go.mod)") fs
                   [EvStat p st; EvFatal "could not find project root (go.mod)"]
        else
          let r := findRoot fuel (filepath_Dir dir) fs in
          mkRun (run_result r) (run_fs r) (EvStat p st :: run_trace r)
    end.
Proof.
  change (findRoot (S fuel) dir)
    with (st ← os_Stat (filepath_Join [dir; "go.mod"]);
          match st with
          | StatOk => mret (Some dir)
          | _ =>
              if String.eqb dir (filepath_Dir dir)
              then fatal "could not find project root (go.mod)"
              else findRoot fuel (filepath_Dir dir)
          end).
  cbv beta iota zeta delta [mbind M_bind mret M_ret os_Stat fatal run_result run_fs run_trace].
  destruct (fs_Stat fs (filepath_Join [dir; "go.mod"]));
    destruct (String.eqb dir (filepath_Dir dir)); reflexivity.
Qed.

Lemma findRoot_spec fuel dir fs :
  passes dir <= fuel ->
  run_fs (findRoot fuel dir fs) = fs
  /\ nearestRoot fs dir (run_result (findRoot fuel dir fs)).
Proof.
  revert dir. induction fuel as [|fuel IH]; intros dir Hfuel.
  { unfold passes in Hfuel. repeat case_match; lia. }
  rewrite findRoot_step. cbv zeta.
  set (p := filepath_Join [dir; "go.mod"]).
  assert (fs_Stat fs p <> StatOk ->
          forall st,
            let r := if String.eqb dir (filepath_Dir dir)
                     then mkRun (A:=option string)
                            (Fatal "could not find project root (go.mod)") fs
                            [EvStat p st; EvFatal "could not find project root (go.mod)"]
                     else mkRun (run_result (findRoot fuel (filepath_Dir dir) fs))
                            (run_fs (findRoot fuel (filepath_Dir dir) fs))
                            (EvStat p st :: run_trace (findRoot fuel (filepath_Dir dir) fs)) in
            run_fs r = fs /\ nearestRoot fs dir (run_result r)) as Hup.
  { intros Hst st.
    destruct (String.eqb_spec dir (filepath_Dir dir)) as [Hfix|Hmove]; cbv zeta.
    - cbn [run_result run_fs nearestRoot]. split; [done|]. split; [done|].
      intros n. by rewrite (ancestor_fixed n dir Hfix).
    - pose proof (passes_Dir dir Hmove) as Hp.
      destruct (IH (filepath_Dir dir) ltac:(lia)) as [Hfs Hres].
      cbn [run_result run_fs]. split; [exact Hfs|].
      destruct (run_result (findRoot fuel (filepath_Dir dir) fs)) as [[root|]|msg];
        cbn [nearestRoot] in *; [|done|].
      + destruct Hres as (n & -> & Hok & Hnone). exists (S n). split; [done|].
        split; [done|]. intros [|m] Hm; [exact Hst|]. apply Hnone. lia.
      + destruct Hres as [-> Hnone]. split; [done|].
        intros [|n]; [exact Hst | apply Hnone]. }
  destruct (fs_Stat fs p) eqn:Hst.
  - cbn [run_result run_fs nearestRoot]. split; [done|].
    exists 0. split; [done|]. split; [exact Hst|]. intros m Hm. lia.
  - by apply Hup.
  - by apply Hup.
Qed.

(** [init] looks for [go.mod] in the working directory and then in each
    directory above it, nearest first: the project root is the first of them
    that has one.  When none has, the walk ends at the directory that
    [filepath.Dir] leaves in place and the run is fatal.  The walk always
    ends, and the file system is as it was. *)
Theorem init_nearest_root (host : Host) (wd : string) (fs : FileSys) :
  os_Getwd host = inl wd ->
  run_fs (init host fs) = fs /\ nearestRoot fs wd (run_result (init host fs)).
Proof.
  intros Hwd. unfold init. rewrite Hwd.
  apply findRoot_spec. apply passes_bound.
Qed.

(* ===================================================================== *)
(** * Properties of [cmdPublish] *)
(* ===================================================================== *)

Lemma programs_app tr1 tr2 : programs (tr1 ++ tr2) = programs tr1 ++ programs tr2.
Proof.
  induction tr1 as [|e tr1 IH]; [done|]. destruct e; simpl; by rewrite ?IH.
Qed.

Lemma runCmd_run env dir name args fs :
  runCmd env dir name args fs
  = let c := mkCmd dir name args (os_Environ env) in
    let r := exec_Run env c fs in
    match r.1 with
    | Some e =>
        let msg := "command failed: " +:+ name +:+ " " +:+ strings_Join args " "
                   +:+ ": " +:+ e in
        mkRun (Fatal msg) r.2 [EvRun c (Some e); EvFatal msg]
    | None => mkRun (Ok tt) r.2 [EvRun c None]
    end.
Proof.
  unfold runCmd.
  cbv beta iota zeta delta [mbind M_bind mret M_ret cmd_Run fatal run_result run_fs run_trace].
  destruct (exec_Run env _ fs) as [[e|] fs1]; reflexivity.
Qed.

Lemma runCmdOutput_run env host dir name args fs :
  runCmdOutput env host dir name args fs
  = let c := mkCmd dir name args (os_Environ env) in
    let r := exec_Run env c fs in
    match r.1 with
    | Some e =>
        let msg := "command failed: " +:+ name +:+ " " +:+ strings_Join args " "
                   +:+ ": " +:+ e in
        mkRun (Fatal msg) r.2 [EvRun c (Some e); EvFatal msg]
    | None => mkRun (Ok (exec_Stdout host c fs)) r.2 [EvRun c None]
    end.
Proof.
  unfold runCmdOutput.
  cbv beta iota zeta delta [mbind M_bind mret M_ret cmd_Output fatal run_result run_fs run_trace].
  destruct (exec_Run env _ fs) as [[e|] fs1]; reflexivity.
Qed.

(** Until the tree is known to be clean and the branch to be [main],
    [cmdPublish] starts nothing but the two programs that ask: a run in which
    any other program was started (a checkout, a removal, a commit, the push)
    is a run in which [git status --porcelain] printed nothing but white
    space and [git rev-parse --abbrev-ref HEAD] printed [main]. *)
Theorem cmdPublish_guarded (env : Env) (host : Host) (fs : FileSys) (c : Cmd) (e : error) :
  In (EvRun c e) (run_trace (cmdPublish env host fs)) ->
  c <> gitStatus env -> c <> gitBranch env ->
  let r1 := exec_Run env (gitStatus env) fs in
  let r2 := exec_Run env (gitBranch env) r1.2 in
  (r1.1 = None /\ strings_TrimSpace (exec_Stdout host (gitStatus env) fs) = "")
  /\ (r2.1 = None /\ strings_TrimSpace (exec_Stdout host (gitBranch env) r1.2) = "main").
Proof.
  intros Hin Hc1 Hc2 r1 r2. revert Hin. unfold cmdPublish.
  rewrite run_log_then. cbv [run_trace]. rewrite run_bind, runCmdOutput_run.
  fold (git env ["status"; "--porcelain"]). fold (gitStatus env). cbv zeta. fold r1.
  destruct (r1.1) as [e1|] eqn:E1.
  { cbv [run_result run_trace]. simpl. intros [H|[H|[H|[]]]]; congruence. }
  cbv [run_result run_trace run_fs].
  destruct (String.eqb_spec (strings_TrimSpace (exec_Stdout host (gitStatus env) fs)) "")
    as [Hclean|Hdirty]; cbv [negb].
  2:{ simpl. intros [H|[H|[H|[]]]]; congruence. }
  rewrite run_bind, runCmdOutput_run.
  fold (git env ["rev-parse"; "--abbrev-ref"; "HEAD"]). fold (gitBranch env).
  cbv zeta. fold r2.
  destruct (r2.1) as [e2|] eqn:E2.
  { cbv [run_result run_trace]. simpl. intros [H|[H|[H|[H|[]]]]]; congruence. }
  cbv [run_result run_trace run_fs].
  destruct (String.eqb_spec (strings_TrimSpace (exec_Stdout host (gitBranch env) r1.2)) "main")
    as [Hmain|Hother]; cbv [negb].
  2:{ simpl. intros [H|[H|[H|[H|[]]]]]; congruence. }
  done.
Qed.

(** Sequencing, for a first part that is not fatal. *)
Lemma bind_Ok {A B : Type} (m : M A) (f : A -> M B) (fs : FileSys) (a : A) :
  run_result (m fs) = Ok a ->
  run_result ((m ≫= f) fs) = run_result (f a (run_fs (m fs)))
  /\ programs (run_trace ((m ≫= f) fs))
     = programs (run_trace (m fs)) ++ programs (run_trace (f a (run_fs (m fs)))).
Proof.
  intros H. rewrite run_bind, H. cbv [run_result run_trace].
  by rewrite programs_app.
Qed.

Lemma checkouts_run env (f : string -> Cmd) (xs : list string) fs :
  run_result (forEach xs (fun x => _ ← cmd_Run env (f x); mret tt) fs) = Ok tt
  /\ programs (run_trace (forEach xs (fun x => _ ← cmd_Run env (f x); mret tt) fs))
     = map f xs.
Proof.
  revert fs. induction xs as [|x xs IH]; intros fs; [done|].
  simpl forEach.
  match goal with
  | |- context [run_result ((?m ≫= ?k) fs)] =>
      destruct (bind_Ok m k fs tt eq_refl) as [-> ->]
  end.
  match goal with
  | |- context [forEach xs ?body ?st] => destruct (IH st) as [-> ->]
  end.
  done.
Qed.

(** [cmdPublish] on a clean tree on [main], when every [git] it starts in the
    project root ends without error.  It asks for the commit, tests for the
    [go] branch, switches to it (making it when the test failed), empties it,
    checks the files out of the commit (whether or not a checkout fails) and
    stages them.  With a commit name of eight bytes or more it commits, pushes
    with force and returns to [main]; with a shorter one the slice
    [mainCommit[:8]] panics, after the staging and with the [go] branch
    checked out. *)
Theorem cmdPublish_sequence (env : Env) (host : Host) (fs : FileSys) :
  (forall args fs', (exec_Run env (git env args) fs').1 = None) ->
  let fs1 := (exec_Run env (gitStatus env) fs).2 in
  let fs2 := (exec_Run env (gitBranch env) fs1).2 in
  let fs3 := (exec_Run env (gitHead env) fs2).2 in
  let verify := gitC env ["rev-parse"; "--verify"; "go"] in
  let goBranchExists :=
    match (exec_Run env verify fs3).1 with None => true | Some _ => false end in
  let mainCommit := strings_TrimSpace (exec_Stdout host (gitHead env) fs2) in
  strings_TrimSpace (exec_Stdout host (gitStatus env) fs) = "" ->
  strings_TrimSpace (exec_Stdout host (gitBranch env) fs1) = "main" ->
  let run := cmdPublish env host fs in
  if (String.length mainCommit <? 8)%nat then
    run_result run
    = Ok (Panicked ("runtime error: slice bounds out of range [:8] with length "
                    +:+ itoa (String.length mainCommit)))
    /\ programs (run_trace run)
       = [gitStatus env; gitBranch env; gitHead env; verify]
         ++ publishStaging env goBranchExists mainCommit
  else
    run_result run = Ok Returned
    /\ programs (run_trace run)
       = [gitStatus env; gitBranch env; gitHead env; verify]
         ++ publishStaging env goBranchExists mainCommit
         ++ publishPush env mainCommit.
Proof.
  intros Hquiet fs1 fs2 fs3 verify goBranchExists mainCommit Hclean Hmain run.
  assert (forall dir name args st,
             dir = projectRoot env -> name = "git" ->
             runCmd env dir name args st
             = mkRun (Ok tt) (exec_Run env (git env args) st).2 [EvRun (git env args) None])
    as Hgit.
  { intros dir name args st -> ->. rewrite runCmd_run. cbv zeta.
    fold (git env args). by rewrite Hquiet. }
  assert (forall args st,
             runCmdOutput env host (projectRoot env) "git" args st
             = mkRun (Ok (exec_Stdout host (git env args) st))
                     (exec_Run env (git env args) st).2 [EvRun (git env args) None])
    as Hout.
  { intros args st. rewrite runCmdOutput_run. cbv zeta.
    fold (git env args). by rewrite Hquiet. }
  subst run. unfold cmdPublish. rewrite run_log_then.
  cbn [run_result run_fs run_trace programs].
  (* git status *)
  match goal with
  | |- context [run_result ((?m ≫= ?f) fs)] =>
      destruct (bind_Ok m f fs _ ltac:(by rewrite Hout)) as [-> ->]
  end.
  rewrite !Hout. cbn [run_result run_fs run_trace]. fold (gitStatus env). fold fs1.
  rewrite Hclean. change (negb (String.eqb "" "")) with false. cbv iota.
  (* branch *)
  match goal with
  | |- context [run_result ((?m ≫= ?f) fs1)] =>
      destruct (bind_Ok m f fs1 _ ltac:(by rewrite Hout)) as [-> ->]
  end.
  rewrite !Hout. cbn [run_result run_fs run_trace]. fold (gitBranch env). fold fs2.
  rewrite Hmain. change (negb (String.eqb "main" "main")) with false. cbv iota.
  (* head *)
  match goal with
  | |- context [run_result ((?m ≫= ?f) fs2)] =>
      destruct (bind_Ok m f fs2 _ ltac:(by rewrite Hout)) as [-> ->]
  end.
  rewrite !Hout. cbn [run_result run_fs run_trace]. fold (gitHead env). fold fs3. fold mainCommit.
  (* verify *)
  match goal with
  | |- context [run_result ((?m ≫= ?f) fs3)] =>
      destruct (bind_Ok m f fs3 (exec_Run env verify fs3).1 eq_refl) as [-> ->]
  end.
  change (run_fs (cmd_Run env (gitC env ["rev-parse"; "--verify"; "go"]) fs3))
    with (exec_Run env verify fs3).2.
  change (run_trace (cmd_Run env (gitC env ["rev-parse"; "--verify"; "go"]) fs3))
    with [EvRun verify (exec_Run env verify fs3).1].
  set (fs4 := (exec_Run env verify fs3).2).
  fold goBranchExists.
  (* switch *)
  set (switch := if goBranchExists
                 then runCmd env (projectRoot env) "git" ["checkout"; "go"]
                 else (runCmd env (projectRoot env) "git" ["checkout"; "--orphan"; "go"];;
                       runCmd env (projectRoot env) "git" ["reset"; "--hard"])).
  assert (run_result (switch fs4) = Ok tt
          /\ programs (run_trace (switch fs4))
             = (if goBranchExists then [git env ["checkout"; "go"]]
                else [git env ["checkout"; "--orphan"; "go"]; git env ["reset"; "--hard"]]))
    as [Hsw Hswp].
  { subst switch. destruct goBranchExists.
    - by rewrite Hgit.
    - rewrite run_bind, Hgit by done. cbn [run_result run_fs run_trace].
      by rewrite Hgit. }
  match goal with
  | |- context [run_result ((switch ≫= ?f) fs4)] =>
      destruct (bind_Ok switch f fs4 tt Hsw) as [-> ->]
  end.
  rewrite Hswp. set (fs5 := run_fs (switch fs4)).
  (* rm *)
  match goal with
  | |- context [run_result ((?m ≫= ?f) fs5)] =>
      destruct (bind_Ok m f fs5 tt ltac:(by rewrite Hgit)) as [-> ->]
  end.
  rewrite !Hgit by done. cbn [run_result run_fs run_trace].
  set (fs6 := (exec_Run env (git env ["rm"; "-rf"; "--ignore-unmatch"; "."]) fs5).2).
  (* checkouts *)
  match goal with
  | |- context [run_result ((forEach filesToCopy ?body ≫= ?f) fs6)] =>
      destruct (checkouts_run env
                  (fun pattern => gitC env ["checkout"; mainCommit; "--"; pattern])
                  filesToCopy fs6) as [Hco Hcop];
      destruct (bind_Ok (forEach filesToCopy body) f fs6 tt Hco) as [-> ->];
      rewrite Hcop; set (fs7 := run_fs (forEach filesToCopy body fs6))
  end.
  (* add *)
  match goal with
  | |- context [run_result ((?m ≫= ?f) fs7)] =>
      destruct (bind_Ok m f fs7 tt ltac:(by rewrite Hgit)) as [-> ->]
  end.
  rewrite !Hgit by done. cbn [run_result run_fs run_trace].
  set (fs8 := (exec_Run env (git env ["add"; "-A"]) fs7).2).
  unfold publishStaging, publishPush.
  destruct (String.length mainCommit <? 8)%nat.
  - split; [reflexivity|]. simpl programs. by rewrite app_nil_r.
  - (* commit, push, back *)
    match goal with
    | |- context [run_result ((?m ≫= ?f) fs8)] =>
        destruct (bind_Ok m f fs8 tt ltac:(by rewrite Hgit)) as [-> ->]
    end.
    rewrite !Hgit by done. cbn [run_result run_fs run_trace].
    match goal with
    | |- context [run_result ((?m ≫= ?f) ?st)] =>
        destruct (bind_Ok m f st tt ltac:(by rewrite Hgit)) as [-> ->]
    end.
    rewrite !Hgit by done. cbn [run_result run_fs run_trace].
    match goal with
    | |- context [run_result ((?m ≫= ?f) ?st)] =>
        destruct (bind_Ok m f st tt ltac:(by rewrite Hgit)) as [-> ->]
    end.
    rewrite !Hgit by done. cbn [run_result run_fs run_trace].
    split; [reflexivity|]. simpl programs. by rewrite <- ?app_assoc.
Qed.

Lemma cmdPublish_guarded_witness :
  ((exec_Run quietEnv (gitStatus quietEnv) ∅).1 = None
   /\ strings_TrimSpace (exec_Stdout cleanHost (gitStatus quietEnv) ∅) = "")
  /\ ((exec_Run quietEnv (gitBranch quietEnv) (exec_Run quietEnv (gitStatus quietEnv) ∅).2).1
      = None
      /\ strings_TrimSpace
           (exec_Stdout cleanHost (gitBranch quietEnv)
              (exec_Run quietEnv (gitStatus quietEnv) ∅).2)
         = "main").
Proof.
  assert (In (EvRun (git quietEnv ["push"; "-f"; "origin"; "go"]) None)
             (run_trace (cmdPublish quietEnv cleanHost ∅))) as Hin
    by (vm_compute; tauto).
  exact (cmdPublish_guarded quietEnv cleanHost ∅ _ _ Hin
           ltac:(discriminate) ltac:(discriminate)).
Defined.

Lemma cmdPublish_sequence_witness :
  (run_result (cmdPublish quietEnv cleanHost ∅) = Ok Returned
   /\ programs (run_trace (cmdPublish quietEnv cleanHost ∅))
      = [gitStatus quietEnv; gitBranch quietEnv; gitHead quietEnv;
         gitC quietEnv ["rev-parse"; "--verify"; "go"]]
        ++ publishStaging quietEnv true "9fceb02d0ae598e95dc970b74767f19372d61af8"
        ++ publishPush quietEnv "9fceb02d0ae598e95dc970b74767f19372d61af8")
  /\ (run_result (cmdPublish quietEnv shortHost ∅)
      = Ok (Panicked "runtime error: slice bounds out of range [:8] with length 7")
      /\ programs (run_trace (cmdPublish quietEnv shortHost ∅))
         = [gitStatus quietEnv; gitBranch quietEnv; gitHead quietEnv;
            gitC quietEnv ["rev-parse"; "--verify"; "go"]]
           ++ publishStaging quietEnv true "9fceb02").
Proof.
  split.
  - exact (cmdPublish_sequence quietEnv cleanHost ∅ (fun _ _ => eq_refl) eq_refl eq_refl).
  - exact (cmdPublish_sequence quietEnv shortHost ∅ (fun _ _ => eq_refl) eq_refl eq_refl).
Defined.

(* ===================================================================== *)
(** * Properties of [cmdSync] *)
(* ===================================================================== *)

(** When the cronet components are there and [git status] has nothing to
    say about them, [cmdSync] ends after that question: nothing is removed,
    requested or committed. *)
Theorem cmdSync_up_to_date (env : Env) (host : Host) (fs : FileSys) (data : string) :
  fs_Open fs (versionFile env) = Done (File data) ->
  fs_Stat fs (componentDir env "cronet") = StatOk ->
  (exec_Run env (syncStatus env) fs).1 = None ->
  strings_TrimSpace (exec_Stdout host (syncStatus env) fs) = "" ->
  cmdSync env host fs
  = mkRun (Ok tt) (exec_Run env (syncStatus env) fs).2
          [EvLog "Syncing Chromium cronet components...";
           EvOpen (versionFile env) None;
           EvLog ("Chromium version: " +:+ strings_TrimSpace data);
           EvStat (componentDir env "cronet") StatOk;
           EvRun (syncStatus env) None;
           EvLog "Components already up to date"].
Proof.
  intros Hopen Hstat Hrun Hout. unfold cmdSync.
  fold (versionFile env) (componentDir env "cronet").
  rewrite run_log_then, run_bind.
  assert (os_ReadFile (versionFile env) fs
          = mkRun (Ok (inl data)) fs [EvOpen (versionFile env) None]) as ->.
  { unfold os_ReadFile. by rewrite Hopen. }
  cbn [run_result run_fs run_trace]. rewrite run_log_then, run_bind.
  assert (os_Stat (componentDir env "cronet") fs
          = mkRun (Ok StatOk) fs [EvStat (componentDir env "cronet") StatOk]) as ->.
  { unfold os_Stat. by rewrite Hstat. }
  cbn [run_result run_fs run_trace]. rewrite !run_bind, runCmdOutput_run. cbv zeta.
  fold (syncStatus env). rewrite Hrun.
  cbn [run_result run_fs run_trace mret M_ret]. rewrite Hout. reflexivity.
Qed.

(** What [os.RemoveAll] and [os.MkdirAll] leave at and below a path. *)
Lemma RemoveAll_below (fs : FileSys) dir path :
  below dir path = true -> fs_RemoveAll fs dir !! path = None.
Proof.
  intros H. unfold fs_RemoveAll. apply map_lookup_filter_None. right.
  intros n _. simpl. congruence.
Qed.

Lemma below_refl dir : below dir dir = true.
Proof. unfold below. by rewrite String.eqb_refl. Qed.

Lemma MkdirAll_fresh (fs : FileSys) dir :
  fs !! dir = None -> fs_MkdirAll fs dir = Done (<[dir := Dir]> fs).
Proof.
  intros H. unfold fs_MkdirAll, maxSymlinks, fs_follow. rewrite H.
  by rewrite String.eqb_refl.
Qed.

(** [cmdSync] empties the directory of a component before it asks for the
    archive: when the answer is not a response with status 200, the run is
    fatal, [tar] is not started, and what was below the directory is gone. *)
Theorem syncComponent_refused
    (env : Env) (host : Host) (version name : string) (fs : FileSys) (reason : string) :
  refusal host (componentURL version name) (http_Get env (componentURL version name))
  = Some reason ->
  let dir := componentDir env name in
  let run := syncComponent env host version name fs in
  run_result run = Fatal ("failed to download " +:+ name +:+ ": " +:+ reason)
  /\ programs (run_trace run) = []
  /\ run_fs run = <[dir := Dir]> (fs_RemoveAll fs dir)
  /\ forall path, below dir path = true -> path <> dir -> run_fs run !! path = None.
Proof.
  intros Hrefuse dir run.
  assert (run = mkRun (Fatal ("failed to download " +:+ name +:+ ": " +:+ reason))
                      (<[dir := Dir]> (fs_RemoveAll fs dir))
                      [EvLog ("Downloading " +:+ name +:+ "...");
                       EvRemoveAll dir; EvMkdirAll dir None;
                       EvHttpGet (componentURL version name);
                       EvFatal ("failed to download " +:+ name +:+ ": " +:+ reason)])
    as ->.
  { subst run. unfold syncComponent. fold (componentDir env name). fold dir.
    rewrite run_log_then, run_bind.
    cbn [run_result run_fs run_trace os_RemoveAll]. rewrite run_bind.
    assert (os_MkdirAll dir (fs_RemoveAll fs dir)
            = mkRun (Ok None) (<[dir := Dir]> (fs_RemoveAll fs dir)) [EvMkdirAll dir None])
      as ->.
    { unfold os_MkdirAll.
      by rewrite (MkdirAll_fresh _ _ (RemoveAll_below fs dir dir (below_refl dir))). }
    cbn [run_result run_fs run_trace]. rewrite run_bind.
    assert (downloadAndExtract env host (componentURL version name) dir
              (<[dir := Dir]> (fs_RemoveAll fs dir))
            = mkRun (Ok (Some reason)) (<[dir := Dir]> (fs_RemoveAll fs dir))
                    [EvHttpGet (componentURL version name)]) as ->.
    { unfold downloadAndExtract. rewrite run_bind.
      cbn [run_result run_fs run_trace Rev1.http_get].
      revert Hrefuse. unfold refusal.
      destruct (http_Get env (componentURL version name)) as [msg|status body berr].
      - by intros [= <-].
      - destruct (status =? 200)%Z; [discriminate|]. by intros [= <-]. }
    reflexivity. }
  cbn [run_result run_fs run_trace]. repeat split.
  intros path Hbelow Hne. rewrite lookup_insert_ne by done. by apply RemoveAll_below.
Qed.

Lemma In_trace_bind {A B : Type} (m : M A) (f : A -> M B) (fs : FileSys) (ev : Event) :
  In ev (run_trace ((m ≫= f) fs)) ->
  In ev (run_trace (m fs))
  \/ exists a, run_result (m fs) = Ok a /\ In ev (run_trace (f a (run_fs (m fs)))).
Proof.
  rewrite run_bind. destruct (run_result (m fs)) as [a|msg]; cbn [run_trace].
  - rewrite in_app_iff. intros [H|H]; [by left | right; by exists a].
  - by left.
Qed.

Lemma In_bind_r {A B : Type} (m : M A) (f : A -> M B) (fs : FileSys) (ev : Event) (a : A) :
  run_result (m fs) = Ok a ->
  In ev (run_trace (m fs)) \/ In ev (run_trace (f a (run_fs (m fs)))) ->
  In ev (run_trace ((m ≫= f) fs)).
Proof.
  intros H Hin. rewrite run_bind, H. cbn [run_trace]. by apply in_app_iff.
Qed.

Lemma In_programs c e tr : In (EvRun c e) tr -> In c (programs tr).
Proof.
  induction tr as [|ev tr IH]; [done|]. intros [->|Hin]; [by left|].
  destruct ev; simpl; auto.
Qed.

(** One pass of the loop starts no program but [tar], and ends without
    [fatal] only after [tar] has ended without error. *)
Lemma syncComponent_tar env host version name fs :
  (forall c, In c (programs (run_trace (syncComponent env host version name fs))) ->
             cmd_Path c = "tar")
  /\ (run_result (syncComponent env host version name fs) = Ok tt ->
      In (EvRun (tarInto env (componentDir env name)) None)
         (run_trace (syncComponent env host version name fs))).
Proof.
  unfold syncComponent. fold (componentDir env name).
  set (dir := componentDir env name). set (url := componentURL version name).
  rewrite run_log_then, run_bind. cbn [run_result run_fs run_trace os_RemoveAll].
  set (fs1 := fs_RemoveAll fs dir). rewrite run_bind.
  unfold os_MkdirAll. cbn [run_result run_fs run_trace].
  destruct (fs_MkdirAll fs1 dir) as [fs2|en]; cbn [err_of].
  2:{ cbn [fatal run_result run_trace]. split; [|discriminate].
      intros c. simpl. tauto. }
  rewrite run_bind. unfold downloadAndExtract. rewrite run_bind.
  cbn [Rev1.http_get run_result run_fs run_trace].
  destruct (http_Get env url) as [msg|status body berr].
  { cbn [mret M_ret fatal run_result run_trace run_fs]. split; [|discriminate].
    intros c. simpl. tauto. }
  destruct (negb (status =? 200)%Z).
  { cbn [mret M_ret fatal run_result run_trace run_fs]. split; [|discriminate].
    intros c. simpl. tauto. }
  rewrite run_bind. unfold cmd_RunStdin. fold (tarInto env dir).
  cbn [run_result run_fs run_trace].
  destruct (exec_RunStdin host (tarInto env dir) body berr fs2) as [[e1|] fs3];
    cbn [fst snd mret M_ret fatal log run_result run_trace run_fs].
  - split; [|discriminate]. intros c. simpl. by intros [<-|[]].
  - split.
    + intros c. simpl. by intros [<-|[]].
    + intros _. simpl. tauto.
Qed.

Lemma syncComponents_tar env host version (names : list string) fs :
  (forall c,
      In c (programs (run_trace (forEach names (syncComponent env host version) fs))) ->
      cmd_Path c = "tar")
  /\ (run_result (forEach names (syncComponent env host version) fs) = Ok tt ->
      forall name, In name names ->
        In (EvRun (tarInto env (componentDir env name)) None)
           (run_trace (forEach names (syncComponent env host version) fs))).
Proof.
  revert fs. induction names as [|name names IH]; intros fs.
  { split; [intros c [] | intros _ n []]. }
  simpl forEach. split.
  - intros c. rewrite run_bind.
    destruct (run_result (syncComponent env host version name fs)) as [[]|msg] eqn:Hr;
      cbn [run_trace].
    + rewrite programs_app, in_app_iff. intros [Hin|Hin].
      * by apply (proj1 (syncComponent_tar env host version name fs) c).
      * by apply (proj1 (IH (run_fs (syncComponent env host version name fs))) c).
    + by apply (proj1 (syncComponent_tar env host version name fs) c).
  - intros Hok n Hn.
    apply bind_Ok_inv in Hok as ([] & H1 & H2 & _ & _).
    apply (In_bind_r _ _ _ _ tt H1).
    destruct Hn as [<-|Hn].
    + left. by apply (proj2 (syncComponent_tar env host version name fs)).
    + right. by apply (proj2 (IH (run_fs (syncComponent env host version name fs))) H2).
Qed.

(** [cmdSync] stages and commits only what is complete: a run in which
    [git add] was started is a run in which [tar] has unpacked the archive of
    each of the three components without error. *)
Theorem cmdSync_commit_after_all
    (env : Env) (host : Host) (fs : FileSys) (e : error) (name : string) :
  In (EvRun (syncAdd env) e) (run_trace (cmdSync env host fs)) ->
  In name components ->
  In (EvRun (tarInto env (componentDir env name)) None)
     (run_trace (cmdSync env host fs)).
Proof.
  intros Hadd Hname. apply In_programs in Hadd. revert Hadd. unfold cmdSync.
  fold (versionFile env) (componentDir env "cronet").
  rewrite !run_log_then. cbn [run_trace programs]. rewrite !run_bind.
  unfold os_ReadFile. cbn [run_result run_fs run_trace].
  destruct (match fs_Open fs (versionFile env) with
            | Done n => match read_all (versionFile env) n with
                        | (data, None) => inl data
                        | (_, Some e) => inr e
                        end
            | Failed e => inr (PathError "open" (versionFile env) e)
            end) as [data|err].
  2:{ cbn [fatal run_trace]. simpl. tauto. }
  rewrite !run_log_then. cbn [run_result run_fs run_trace]. rewrite !run_bind.
  unfold os_Stat. cbn [run_result run_fs run_trace]. rewrite !run_bind.
  (* the rest of the run, once the question of the early return is settled *)
  set (rest := (forEach components (syncComponent env host (strings_TrimSpace data));;
                log "Creating git commit...";;
                runCmd env (naiveRoot env) "git"
                  ["add"; "src/components/cronet"; "src/components/grpc_support";
                   "src/components/prefs"];;
                runCmd env (naiveRoot env) "git"
                  ["commit"; "-m"; syncCommitMsg (strings_TrimSpace data)];;
                log "Sync complete!") : M unit).
  assert (forall st, In (syncAdd env) (programs (run_trace (rest st))) ->
                     In (EvRun (tarInto env (componentDir env name)) None)
                        (run_trace (rest st))) as Hrest.
  { intros st. subst rest. intros Hin.
    destruct (syncComponents_tar env host (strings_TrimSpace data) components st)
      as [Htar Hall].
    rewrite run_bind in Hin |- *.
    destruct (run_result (forEach components _ st)) as [[]|msg] eqn:Hok;
      cbn [run_trace] in *.
    - apply in_app_iff. left. by apply Hall.
    - apply Htar in Hin. discriminate. }
  set (q := match fs_Stat fs (componentDir env "cronet") with
            | StatOk =>
                runCmdOutput env host (naiveRoot env) "git"
                  ["status"; "--porcelain"; "src/components/cronet"]
                ≫= λ status : string, mret (strings_TrimSpace status =? "")%string
            | _ => mret false
            end fs).
  assert (forall c, In c (programs (run_trace q)) -> c = syncStatus env) as Hq.
  { subst q. destruct (fs_Stat fs (componentDir env "cronet")); try (intros c []).
    rewrite run_bind, runCmdOutput_run. cbv zeta. fold (syncStatus env).
    destruct (exec_Run env (syncStatus env) fs).1;
      cbn [run_result run_fs run_trace mret M_ret programs app];
      intros c [<-|[]]; reflexivity. }
  assert (syncAdd env <> syncStatus env) as Hne by discriminate.
  repeat (rewrite ?programs_app; cbn [programs app]).
  destruct (run_result q) as [[|]|msg]; cbn [run_trace log];
    repeat (rewrite ?programs_app; cbn [programs app]); rewrite ?in_app_iff.
  - intros [H|[]]. apply Hq in H. by destruct Hne.
  - intros [H|H]; [apply Hq in H; by destruct Hne|].
    apply Hrest in H. do 4 apply in_cons. apply in_app_iff. by right.
  - intros H. apply Hq in H. by destruct Hne.
Qed.

Lemma cmdSync_up_to_date_witness :
  cmdSync quietEnv cleanHost syncedFiles
  = mkRun (Ok tt) syncedFiles
          [EvLog "Syncing Chromium cronet components...";
           EvOpen (versionFile quietEnv) None;
           EvLog "Chromium version: 120.0.6099.43";
           EvStat (componentDir quietEnv "cronet") StatOk;
           EvRun (syncStatus quietEnv) None;
           EvLog "Components already up to date"].
Proof.
  assert (fs_Open syncedFiles (versionFile quietEnv)
          = Done (File ("120.0.6099.43" +:+ newline))) as Hopen
    by (vm_compute; reflexivity).
  assert (fs_Stat syncedFiles (componentDir quietEnv "cronet") = StatOk) as Hstat
    by (vm_compute; reflexivity).
  exact (cmdSync_up_to_date quietEnv cleanHost syncedFiles _ Hopen Hstat eq_refl eq_refl).
Defined.

Lemma syncComponent_refused_witness :
  run_result (syncComponent mirrorEnv cleanHost "120.0.6099.43" "cronet" syncedFiles)
  = Fatal "failed to download cronet: HTTP 404: 404 Not Found"
  /\ programs (run_trace (syncComponent mirrorEnv cleanHost "120.0.6099.43" "cronet" syncedFiles))
     = []
  /\ run_fs (syncComponent mirrorEnv cleanHost "120.0.6099.43" "cronet" syncedFiles)
       !! "/work/cronet-go/naiveproxy/src/components/cronet/BUILD.gn"
     = None.
Proof.
  pose proof (syncComponent_refused mirrorEnv cleanHost "120.0.6099.43" "cronet" syncedFiles
                "HTTP 404: 404 Not Found" eq_refl) as (Hres & Hprog & _ & Hgone).
  split; [exact Hres|]. split; [exact Hprog|].
  apply Hgone; [vm_compute; reflexivity | discriminate].
Defined.

Lemma cmdSync_commit_after_all_witness :
  In (EvRun (tarInto archiveEnv (componentDir archiveEnv "prefs")) None)
     (run_trace (cmdSync archiveEnv cleanHost versionOnly)).
Proof.
  assert (In (EvRun (syncAdd archiveEnv) None)
             (run_trace (cmdSync archiveEnv cleanHost versionOnly))) as Hadd
    by (vm_compute; tauto).
  apply (cmdSync_commit_after_all archiveEnv cleanHost versionOnly None "prefs" Hadd).
  vm_compute. tauto.
Defined.

(* ===================================================================== *)
(** * Properties of the build of the first revision *)
(* ===================================================================== *)

Lemma started_app tr1 tr2 : started (tr1 ++ tr2) = started tr1 ++ started tr2.
Proof.
  induction tr1 as [|e tr1 IH]; [done|]. destruct e; simpl; by rewrite ?IH.
Qed.

Lemma In_started c e tr : In (EvRun c e) tr <-> In (c, e) (started tr).
Proof.
  induction tr as [|ev tr IH]; [done|]. simpl.
  destruct ev; simpl; rewrite <- IH;
    try (split; [intros [H|H]; [discriminate | done] | by right]).
  split; intros [H|H]; [left; congruence | by right | left; congruence | by right].
Qed.

Lemma downloadFile_result env url dest sha fs :
  started (run_trace (Rev1.downloadFile env url dest sha fs)) = []
  /\ exists err, run_result (Rev1.downloadFile env url dest sha fs) = Ok err
       /\ (err = None ->
           exists payload,
             http_Get env url = HttpResponse 200 payload None
             /\ hex_EncodeToString (sha256_Sum payload) = sha).
Proof.
  unfold Rev1.downloadFile. rewrite run_bind.
  cbn [Rev1.http_get run_result run_fs run_trace].
  destruct (http_Get env url) as [msg|status body berr].
  { cbn [mret M_ret run_result run_trace]. split; [done|]. by eexists. }
  destruct (Z.eqb_spec status 200) as [->|Hne]; cbn [negb].
  2:{ cbn [mret M_ret run_result run_trace]. split; [done|]. by eexists. }
  rewrite run_bind. unfold os_Create. cbn [run_result run_fs run_trace].
  destruct (fs_Create fs dest) as [[p fs1]|en].
  2:{ cbn [mret M_ret run_result run_trace]. split; [done|]. by eexists. }
  rewrite run_bind. unfold io_Copy. cbn [run_result run_fs run_trace].
  destruct berr as [e|].
  { cbn [mret M_ret run_result run_trace]. split; [done|]. by eexists. }
  destruct (String.eqb_spec (hex_EncodeToString (sha256_Sum body)) sha) as [Heq|Hne];
    cbn [negb].
  - cbn [mret M_ret run_result run_trace]. split; [done|]. eexists. split; [done|].
    intros _. by exists body.
  - rewrite run_bind. unfold os_Remove. cbn [mret M_ret run_result run_fs run_trace].
    split; [done|]. by eexists.
Qed.

Lemma MkdirAll_Stat (fs fs' : FileSys) dir :
  fs_MkdirAll fs dir = Done fs' -> fs_Stat fs' dir = StatOk.
Proof.
  unfold fs_MkdirAll, fs_Stat.
  destruct (fs_follow maxSymlinks fs dir) as [[p [[d| |tgt]|]]|] eqn:Hf; try discriminate.
  - intros [= <-]. by rewrite Hf.
  - destruct (String.eqb_spec p dir) as [->|]; [|discriminate]. intros [= <-].
    unfold maxSymlinks, fs_follow. by rewrite lookup_insert_eq.
Qed.

(** A run of [ensureLinuxSysroot] that starts a program has read and parsed
    [sysroots.json], found the entry, downloaded the tarball with the digest
    of the entry and made the sysroot directory; the program is [tar], and
    the run is fatal when it fails. *)
Lemma ensureLinuxSysroot_tar env lib arch fs c e :
  In (c, e) (started (run_trace (Rev1Build.ensureLinuxSysroot env lib arch fs))) ->
  let dir := Rev1Build.sysrootPath env (Rev1Build.sysrootArch arch) in
  exists data sysroots info fs2,
    run_result (os_ReadFile (sysrootsFile env) fs) = Ok (inl data)
    /\ json_Unmarshal lib data = inl sysroots
    /\ sysroots !! ("bullseye_" +:+ Rev1Build.sysrootArch arch) = Some info
    /\ run_result
         (Rev1.downloadFile env (URL info +:+ "/" +:+ Sha256Sum info)
            (filepath_Join [srcRoot env; "build"; "linux"; Tarball info])
            (Sha256Sum info) fs)
       = Ok None
    /\ fs_MkdirAll
         (run_fs
            (Rev1.downloadFile env (URL info +:+ "/" +:+ Sha256Sum info)
               (filepath_Join [srcRoot env; "build"; "linux"; Tarball info])
               (Sha256Sum info) fs))
         dir
       = Done fs2
    /\ c = tarSysroot env info
    /\ e = (exec_Run env c fs2).1
    /\ forall e', e = Some e' ->
         run_fs (Rev1Build.ensureLinuxSysroot env lib arch fs) = (exec_Run env c fs2).2
         /\ run_result (Rev1Build.ensureLinuxSysroot env lib arch fs)
            = Fatal ("command failed: tar "
                     +:+ strings_Join ["-xf"; Tarball info; "-C"; SysrootDir info] " "
                     +:+ ": " +:+ e').
Proof.
  intros Hin dir. revert Hin. unfold Rev1Build.ensureLinuxSysroot. fold dir.
  destruct (String.eqb (Rev1Build.sysrootArch arch) ""); [intros []|].
  rewrite run_bind. unfold os_Stat. cbn [run_result run_fs run_trace started app].
  fold (sysrootsFile env).
  destruct (fs_Stat fs dir); [intros [] | |].
  all: rewrite run_bind.
  all: assert (run_fs (os_ReadFile (sysrootsFile env) fs) = fs
               /\ started (run_trace (os_ReadFile (sysrootsFile env) fs)) = [])
         as [Hfs Hpr] by done.
  all: rewrite Hfs.
  all: destruct (run_result (os_ReadFile (sysrootsFile env) fs)) as [[data|err]|msg] eqn:Hread;
         cbn [run_trace]; rewrite ?started_app, ?Hpr; try (intros []).
  all: destruct (json_Unmarshal lib data) as [sysroots|err] eqn:Hjson; try (intros []).
  all: destruct (sysroots !! ("bullseye_" +:+ Rev1Build.sysrootArch arch)) as [info|] eqn:Hinfo;
         try (intros []).
  all: rewrite run_log_then; cbn [run_trace started app]; rewrite run_bind.
  all: destruct (downloadFile_result env (URL info +:+ "/" +:+ Sha256Sum info)
                   (filepath_Join [srcRoot env; "build"; "linux"; Tarball info])
                   (Sha256Sum info) fs) as (Hdp & err & Hdr & _).
  all: rewrite Hdr; cbn [run_trace run_result run_fs]; rewrite started_app, Hdp.
  all: destruct err as [err|]; try (intros []).
  all: rewrite run_log_then; cbn [run_trace run_result run_fs started app].
  all: rewrite run_bind; unfold os_MkdirAll; cbn [run_trace run_result run_fs started app].
  all: destruct (fs_MkdirAll _ dir) as [fs2|en] eqn:Hmk; cbn [err_of]; try (intros []).
  all: rewrite run_bind, runCmd_run; cbv zeta; fold (tarSysroot env info).
  all: destruct (exec_Run env (tarSysroot env info) fs2).1 as [e1|] eqn:Hrun;
         cbn [run_trace run_result run_fs started app].
  all: try (rewrite run_bind; unfold os_Remove; cbn [run_trace run_result run_fs started app];
            rewrite run_log_then; cbn [run_trace run_result run_fs started app]).
  all: intros [[= <- <-]|[]].
  all: exists data, sysroots, info, fs2; do 6 (split; [done|]).
  all: split; [by rewrite Hrun|].
  all: intros e' He'; try discriminate He'.
  all: injection He' as <-; split; reflexivity.
Qed.

(** [ensureLinuxSysroot] starts no program but [tar], and that only on a
    tarball it has checked: a run in which a program was started has found the
    entry of the architecture in [sysroots.json] and has been served, at the
    URL of the entry, a payload whose SHA-256 digest is the one the entry
    gives. *)
Theorem ensureLinuxSysroot_verified
    (env : Env) (lib : Library) (arch : string) (fs : FileSys) (c : Cmd) (e : error) :
  In (EvRun c e) (run_trace (Rev1Build.ensureLinuxSysroot env lib arch fs)) ->
  exists data sysroots info payload,
    fs_ReadFile fs (sysrootsFile env) = Some data
    /\ json_Unmarshal lib data = inl sysroots
    /\ sysroots !! ("bullseye_" +:+ Rev1Build.sysrootArch arch) = Some info
    /\ http_Get env (URL info +:+ "/" +:+ Sha256Sum info) = HttpResponse 200 payload None
    /\ hex_EncodeToString (sha256_Sum payload) = Sha256Sum info
    /\ c = tarSysroot env info.
Proof.
  intros Hin. apply In_started in Hin.
  apply ensureLinuxSysroot_tar in Hin
    as (data & sysroots & info & fs2 & Hread & Hjson & Hinfo & Hdl & _ & Hc & _).
  destruct (downloadFile_result env (URL info +:+ "/" +:+ Sha256Sum info)
              (filepath_Join [srcRoot env; "build"; "linux"; Tarball info])
              (Sha256Sum info) fs) as (_ & err & Hdr & Hver).
  rewrite Hdl in Hdr. injection Hdr as <-.
  destruct (Hver eq_refl) as (payload & Hget & Hsha).
  exists data, sysroots, info, payload. repeat split; try done.
  revert Hread. unfold os_ReadFile, fs_ReadFile. cbn [run_result].
  destruct (fs_Open fs (sysrootsFile env)) as [[d| |tgt]|en]; simpl; congruence.
Qed.

(** The directory whose presence tells [ensureLinuxSysroot] that the sysroot
    is installed is made before [tar] runs.  When [tar] fails the run is fatal;
    if [tar] left the directory in place, the next run finds it, reports the
    sysroot as existing and downloads nothing. *)
Theorem ensureLinuxSysroot_failed_extraction
    (env : Env) (lib : Library) (arch : string) (fs : FileSys) (c : Cmd) (e : string) :
  let dir := Rev1Build.sysrootPath env (Rev1Build.sysrootArch arch) in
  let run := Rev1Build.ensureLinuxSysroot env lib arch fs in
  In (EvRun c (Some e)) (run_trace run) ->
  (forall st, fs_Stat st dir = StatOk -> fs_Stat (exec_Run env c st).2 dir = StatOk) ->
  (exists msg, run_result run = Fatal msg)
  /\ Rev1Build.ensureLinuxSysroot env lib arch (run_fs run)
     = mkRun (Ok dir) (run_fs run)
             [EvStat dir StatOk; EvLog ("Sysroot already exists: " +:+ dir)].
Proof.
  intros dir run Hin Hkeeps. apply In_started in Hin.
  assert (Rev1Build.sysrootArch arch <> "") as Harch.
  { intros Hbad. revert Hin. subst run. unfold Rev1Build.ensureLinuxSysroot. by rewrite Hbad. }
  apply ensureLinuxSysroot_tar in Hin
    as (data & sysroots & info & fs2 & _ & _ & _ & _ & Hmk & Hc & He & Hfatal).
  destruct (Hfatal e eq_refl) as [Hfs Hres]. fold run in Hfs, Hres.
  split; [by eexists|].
  assert (fs_Stat (run_fs run) dir = StatOk) as Hstat.
  { rewrite Hfs. apply Hkeeps. by apply (MkdirAll_Stat _ _ _ Hmk). }
  unfold Rev1Build.ensureLinuxSysroot. fold dir.
  apply String.eqb_neq in Harch. rewrite Harch.
  rewrite run_bind. unfold os_Stat. cbn [run_result run_fs run_trace].
  rewrite Hstat. reflexivity.
Qed.

(** An architecture outside the map of [ensureLinuxSysroot] is fatal before
    anything is touched, and no linux target of the registry has one; when the
    sysroot directory of the architecture is there, the sysroot counts as
    installed: nothing is read, requested or started. *)
Theorem ensureLinuxSysroot_cached
    (env : Env) (lib : Library) (arch : string) (fs : FileSys) :
  let dir := Rev1Build.sysrootPath env (Rev1Build.sysrootArch arch) in
  (Rev1Build.sysrootArch arch = "" ->
   Rev1Build.ensureLinuxSysroot env lib arch fs
   = mkRun (Fatal ("unsupported Linux arch for sysroot: " +:+ arch)) fs
           [EvFatal ("unsupported Linux arch for sysroot: " +:+ arch)])
  /\ (Rev1Build.sysrootArch arch <> "" -> fs_Stat fs dir = StatOk ->
      Rev1Build.ensureLinuxSysroot env lib arch fs
      = mkRun (Ok dir) fs [EvStat dir StatOk; EvLog ("Sysroot already exists: " +:+ dir)])
  /\ (forall t, t ∈ allTargets -> OS t = "linux" -> Rev1Build.sysrootArch (CPU t) <> "").
Proof.
  intros dir. split; [|split].
  - intros Hbad. unfold Rev1Build.ensureLinuxSysroot. by rewrite Hbad.
  - intros Harch Hstat. unfold Rev1Build.ensureLinuxSysroot. fold dir.
    apply String.eqb_neq in Harch. rewrite Harch.
    rewrite run_bind. unfold os_Stat. cbn [run_result run_fs run_trace].
    rewrite Hstat. reflexivity.
  - by_registry.
Qed.

Lemma ensureLinuxSysroot_Ok env lib arch fs dir :
  run_result (Rev1Build.ensureLinuxSysroot env lib arch fs) = Ok dir ->
  dir = Rev1Build.sysrootPath env (Rev1Build.sysrootArch arch).
Proof.
  unfold Rev1Build.ensureLinuxSysroot.
  destruct (String.eqb (Rev1Build.sysrootArch arch) ""); [discriminate|].
  rewrite run_bind. unfold os_Stat. cbn [run_result run_fs run_trace].
  destruct (fs_Stat fs _); [by intros [= <-] | |].
  all: rewrite run_bind.
  all: destruct (run_result (os_ReadFile _ fs)) as [[data|err]|msg]; try discriminate.
  all: destruct (json_Unmarshal lib data) as [sysroots|err]; try discriminate.
  all: destruct (sysroots !! _) as [info|]; try discriminate.
  all: rewrite run_log_then; cbn [run_result]; rewrite run_bind.
  all: destruct (run_result (Rev1.downloadFile _ _ _ _ _)) as [[err|]|msg]; try discriminate.
  all: rewrite run_log_then; cbn [run_result]; rewrite run_bind.
  all: unfold os_MkdirAll; cbn [run_result run_fs].
  all: destruct (fs_MkdirAll _ _) as [fs2|en]; cbn [err_of]; try discriminate.
  all: rewrite run_bind, runCmd_run; cbv zeta.
  all: destruct (exec_Run env _ fs2).1; cbn [run_result run_fs]; try discriminate.
  all: rewrite run_bind; unfold os_Remove; cbn [run_result run_fs].
  all: rewrite run_log_then; cbn [run_result mret M_ret].
  all: by intros [= <-].
Qed.

Lemma returns_bind {A B : Type} (m : M A) (f : A -> M B) (P : A -> Prop) (Q : B -> Prop) :
  returns m P -> (forall a, P a -> returns (f a) Q) -> returns (m ≫= f) Q.
Proof.
  intros Hm Hf fs. destruct (Hm fs) as (a & Ha & HP & Hs).
  destruct (Hf a HP (run_fs (m fs))) as (b & Hb & HQ & Hs').
  exists b. rewrite run_bind, Ha. cbn [run_result run_trace].
  by rewrite started_app, Hs, Hs'.
Qed.

Lemma returns_ret {A : Type} (a : A) (P : A -> Prop) : P a -> returns (mret a) P.
Proof. intros HP fs. by exists a. Qed.

Lemma returns_log line : returns (log line) (fun _ => True).
Proof. intros fs. by exists tt. Qed.

Lemma returns_MkdirAll path : returns (os_MkdirAll path) (fun _ => True).
Proof. intros fs. by eexists. Qed.

Lemma returns_link src dst : returns (Rev1Build.linkUnlessPresent src dst) (fun _ => True).
Proof.
  unfold Rev1Build.linkUnlessPresent. apply (returns_bind _ _ (fun _ => True)).
  - intros fs. by eexists.
  - intros st _. destruct (os_IsNotExist st); [|by apply returns_ret].
    apply (returns_bind _ _ (fun _ => True)); [intros fs; by eexists|].
    intros _ _. by apply returns_ret.
Qed.

(** The errors of [os.MkdirAll] and [os.Symlink] are dropped: configuring
    always returns, and starts nothing. *)
Lemma configureNDK_quiet env localNDK :
  returns (configureNDK env localNDK) (fun dir => dir = ndkDir env).
Proof.
  unfold configureNDK.
  apply (returns_bind _ _ (fun _ => True)); [apply returns_log|]. intros _ _.
  apply (returns_bind _ _ (fun _ => True)); [apply returns_MkdirAll|]. intros _ _.
  apply (returns_bind _ _ (fun _ => True)); [apply returns_MkdirAll|]. intros _ _.
  apply (returns_bind _ _ (fun _ => True)); [apply returns_link|]. intros _ _.
  apply (returns_bind _ _ (fun _ => True)); [apply returns_link|]. intros _ _.
  apply (returns_bind _ _ (fun _ => True)); [apply returns_log|]. intros _ _.
  by apply returns_ret.
Qed.

Lemma ensureAndroidNDK_unfold env lib fs :
  Rev1Build.ensureAndroidNDK env lib fs
  = (st ← os_Stat (filepath_Join [ndkDir env; "toolchains"]);
     match st with
     | StatOk => log "Android NDK already configured";; mret (ndkDir env)
     | _ =>
         entries ← Rev1Build.readDir lib (localNDKBase lib);
         let localNDK :=
           match entries with
           | inl entries => Rev1Build.findNDK (localNDKBase lib) entries
           | inr _ => ""
           end in
         localNDK ←
           (if String.eqb localNDK "" then
              st ← os_Stat (cmd_Path (sdkManager env lib));
              match st with
              | StatOk =>
                  log "Installing Android NDK r28 via sdkmanager...";;
                  runCmd env (localSDK lib) (cmd_Path (sdkManager env lib))
                    ["--install"; "ndk;28.0.13004108"];;
                  mret (filepath_Join [localNDKBase lib; "28.0.13004108"])
              | _ =>
                  fatal ("Android NDK r28 not found and sdkmanager not available. "
                         +:+ "Please install NDK r28 via Android Studio.")
              end
            else mret localNDK);
         configureNDK env localNDK
     end) fs.
Proof. reflexivity. Qed.

Lemma skip_configured (done_ : M string) (k : M string) (top : string) (fs : FileSys) :
  (st ← os_Stat top; match st with StatOk => done_ | _ => k end) fs
  = match fs_Stat fs top with
    | StatOk =>
        mkRun (run_result (done_ fs)) (run_fs (done_ fs))
              (EvStat top StatOk :: run_trace (done_ fs))
    | st =>
        mkRun (run_result (k fs)) (run_fs (k fs)) (EvStat top st :: run_trace (k fs))
    end.
Proof.
  rewrite run_bind. unfold os_Stat. cbn [run_result run_fs run_trace].
  destruct (fs_Stat fs top);
    [by destruct (run_result (done_ fs)) | by destruct (run_result (k fs))..].
Qed.

Lemma readDir_listed (lib : Library) (path : string) (fs : FileSys)
    (entries : list DirEntry) (k : list DirEntry + string -> M string) :
  os_ReadDir lib fs path = inl entries ->
  (Rev1Build.readDir lib path ≫= k) fs
  = mkRun (run_result (k (inl entries) fs)) (run_fs (k (inl entries) fs))
          (EvOpen path None :: run_trace (k (inl entries) fs)).
Proof.
  intros Hread. rewrite run_bind.
  assert (Rev1Build.readDir lib path fs = mkRun (Ok (inl entries)) fs [EvOpen path None]) as ->.
  { unfold Rev1Build.readDir. by rewrite Hread. }
  reflexivity.
Qed.

Lemma located (found : string) (fs : FileSys) (k : string -> M string) (m : M string) :
  found <> "" ->
  ((if String.eqb found "" then m else mret found) ≫= k) fs = k found fs.
Proof.
  intros Hf. apply String.eqb_neq in Hf. rewrite Hf, run_bind.
  cbn [mret M_ret run_result run_fs run_trace app].
  by destruct (k found fs).
Qed.

Lemma leaves_bind {A B : Type} (m : M A) (f : A -> M B) (fs fs1 fs2 : FileSys)
    (acts1 acts2 : list Event) :
  leaves m fs fs1 acts1 ->
  (forall a, leaves (f a) fs1 fs2 acts2) ->
  leaves (m ≫= f) fs fs2 (acts1 ++ acts2).
Proof.
  intros (a & Hm & Ha) Hf. destruct (Hf a) as (b & Hb & Hacts).
  exists b. rewrite run_bind. revert Ha. rewrite Hm. cbn [run_result run_fs run_trace].
  intros Ha. revert Hacts. rewrite Hb. cbn [run_result run_fs run_trace].
  intros Hacts. by rewrite actions_app, Ha, Hacts.
Qed.

Lemma leaves_log line fs : leaves (log line) fs fs [].
Proof. by exists tt. Qed.

Lemma leaves_ret {A : Type} (a : A) fs : leaves (mret a) fs fs [].
Proof. by exists a. Qed.

Lemma leaves_MkdirAll path fs : leaves (os_MkdirAll path) fs (made fs path) [].
Proof. by eexists. Qed.

Lemma leaves_link src dst fs :
  leaves (Rev1Build.linkUnlessPresent src dst) fs
         (linkAttempt fs src dst).2 (linkAttempt fs src dst).1.
Proof.
  exists tt. unfold Rev1Build.linkUnlessPresent, linkAttempt. rewrite run_bind.
  unfold os_Stat. cbn [run_result run_fs run_trace].
  destruct (os_IsNotExist (fs_Stat fs dst)); [|by split].
  rewrite run_bind. unfold os_Symlink. cbn [run_result run_fs run_trace].
  destruct (fs_Symlink fs src dst); by split.
Qed.

(** The links of [configureNDK], and the file system it leaves. *)
Lemma configureNDK_links env localNDK fs :
  let fs1 := made (made fs (filepath_Join [ndkDir env; "sources"; "android"]))
                  (filepath_Join [ndkDir env; "toolchains"; "llvm"]) in
  let cpufeatures :=
    linkAttempt fs1 (filepath_Join [localNDK; "sources"; "android"; "cpufeatures"])
                (filepath_Join [ndkDir env; "sources"; "android"; "cpufeatures"]) in
  let prebuilt :=
    linkAttempt cpufeatures.2 (filepath_Join [localNDK; "toolchains"; "llvm"; "prebuilt"])
                (filepath_Join [ndkDir env; "toolchains"; "llvm"; "prebuilt"]) in
  leaves (configureNDK env localNDK) fs prebuilt.2 (cpufeatures.1 ++ prebuilt.1).
Proof.
  intros fs1 cpufeatures prebuilt. unfold configureNDK.
  apply (leaves_bind _ _ fs fs _ [] _ (leaves_log _ fs)). intros _.
  apply (leaves_bind _ _ fs _ _ [] _ (leaves_MkdirAll _ fs)). intros _.
  apply (leaves_bind _ _ _ fs1 _ [] _ (leaves_MkdirAll _ _)). intros _.
  apply (leaves_bind _ _ fs1 _ _ _ _ (leaves_link _ _ fs1)). intros _.
  rewrite <- (app_nil_r prebuilt.1).
  apply (leaves_bind _ _ _ _ _ _ _ (leaves_link _ _ cpufeatures.2)). intros _.
  apply (leaves_bind _ _ _ _ _ [] [] (leaves_log _ _)). intros _.
  apply leaves_ret.
Qed.

(** When the tool's copy of the NDK is configured ([toolchains] is there),
    [ensureAndroidNDK] does nothing.  When it is not and the listing of the
    local SDK holds a directory whose name starts with [28.], the first such
    entry is used: nothing is started, the two directories are made, and
    [cpufeatures] and [prebuilt] are linked from that entry, each only where
    [os.Stat] reports that nothing is.  The run returns whatever becomes of
    the directories and links it tries to make. *)
Theorem ensureAndroidNDK_local
    (env : Env) (lib : Library) (fs : FileSys) (entries : list DirEntry) :
  let run := Rev1Build.ensureAndroidNDK env lib fs in
  let top := filepath_Join [ndkDir env; "toolchains"] in
  (fs_Stat fs top = StatOk ->
   run = mkRun (Ok (ndkDir env)) fs
               [EvStat top StatOk; EvLog "Android NDK already configured"])
  /\ (fs_Stat fs top <> StatOk ->
      os_ReadDir lib fs (localNDKBase lib) = inl entries ->
      Rev1Build.findNDK (localNDKBase lib) entries <> "" ->
      run_result run = Ok (ndkDir env)
      /\ started (run_trace run) = []
      /\ In (EvLog ("Using Android NDK from: " +:+ Rev1Build.findNDK (localNDKBase lib) entries))
            (run_trace run)
      /\ (exists entry,
             List.find (fun entry => entry_IsDir entry
                                     && String.prefix "28." (entry_Name entry)) entries
             = Some entry
             /\ Rev1Build.findNDK (localNDKBase lib) entries
                = filepath_Join [localNDKBase lib; entry_Name entry])
      /\ let localNDK := Rev1Build.findNDK (localNDKBase lib) entries in
         let fs1 := made (made fs (filepath_Join [ndkDir env; "sources"; "android"]))
                         (filepath_Join [ndkDir env; "toolchains"; "llvm"]) in
         let cpufeatures :=
           linkAttempt fs1
             (filepath_Join [localNDK; "sources"; "android"; "cpufeatures"])
             (filepath_Join [ndkDir env; "sources"; "android"; "cpufeatures"]) in
         let prebuilt :=
           linkAttempt cpufeatures.2
             (filepath_Join [localNDK; "toolchains"; "llvm"; "prebuilt"])
             (filepath_Join [ndkDir env; "toolchains"; "llvm"; "prebuilt"]) in
         actions (run_trace run) = cpufeatures.1 ++ prebuilt.1
         /\ run_fs run = prebuilt.2).
Proof.
  intros run top. subst run. rewrite ensureAndroidNDK_unfold. fold top.
  rewrite skip_configured. split.
  - intros ->. reflexivity.
  - intros Hstat Hread Hfound.
    rewrite (readDir_listed lib _ fs entries _ Hread), (located _ fs _ _ Hfound).
    destruct (configureNDK_quiet env (Rev1Build.findNDK (localNDKBase lib) entries) fs)
      as (dir & Hres & -> & Hst).
    assert (In (EvLog ("Using Android NDK from: " +:+ Rev1Build.findNDK (localNDKBase lib) entries))
               (run_trace (configureNDK env (Rev1Build.findNDK (localNDKBase lib) entries) fs)))
      as Hlog.
    { unfold configureNDK. rewrite run_log_then. by left. }
    pose proof (configureNDK_links env (Rev1Build.findNDK (localNDKBase lib) entries) fs)
      as Hlinks.
    cbv zeta in Hlinks. cbv zeta.
    revert Hlinks.
    generalize (linkAttempt
      (linkAttempt
         (made (made fs (filepath_Join [ndkDir env; "sources"; "android"]))
               (filepath_Join [ndkDir env; "toolchains"; "llvm"]))
         (filepath_Join [Rev1Build.findNDK (localNDKBase lib) entries;
                         "sources"; "android"; "cpufeatures"])
         (filepath_Join [ndkDir env; "sources"; "android"; "cpufeatures"])).2
      (filepath_Join [Rev1Build.findNDK (localNDKBase lib) entries;
                      "toolchains"; "llvm"; "prebuilt"])
      (filepath_Join [ndkDir env; "toolchains"; "llvm"; "prebuilt"])).
    generalize (linkAttempt
         (made (made fs (filepath_Join [ndkDir env; "sources"; "android"]))
               (filepath_Join [ndkDir env; "toolchains"; "llvm"]))
         (filepath_Join [Rev1Build.findNDK (localNDKBase lib) entries;
                         "sources"; "android"; "cpufeatures"])
         (filepath_Join [ndkDir env; "sources"; "android"; "cpufeatures"])).
    intros first second (a & Hrun & Hacts).
    assert (run_fs (configureNDK env (Rev1Build.findNDK (localNDKBase lib) entries) fs)
            = second.2) as Hfs by (by rewrite Hrun).
    clear Hrun.
    revert Hres Hst Hlog Hacts Hfs.
    generalize (configureNDK env (Rev1Build.findNDK (localNDKBase lib) entries) fs).
    intros r Hres Hst Hlog Hacts Hfs.
    assert (exists entry,
               List.find (fun entry => entry_IsDir entry
                                       && String.prefix "28." (entry_Name entry)) entries
               = Some entry
               /\ Rev1Build.findNDK (localNDKBase lib) entries
                  = filepath_Join [localNDKBase lib; entry_Name entry]) as Hentry.
    { unfold Rev1Build.findNDK in *.
      destruct (List.find _ entries) as [entry|]; [by exists entry | done]. }
    destruct (fs_Stat fs top); [done | |]; cbn [run_result run_fs run_trace started];
      (split; [done|]; split; [done|]; split; [by right; right |];
       split; [done|]; split; [exact Hacts | exact Hfs]).
Qed.

Lemma In_started_bind {A B : Type} (m : M A) (f : A -> M B) (fs : FileSys) (x : Cmd * error) :
  In x (started (run_trace ((m ≫= f) fs))) ->
  In x (started (run_trace (m fs)))
  \/ exists a, run_result (m fs) = Ok a /\ In x (started (run_trace (f a (run_fs (m fs))))).
Proof.
  rewrite run_bind. destruct (run_result (m fs)) as [a|msg]; cbn [run_trace].
  - rewrite started_app, in_app_iff. intros [H|H]; [by left | right; by exists a].
  - by left.
Qed.

Lemma chooseNDK_started env lib (found : string) fs x :
  In x (started (run_trace
          ((if String.eqb found "" then
              st ← os_Stat (cmd_Path (sdkManager env lib));
              match st with
              | StatOk =>
                  log "Installing Android NDK r28 via sdkmanager...";;
                  runCmd env (localSDK lib) (cmd_Path (sdkManager env lib))
                    ["--install"; "ndk;28.0.13004108"];;
                  mret (filepath_Join [localNDKBase lib; "28.0.13004108"])
              | _ =>
                  fatal ("Android NDK r28 not found and sdkmanager not available. "
                         +:+ "Please install NDK r28 via Android Studio.")
              end
            else mret found) fs))) ->
  x.1 = sdkManager env lib.
Proof.
  destruct (String.eqb found ""); [|intros []].
  intros H. apply In_started_bind in H as [H|(st & _ & H)];
    [cbn [os_Stat run_trace started] in H; destruct H|].
  cbn [run_fs os_Stat] in H. destruct st; [|destruct H..].
  rewrite run_log_then in H. cbn [run_trace started] in H.
  apply In_started_bind in H as [H|([] & _ & [])].
  rewrite runCmd_run in H. cbv zeta in H.
  change (mkCmd (localSDK lib) (cmd_Path (sdkManager env lib))
            ["--install"; "ndk;28.0.13004108"] (os_Environ env))
    with (sdkManager env lib) in H.
  revert H. destruct (exec_Run env (sdkManager env lib) fs).1;
    cbn [run_trace started]; by intros [<-|[]].
Qed.

(** The one program [ensureAndroidNDK] can start is [sdkmanager]. *)
Lemma ensureAndroidNDK_started env lib fs x :
  In x (started (run_trace (Rev1Build.ensureAndroidNDK env lib fs))) -> x.1 = sdkManager env lib.
Proof.
  rewrite ensureAndroidNDK_unfold, skip_configured.
  destruct (fs_Stat fs _); cbn [run_trace started]; [intros [] | |].
  all: intros H; apply In_started_bind in H as [H|(entries & _ & H)];
         [cbn [Rev1Build.readDir run_trace started] in H; destruct H|].
  all: cbn [run_fs Rev1Build.readDir] in H.
  all: apply In_started_bind in H as [H|(found & _ & H)].
  all: try (by apply chooseNDK_started in H).
  all: match type of H with
       | In _ (started (run_trace (configureNDK ?e ?f ?st))) =>
           destruct (configureNDK_quiet e f st) as (? & _ & _ & Hq);
           rewrite Hq in H; destruct H
       end.
Qed.

(** The [switch] of [buildTarget] answers with the arguments the
    synthesizer gives for the sysroot path relative to [srcRoot], and starts
    nothing but [tar] and [sdkmanager]. *)
Lemma platformSwitch_spec env lib t args fs :
  let rel :=
    (filepath_Rel lib (srcRoot env)
       (Rev1Build.sysrootPath env (Rev1Build.sysrootArch (CPU t)))).1 in
  (forall x, In x (started (run_trace (Rev1Build.platformSwitch env lib t args fs))) ->
             hd "" (cmd_Args x.1) <> "gen")
  /\ (forall args', run_result (Rev1Build.platformSwitch env lib t args fs) = Ok args' ->
                    args' = Rev1.platformArgs rel t args).
Proof.
  intros rel. unfold Rev1Build.platformSwitch, Rev1.platformArgs.
  destruct (String.eqb (OS t) "mac"); [split; [intros x [] | by intros ? [= <-]]|].
  destruct (String.eqb (OS t) "linux").
  { split.
    - intros x H. apply In_started_bind in H as [H|(dir & _ & [])].
      destruct x as [c e]. apply ensureLinuxSysroot_tar in H
        as (data & sysroots & info & fs2 & _ & _ & _ & _ & _ & -> & _). done.
    - intros args'. rewrite run_bind.
      destruct (run_result (Rev1Build.ensureLinuxSysroot env lib (CPU t) fs)) as [dir|msg] eqn:Hr;
        [|discriminate].
      apply ensureLinuxSysroot_Ok in Hr as ->. cbn [run_result mret M_ret].
      by intros [= <-]. }
  destruct (String.eqb (OS t) "win"); [split; [intros x [] | by intros ? [= <-]]|].
  destruct (String.eqb (OS t) "android").
  { split.
    - intros x H. apply In_started_bind in H as [H|(dir & _ & [])].
      apply ensureAndroidNDK_started in H. by rewrite H.
    - intros args'. rewrite run_bind.
      destruct (run_result (Rev1Build.ensureAndroidNDK env lib fs)); [|discriminate].
      by intros [= <-]. }
  destruct (String.eqb (OS t) "ios"); (split; [intros x [] | by intros ? [= <-]]).
Qed.

(** Whenever [buildTarget] of the first revision gets as far as [gn gen],
    the directives it passes are those of the synthesizer for the target, with
    the sysroot path relative to [srcRoot] that [filepath.Rel] gave; no other
    program it starts has [gen] as its first argument. *)
Theorem buildTarget_passes_gnArgs
    (env : Env) (lib : Library) (t : Target) (fs : FileSys) (c : Cmd) (e : error) :
  In (EvRun c e) (run_trace (Rev1Build.buildTarget env lib t fs)) ->
  hd "" (cmd_Args c) = "gen" ->
  c = gnGen env t
        (Rev1.gnArgs
           (filepath_Rel lib (srcRoot env)
              (Rev1Build.sysrootPath env (Rev1Build.sysrootArch (CPU t)))).1 t).
Proof.
  intros Hin Hgen. apply In_started in Hin. revert Hin. unfold Rev1Build.buildTarget.
  destruct (platformSwitch_spec env lib t (Rev1.baselineArgs t ++ ["enable_dsyms=false"]) fs)
    as [Hstarted Hargs].
  intros H. apply In_started_bind in H as [H|(args' & Hok & H)].
  { apply Hstarted in H. done. }
  apply Hargs in Hok as ->. fold (Rev1.gnArgs
    (filepath_Rel lib (srcRoot env)
       (Rev1Build.sysrootPath env (Rev1Build.sysrootArch (CPU t)))).1 t) in H.
  apply In_started_bind in H as [H|([] & _ & H)].
  - rewrite runCmd_run in H. cbv zeta in H.
    fold (gnGen env t (Rev1.gnArgs
      (filepath_Rel lib (srcRoot env)
         (Rev1Build.sysrootPath env (Rev1Build.sysrootArch (CPU t)))).1 t)) in H.
    revert H. destruct (exec_Run env _ _).1; cbn [run_trace started];
      intros [[= <- _]|[]]; reflexivity.
  - rewrite runCmd_run in H. cbv zeta in H.
    revert H. destruct (exec_Run env _ _).1; cbn [run_trace started];
      intros [[= <- _]|[]]; discriminate.
Qed.

(* ===================================================================== *)
(** * Properties of [main] *)
(* ===================================================================== *)

Lemma init_nearest_root_witness :
  run_fs (init cleanHost goModFiles) = goModFiles
  /\ nearestRoot goModFiles "/work/cronet-go/cmd/build" (run_result (init cleanHost goModFiles)).
Proof. exact (init_nearest_root cleanHost _ goModFiles eq_refl). Defined.

(** The order in which the process can end before a command runs.  [init]
    comes first: when it is fatal, nothing of [main] happens.  Then
    [flag.Parse()] may end the process, then the missing command (the usage
    exit).  Then the selector is resolved, before the command is looked at:
    a selector that does not resolve is fatal for every command word, for
    [sync] and [publish] too, which use no target.  In each of these cases
    the process has done nothing but the lookups of [init], and the file
    system is as it was. *)
Theorem main_parses_first
    (env : Env) (host : Host) (build : Env -> list Target -> M unit)
    (flags : Flags) (fs : FileSys) :
  let start := init host fs in
  let run := process env host build flags fs in
  match run_result start with
  | Fatal msg => run = mkRun (Fatal msg) fs (run_trace start)
  | Ok None => False
  | Ok (Some root) =>
      match flags with
      | FlagExit status => run = mkRun (Ok (FlagExited status)) fs (run_trace start)
      | Parsed _ [] => run = mkRun (Ok UsageExit) fs (run_trace start)
      | Parsed targetStr (cmd :: _) =>
          forall msg,
            parseTargets (runtime_GOOS env) (runtime_GOARCH env) targetStr = Fatal msg ->
            run = mkRun (Fatal msg) fs (run_trace start ++ [EvFatal msg])
      end
  end.
Proof.
  intros start run. subst run start. unfold process. rewrite run_bind.
  assert (run_fs (init host fs) = fs /\ run_result (init host fs) <> Ok None)
    as [Hfs Hnone].
  { unfold init. destruct (os_Getwd host) as [wd|e].
    - destruct (findRoot_spec (String.length wd + 2) wd fs (passes_bound wd)) as [H1 H2].
      split; [exact H1|]. intros E. rewrite E in H2. exact H2.
    - split; [reflexivity | discriminate]. }
  rewrite Hfs.
  destruct (run_result (init host fs)) as [[root|]|msg]; [|done|reflexivity].
  generalize (run_trace (init host fs)). intros tr.
  destruct flags as [status | targetStr [|cmd rest]]; unfold main.
  - cbn [mret M_ret run_result run_fs run_trace]. by rewrite app_nil_r.
  - cbn [mret M_ret run_result run_fs run_trace]. by rewrite app_nil_r.
  - intros msg Hparse.
    change (runtime_GOOS (withRoot env root)) with (runtime_GOOS env).
    change (runtime_GOARCH (withRoot env root)) with (runtime_GOARCH env).
    rewrite Hparse, run_bind. reflexivity.
Qed.

Lemma main_parses_first_witness :
  process bsdEnv cleanHost Rev2.cmdBuild (Parsed "" ["sync"]) goModFiles
  = mkRun (Fatal "unsupported host platform: freebsd/amd64") goModFiles
          (run_trace (init cleanHost goModFiles)
           ++ [EvFatal "unsupported host platform: freebsd/amd64"])
  /\ process bsdEnv cleanHost Rev2.cmdBuild (Parsed "" ["publish"]) ∅
     = mkRun (Fatal "could not find project root (go.mod)") ∅
             (run_trace (init cleanHost ∅)).
Proof.
  split.
  - pose proof (main_parses_first bsdEnv cleanHost Rev2.cmdBuild (Parsed "" ["sync"])
                  goModFiles) as H.
    cbv zeta in H.
    assert (run_result (init cleanHost goModFiles) = Ok (Some "/work/cronet-go")) as Hroot
      by (vm_compute; reflexivity).
    rewrite Hroot in H. exact (H _ eq_refl).
  - pose proof (main_parses_first bsdEnv cleanHost Rev2.cmdBuild (Parsed "" ["publish"])
                  ∅) as H.
    cbv zeta in H.
    assert (run_result (init cleanHost ∅) = Fatal "could not find project root (go.mod)")
      as Hroot by (vm_compute; reflexivity).
    rewrite Hroot in H. exact H.
Defined.

Lemma ensureLinuxSysroot_verified_witness :
  exists data sysroots info payload,
    fs_ReadFile sysrootsOnly (sysrootsFile tarFailsEnv) = Some data
    /\ json_Unmarshal sdkLibrary data = inl sysroots
    /\ sysroots !! ("bullseye_" +:+ Rev1Build.sysrootArch "x64") = Some info
    /\ http_Get tarFailsEnv (URL info +:+ "/" +:+ Sha256Sum info)
       = HttpResponse 200 payload None
    /\ hex_EncodeToString (sha256_Sum payload) = Sha256Sum info
    /\ tarSysroot tarFailsEnv sysrootEntry = tarSysroot tarFailsEnv info.
Proof.
  assert (In (EvRun (tarSysroot tarFailsEnv sysrootEntry) (Some "exit status 2"))
             (run_trace (Rev1Build.ensureLinuxSysroot tarFailsEnv sdkLibrary "x64" sysrootsOnly)))
    as Hin by (vm_compute; tauto).
  exact (ensureLinuxSysroot_verified tarFailsEnv sdkLibrary "x64" sysrootsOnly _ _ Hin).
Defined.

Lemma ensureLinuxSysroot_failed_extraction_witness :
  (exists msg,
      run_result (Rev1Build.ensureLinuxSysroot tarFailsEnv sdkLibrary "x64" sysrootsOnly)
      = Fatal msg)
  /\ Rev1Build.ensureLinuxSysroot tarFailsEnv sdkLibrary "x64"
       (run_fs (Rev1Build.ensureLinuxSysroot tarFailsEnv sdkLibrary "x64" sysrootsOnly))
     = mkRun (Ok (Rev1Build.sysrootPath tarFailsEnv (Rev1Build.sysrootArch "x64")))
             (run_fs (Rev1Build.ensureLinuxSysroot tarFailsEnv sdkLibrary "x64" sysrootsOnly))
             [EvStat (Rev1Build.sysrootPath tarFailsEnv (Rev1Build.sysrootArch "x64")) StatOk;
              EvLog ("Sysroot already exists: "
                     +:+ Rev1Build.sysrootPath tarFailsEnv (Rev1Build.sysrootArch "x64"))].
Proof.
  assert (In (EvRun (tarSysroot tarFailsEnv sysrootEntry) (Some "exit status 2"))
             (run_trace (Rev1Build.ensureLinuxSysroot tarFailsEnv sdkLibrary "x64" sysrootsOnly)))
    as Hin by (vm_compute; tauto).
  exact (ensureLinuxSysroot_failed_extraction tarFailsEnv sdkLibrary "x64" sysrootsOnly
           _ _ Hin (fun st H => H)).
Defined.

Lemma buildTarget_passes_gnArgs_witness :
  gnGen quietEnv linux_x64 (Rev1.gnArgs "build/linux/debian_bullseye_amd64-sysroot" linux_x64)
  = gnGen quietEnv linux_x64
      (Rev1.gnArgs
         (filepath_Rel sdkLibrary (srcRoot quietEnv)
            (Rev1Build.sysrootPath quietEnv (Rev1Build.sysrootArch (CPU linux_x64)))).1 linux_x64).
Proof.
  assert (In (EvRun (gnGen quietEnv linux_x64
                       (Rev1.gnArgs "build/linux/debian_bullseye_amd64-sysroot" linux_x64))
                    None)
             (run_trace (Rev1Build.buildTarget quietEnv sdkLibrary linux_x64 sysrootCached))) as Hin
    by (vm_compute; tauto).
  exact (buildTarget_passes_gnArgs quietEnv sdkLibrary linux_x64 sysrootCached _ _ Hin eq_refl).
Defined.

Lemma ensureLinuxSysroot_cached_witness :
  Rev1Build.ensureLinuxSysroot quietEnv sdkLibrary "x64" sysrootCached
  = mkRun (Ok (Rev1Build.sysrootPath quietEnv (Rev1Build.sysrootArch "x64"))) sysrootCached
          [EvStat (Rev1Build.sysrootPath quietEnv (Rev1Build.sysrootArch "x64")) StatOk;
           EvLog ("Sysroot already exists: "
                  +:+ Rev1Build.sysrootPath quietEnv (Rev1Build.sysrootArch "x64"))].
Proof.
  pose proof (ensureLinuxSysroot_cached quietEnv sdkLibrary "x64" sysrootCached) as H.
  cbv zeta in H. destruct H as (_ & H & _). apply H.
  - vm_compute. discriminate.
  - vm_compute. reflexivity.
Defined.

Lemma ensureAndroidNDK_local_witness :
  run_result (Rev1Build.ensureAndroidNDK quietEnv sdkLibrary ∅) = Ok (ndkDir quietEnv)
  /\ started (run_trace (Rev1Build.ensureAndroidNDK quietEnv sdkLibrary ∅)) = []
  /\ actions (run_trace (Rev1Build.ensureAndroidNDK quietEnv sdkLibrary ∅))
     = [EvSymlink
          "/home/dev/Library/Android/sdk/ndk/28.0.13004108/sources/android/cpufeatures"
          (filepath_Join [ndkDir quietEnv; "sources"; "android"; "cpufeatures"]) None;
        EvSymlink
          "/home/dev/Library/Android/sdk/ndk/28.0.13004108/toolchains/llvm/prebuilt"
          (filepath_Join [ndkDir quietEnv; "toolchains"; "llvm"; "prebuilt"]) None].
Proof.
  pose proof (ensureAndroidNDK_local quietEnv sdkLibrary ∅
                [mkDirEntry "27.1.12297006" true; mkDirEntry "28.0.13004108" true;
                 mkDirEntry "28.2.13676358" true]) as H.
  cbv zeta in H. destruct H as [_ H].
  destruct H as (H1 & H2 & _ & _ & H3 & _).
  - vm_compute. discriminate.
  - reflexivity.
  - vm_compute. discriminate.
  - split; [exact H1|]. split; [exact H2|]. rewrite H3. vm_compute. reflexivity.
Defined.

Lemma sysroot_of_registry_witness :
  Rev1Build.sysrootArch (CPU linux_arm64) = "arm64"
  /\ Rev2.sysrootDir (CPU linux_arm64) = "out/sysroot-build/bullseye/bullseye_arm64_staging"
  /\ Rev2.sysrootDir "x86" = "out/sysroot-build/bullseye/bullseye__staging".
Proof.
  destruct (sysroot_of_registry linux_arm64 "x86") as [H1 H2].
  destruct H1 as (Ha & Hb & _).
  - apply (bool_decide_eq_true_1 _). vm_compute. reflexivity.
  - reflexivity.
  - split; [exact Ha|]. split; [exact Hb|].
    apply H2; vm_compute; discriminate.
Defined.

(* ===================================================================== *)
(** * Properties of [copyFile] *)
(* ===================================================================== *)

(** A node put where nothing was leaves every chain of links that ends in a
    node as it is. *)
Lemma fs_follow_fresh fuel (fs : FileSys) key node path p n :
  fs !! key = None ->
  fs_follow fuel fs path = Some (p, Some n) ->
  fs_follow fuel (<[key := node]> fs) path = Some (p, Some n).
Proof.
  intros Hkey. revert path.
  induction fuel as [|fuel IH]; intros path; unfold fs_follow; fold fs_follow.
  - destruct (decide (path = key)) as [->|Hne].
    + rewrite Hkey. discriminate.
    + by rewrite lookup_insert_ne.
  - destruct (decide (path = key)) as [->|Hne].
    + rewrite Hkey. discriminate.
    + rewrite lookup_insert_ne by done.
      destruct (fs !! path) as [[d| |tgt]|]; try done. apply IH.
Qed.

Lemma fs_ReadFile_follow (fs : FileSys) path data :
  fs_ReadFile fs path = Some data <->
  exists p, fs_follow maxSymlinks fs path = Some (p, Some (File data)).
Proof.
  unfold fs_ReadFile, fs_Open.
  destruct (fs_follow maxSymlinks fs path) as [[p [[d| |tgt]|]]|]; split;
    try discriminate; try (intros [q [=]]); try done.
  - intros [= ->]. by exists p.
  - by subst.
Qed.

Lemma fs_ReadFile_fresh (fs : FileSys) key node path data :
  fs !! key = None ->
  fs_ReadFile fs path = Some data ->
  fs_ReadFile (<[key := node]> fs) path = Some data.
Proof.
  intros Hkey [p Hp]%fs_ReadFile_follow. apply fs_ReadFile_follow. exists p.
  by apply fs_follow_fresh.
Qed.

(** What [os.MkdirAll] changes, when it changes anything, is a path that
    named nothing. *)
Lemma fs_MkdirAll_spec (fs fs' : FileSys) dir :
  fs_MkdirAll fs dir = Done fs' ->
  fs' = fs \/ (fs !! dir = None /\ fs' = <[dir := Dir]> fs).
Proof.
  unfold fs_MkdirAll.
  destruct (fs_follow maxSymlinks fs dir) as [[p [[d| |tgt]|]]|] eqn:Hf; try discriminate.
  - intros [= <-]. by left.
  - destruct (String.eqb_spec p dir) as [->|]; [|discriminate]. intros [= <-].
    right. split; [|done]. by apply fs_follow_end in Hf as [Hf _].
Qed.

(** [copyFile] from a file to a path that names nothing yet, when the
    directory of the destination can be made: the run is not fatal, the
    destination then reads as the source did, the source still reads the
    same, and nothing else has changed but the directory made. *)
Theorem copyFile_copies (src dst data : string) (fs fs1 : FileSys) :
  fs_ReadFile fs src = Some data ->
  fs !! dst = None ->
  fs_MkdirAll fs (filepath_Dir dst) = Done fs1 ->
  filepath_Dir dst <> dst ->
  run_result (copyFile src dst fs) = Ok tt
  /\ fs_ReadFile (run_fs (copyFile src dst fs)) dst = Some data
  /\ fs_ReadFile (run_fs (copyFile src dst fs)) src = Some data
  /\ run_fs (copyFile src dst fs) = <[dst := File data]> fs1.
Proof.
  intros Hsrc Hdst Hmk Hdir.
  assert (fs_Open fs src = Done (File data)) as Hopen.
  { revert Hsrc. unfold fs_ReadFile. destruct (fs_Open fs src) as [[d| |t]|e]; congruence. }
  assert (fs1 !! dst = None /\ fs_ReadFile fs1 src = Some data) as [Hdst1 Hsrc1].
  { destruct (fs_MkdirAll_spec _ _ _ Hmk) as [->|[Hfresh ->]]; [done|].
    split; [by rewrite lookup_insert_ne | by apply fs_ReadFile_fresh]. }
  assert (fs_Create fs1 dst = Done (dst, <[dst := File ""]> fs1)) as Hcreate.
  { unfold fs_Create, maxSymlinks, fs_follow. by rewrite Hdst1. }
  assert (copyFile src dst fs
          = mkRun (Ok tt) (<[dst := File data]> fs1)
                  [EvOpen src None; EvMkdirAll (filepath_Dir dst) None;
                   EvCreate dst None; EvCopy dst data None]) as ->.
  { unfold copyFile. rewrite run_bind. unfold os_Open. rewrite Hopen.
    cbn [run_result run_fs run_trace err_of]. rewrite run_bind. unfold os_MkdirAll.
    rewrite Hmk. cbn [run_result run_fs run_trace err_of]. rewrite run_bind.
    unfold os_Create. rewrite Hcreate. cbn [run_result run_fs run_trace err_of read_all].
    rewrite run_bind. unfold io_Copy, fs_Write.
    cbn [run_result run_fs run_trace mret M_ret app]. by rewrite insert_insert_eq. }
  cbn [run_result run_fs]. split; [done|]. split; [|split; [|done]].
  - apply fs_ReadFile_follow. exists dst. unfold maxSymlinks, fs_follow.
    by rewrite lookup_insert_eq.
  - by apply fs_ReadFile_fresh.
Qed.

Lemma copyFile_copies_witness :
  fs_ReadFile (run_fs (copyFile "/out/cronet_c.h" "/include/cronet_c.h"
                                {["/out/cronet_c.h" := File "c"]}))
              "/include/cronet_c.h" = Some "c".
Proof.
  apply (copyFile_copies "/out/cronet_c.h" "/include/cronet_c.h" "c"
           {["/out/cronet_c.h" := File "c"]}
           (<["/include" := Dir]> {["/out/cronet_c.h" := File "c"]}));
    [vm_compute; reflexivity | vm_compute; reflexivity | vm_compute; reflexivity
    | vm_compute; discriminate].
Defined.
